(** * teamcityrestapiclient.py: the locator builder and the endpoint catalogue

    A shallow embedding of [TeamCityRESTApiClient], [ServerInfo], [Resource]
    and [Session].  Python objects that the client mutates ([self.locators],
    [self.parameters]) live in an explicit heap that is threaded through a
    small state-and-exception monad; the libraries the module calls
    ([requests.get], [dateutil.parser.parse], [int] on a string) are Section
    variables, [datetime] arithmetic is written out.

    The interpreter is the one [setup.py] declares in its classifiers,
    CPython 2.7.  Two of its behaviours differ from later versions and are
    modelled as 2.7 has them: [strftime] refuses a year before 1900, and a
    [dict] lists its keys in the order of its hash table, not in the order
    of the assignments. *)

From Stdlib Require Import String Ascii ZArith List Lia Bool DecimalString Permutation.
Import ListNotations.
Local Open Scope string_scope.
Local Open Scope Z_scope.

(** ** Python values, exceptions, results *)

(** The scalars a caller hands to the setters and to the by-id endpoints. *)
Inductive pyval : Type :=
| PyNone
| PyBool (b : bool)
| PyInt (n : Z)
| PyStr (s : string).

(** A decoded JSON body.  A float keeps its literal: nothing computes on it. *)
#[warnings="-register-all"]
Inductive json : Type :=
| JNull
| JBool (b : bool)
| JInt (n : Z)
| JFloat (literal : string)
| JStr (s : string)
| JList (items : list json)
| JDict (members : list (string * json)).

Inductive exn : Type :=
| AttributeError (what : string)
| TypeError (what : string)
| ValueError (what : string)
| OverflowError (what : string)
| RequestException (what : string)
| JSONDecodeError (what : string).

Inductive result (A : Type) : Type :=
| Ok (a : A)
| Raise (e : exn).
Arguments Ok {A} a.
Arguments Raise {A} e.

Definition result_bind {A B : Type} (r : result A) (k : A -> result B) : result B :=
  match r with
  | Ok a => k a
  | Raise e => Raise e
  end.

Definition is_ok {A : Type} (r : result A) : bool :=
  match r with
  | Ok _ => true
  | Raise _ => false
  end.

(** Truth value testing, as [or] uses it. *)
Definition truthy (v : pyval) : bool :=
  match v with
  | PyNone => false
  | PyBool b => b
  | PyInt n => negb (n =? 0)
  | PyStr s => negb (s =? "")%string
  end.

(** [a or b] where [b] has already been evaluated without effect. *)
Definition py_or (a b : pyval) : pyval := if truthy a then a else b.

Definition str_of_Z (n : Z) : string := NilZero.string_of_int (Z.to_int n).

(** [str(v)], which is also what the conversion [%s] inserts. *)
Definition py_str (v : pyval) : string :=
  match v with
  | PyNone => "None"
  | PyBool true => "True"
  | PyBool false => "False"
  | PyInt n => str_of_Z n
  | PyStr s => s
  end.

(** The conversion [%d]: a number is required; a bool is an int. *)
Definition percent_d (v : pyval) : result string :=
  match v with
  | PyInt n => Ok (str_of_Z n)
  | PyBool b => Ok (str_of_Z (if b then 1 else 0))
  | PyStr _ => Raise (TypeError "%d format: a number is required, not str")
  | PyNone => Raise (TypeError "%d format: a number is required, not NoneType")
  end.

(** ** Dictionaries

    A [dict] is kept as its entries in the order in which their keys were
    first assigned; assigning to a key already present replaces the value
    where it stands.  Lookup and membership do not depend on that order.  It
    is the history from which the hash table of the interpreter is rebuilt:
    the order in which CPython 2.7 lists the keys is not the order of this
    list but that of the slots of the table, see [PyDict] and [listed_keys]
    below. *)
Definition dict (V : Type) : Type := list (string * V).

Fixpoint dict_set {V : Type} (k : string) (v : V) (d : dict V) : dict V :=
  match d with
  | [] => [(k, v)]
  | (k', v') :: d' =>
      if (k =? k')%string then (k', v) :: d' else (k', v') :: dict_set k v d'
  end.

Fixpoint dict_get {V : Type} (k : string) (d : dict V) : option V :=
  match d with
  | [] => None
  | (k', v') :: d' => if (k =? k')%string then Some v' else dict_get k d'
  end.

(** The keys in the order of their first assignment. *)
Definition dict_keys {V : Type} (d : dict V) : list string := map fst d.

(** *** The hash table of CPython 2.7

    [stringobject.c] and [dictobject.c] of CPython 2.7, as far as they fix
    the order in which a dict with [str] keys lists them.  A [long] and a
    [size_t] have [w] bits, 64 on LP64 builds and 32 on the others; the hash
    is kept as the [size_t] the table casts it to.  Hash randomisation is
    off unless the interpreter is started with [-R]. *)
Module PyDict.

Definition wrap (w x : Z) : Z := x mod 2 ^ w.

(** The loop [x = (1000003*x) ^ *p++] of [string_hash]. *)
Fixpoint hash_chars (w x : Z) (s : string) : Z :=
  match s with
  | EmptyString => x
  | String ch rest =>
      hash_chars w (Z.lxor (wrap w (1000003 * x)) (Z.of_nat (nat_of_ascii ch))) rest
  end.

(** [string_hash]: the empty string hashes to 0, and -1 is replaced by -2.
    The length is a [Py_ssize_t] of the same width. *)
Definition string_hash (w : Z) (s : string) : Z :=
  match s with
  | EmptyString => 0
  | String ch _ =>
      let x := Z.shiftl (Z.of_nat (nat_of_ascii ch)) 7 in
      let x := hash_chars w x s in
      let x := Z.lxor x (wrap w (Z.of_nat (String.length s))) in
      if x =? 2 ^ w - 1 then 2 ^ w - 2 else x
  end.

Definition PyDict_MINSIZE : nat := 8.
Definition PERTURB_SHIFT : Z := 5.

(** The slots of a table, each empty or holding a key.  The module deletes
    no key, so no slot is a dummy and the fill is the number of keys. *)
Definition table : Type := list (option string).

Definition free_or_same (t : table) (index : nat) (key : string) : bool :=
  match nth index t None with
  | None => true
  | Some k => (k =? key)%string
  end.

(** The probe sequence [i = (i << 2) + i + perturb + 1], the slot being
    [i & mask], with [perturb >>= PERTURB_SHIFT] after each step.  The loop
    of the interpreter ends because the table always has a free slot; [fuel]
    bounds it here. *)
Fixpoint probe (fuel : nat) (w : Z) (t : table) (key : string) (i perturb : Z)
  : option nat :=
  match fuel with
  | O => None
  | S fuel' =>
      let i := wrap w (Z.shiftl i 2 + i + perturb + 1) in
      let index := Z.to_nat (Z.land i (Z.of_nat (length t) - 1)) in
      if free_or_same t index key then Some index
      else probe fuel' w t key i (Z.shiftr perturb PERTURB_SHIFT)
  end.

(** [lookdict_string]: the slot of [key], or the free slot where it goes. *)
Definition lookdict_string (w : Z) (t : table) (key : string) : option nat :=
  let hash := string_hash w key in
  let i := Z.land hash (Z.of_nat (length t) - 1) in
  if free_or_same t (Z.to_nat i) key then Some (Z.to_nat i)
  else probe (Z.to_nat w + length t) w t key i hash.

Definition store (t : table) (index : nat) (key : string) : table :=
  (firstn index t ++ Some key :: skipn (S index) t)%list.

(** The keys in slot order: what [keys()] and iteration answer. *)
Definition active (t : table) : list string :=
  flat_map (fun slot => match slot with Some k => [k] | None => [] end) t.

(** The loop of [dictresize]: the first power of two above [minused],
    starting from [PyDict_MINSIZE]. *)
Fixpoint newsize (fuel size minused : nat) : nat :=
  match fuel with
  | O => size
  | S fuel' =>
      if (size <=? minused)%nat then newsize fuel' (2 * size) minused else size
  end.

Definition insertdict_clean (w : Z) (t : table) (key : string) : table :=
  match lookdict_string w t key with
  | Some index => store t index key
  | None => t
  end.

(** [dictresize]: the keys are inserted again, in slot order, into an empty
    table of the new size. *)
Definition dictresize (w : Z) (t : table) (minused : nat) : table :=
  fold_left (insertdict_clean w) (active t)
    (repeat None (newsize minused PyDict_MINSIZE minused)).

(** [PyDict_SetItem] as to the keys: a key already present keeps its slot; a
    new key takes the slot found, and the table is resized to four times its
    number of keys (twice above 50000 keys) once two thirds of it are in
    use. *)
Definition PyDict_SetItem (w : Z) (t : table) (key : string) : table :=
  match lookdict_string w t key with
  | None => t
  | Some index =>
      match nth index t None with
      | Some _ => t
      | None =>
          let t := store t index key in
          let used := length (active t) in
          if (length t * 2 <=? used * 3)%nat
          then dictresize w t ((if 50000 <? Z.of_nat used then 2 else 4) * used)
          else t
      end
  end.

(** [{}]. *)
Definition PyDict_New : table := repeat None PyDict_MINSIZE.

(** The order in which a dict lists its keys after they were assigned in the
    order [assigned]. *)
Definition keys (w : Z) (assigned : list string) : list string :=
  active (fold_left (PyDict_SetItem w) assigned PyDict_New).

End PyDict.

(** [d.keys()] and [d.items()] on CPython 2.7 with words of [w] bits. *)
Definition listed_keys {V : Type} (w : Z) (d : dict V) : list string :=
  PyDict.keys w (dict_keys d).

Definition listed_items {V : Type} (w : Z) (d : dict V) : list (string * V) :=
  flat_map (fun k => match dict_get k d with Some v => [(k, v)] | None => [] end)
    (listed_keys w d).

(** ** [datetime] and [timedelta]

    The proleptic Gregorian calendar of the [datetime] module: ordinals count
    days from 0001-01-01, which is day 1. *)
Module PyDatetime.

Definition MINYEAR : Z := 1.
Definition MAXYEAR : Z := 9999.
Definition MAXORDINAL : Z := 3652059.

Definition is_leap (year : Z) : bool :=
  (year mod 4 =? 0) && (negb (year mod 100 =? 0) || (year mod 400 =? 0)).

Definition days_before_year (year : Z) : Z :=
  let y := year - 1 in
  y * 365 + y / 4 - y / 100 + y / 400.

Definition DAYS_IN_MONTH : list Z := [31; 28; 31; 30; 31; 30; 31; 31; 30; 31; 30; 31].
Definition DAYS_BEFORE_MONTH : list Z :=
  [0; 31; 59; 90; 120; 151; 181; 212; 243; 273; 304; 334].

(** Months are numbered from 1. *)
Definition month_entry (table : list Z) (month : Z) : Z :=
  nth (Z.to_nat (month - 1)) table 0.

Definition days_in_month (year month : Z) : Z :=
  if (month =? 2) && is_leap year then 29 else month_entry DAYS_IN_MONTH month.

Definition days_before_month (year month : Z) : Z :=
  month_entry DAYS_BEFORE_MONTH month
  + (if (2 <? month) && is_leap year then 1 else 0).

Definition ymd2ord (year month day : Z) : Z :=
  days_before_year year + days_before_month year month + day.

Definition DI400Y : Z := days_before_year 401.
Definition DI100Y : Z := days_before_year 101.
Definition DI4Y : Z := days_before_year 5.

Definition ord2ymd (ordinal : Z) : Z * Z * Z :=
  let n := ordinal - 1 in
  let n400 := n / DI400Y in
  let n := n mod DI400Y in
  let year := n400 * 400 + 1 in
  let n100 := n / DI100Y in
  let n := n mod DI100Y in
  let n4 := n / DI4Y in
  let n := n mod DI4Y in
  let n1 := n / 365 in
  let n := n mod 365 in
  let year := year + n100 * 100 + n4 * 4 + n1 in
  if (n1 =? 4) || (n100 =? 4) then (year - 1, 12, 31)
  else
    let leapyear := (n1 =? 3) && (negb (n4 =? 24) || (n100 =? 3)) in
    let month := Z.shiftr (n + 50) 5 in
    let preceding :=
      month_entry DAYS_BEFORE_MONTH month
      + (if (2 <? month) && leapyear then 1 else 0) in
    if n <? preceding then
      let month := month - 1 in
      let preceding :=
        preceding
        - (month_entry DAYS_IN_MONTH month
           + (if (month =? 2) && leapyear then 1 else 0)) in
      (year, month, n - preceding + 1)
    else (year, month, n - preceding + 1).

Record datetime : Type := {
  year : Z;
  month : Z;
  day : Z;
  hour : Z;
  minute : Z;
  second : Z;
  microsecond : Z
}.

(** What the constructor of [datetime] accepts. *)
Definition valid (d : datetime) : Prop :=
  MINYEAR <= year d <= MAXYEAR /\
  1 <= month d <= 12 /\
  1 <= day d <= days_in_month (year d) (month d) /\
  0 <= hour d < 24 /\
  0 <= minute d < 60 /\
  0 <= second d < 60 /\
  0 <= microsecond d < 1000000.

Definition toordinal (d : datetime) : Z := ymd2ord (year d) (month d) (day d).

(** A normalised [timedelta]: [0 <= seconds < 86400], [0 <= microseconds < 10^6]. *)
Record timedelta : Type := {
  days : Z;
  seconds : Z;
  microseconds : Z
}.

Definition MAX_DELTA_DAYS : Z := 999999999.

(** [timedelta(days, seconds, microseconds)] for integer arguments. *)
Definition make_timedelta (d s us : Z) : result timedelta :=
  let s := s + us / 1000000 in
  let us := us mod 1000000 in
  let d := d + s / 86400 in
  let s := s mod 86400 in
  if Z.abs d >? MAX_DELTA_DAYS
  then Raise (OverflowError "days out of range for timedelta")
  else Ok {| days := d; seconds := s; microseconds := us |}.

(** [timedelta(minutes=m)]. *)
Definition timedelta_minutes (m : pyval) : result timedelta :=
  match m with
  | PyInt n => make_timedelta 0 (n * 60) 0
  | PyBool b => make_timedelta 0 ((if b then 1 else 0) * 60) 0
  | PyStr _ => Raise (TypeError "unsupported type for timedelta minutes component: str")
  | PyNone => Raise (TypeError "unsupported type for timedelta minutes component: NoneType")
  end.

(** [-delta]. *)
Definition timedelta_neg (t : timedelta) : result timedelta :=
  make_timedelta (- days t) (- seconds t) (- microseconds t).

(** [d + delta]: the sum is taken on the timeline and converted back. *)
Definition datetime_add (d : datetime) (t : timedelta) : result datetime :=
  result_bind
    (make_timedelta (toordinal d + days t)
       (hour d * 3600 + minute d * 60 + second d + seconds t)
       (microsecond d + microseconds t))
    (fun delta =>
       let hh := seconds delta / 3600 in
       let rem := seconds delta mod 3600 in
       if (0 <? days delta) && (days delta <=? MAXORDINAL) then
         let '(y, m, dd) := ord2ymd (days delta) in
         Ok {| year := y; month := m; day := dd;
               hour := hh; minute := rem / 60; second := rem mod 60;
               microsecond := microseconds delta |}
       else Raise (OverflowError "date value out of range")).

(** [d - delta] is [d + (-delta)]. *)
Definition datetime_sub (d : datetime) (t : timedelta) : result datetime :=
  result_bind (timedelta_neg t) (datetime_add d).

Definition digit (n : Z) : ascii := ascii_of_nat (48 + Z.to_nat (n mod 10)).

Definition two_digits (n : Z) : string :=
  String (digit (n / 10)) (String (digit n) EmptyString).

Definition four_digits (n : Z) : string :=
  String (digit (n / 1000)) (String (digit (n / 100)) (two_digits n)).

(** [d.strftime('%Y%m%dT%H%M%S')].  On CPython 2.7 [strftime] raises
    [ValueError] for a year before 1900, whatever the format; from 1900 on
    [%Y] writes the four digits of the year. *)
Definition strftime_basic (d : datetime) : result string :=
  if year d <? 1900
  then Raise (ValueError ("year=" ++ str_of_Z (year d)
                ++ " is before 1900; the datetime strftime() methods require year >= 1900"))
  else
    Ok (four_digits (year d) ++ two_digits (month d) ++ two_digits (day d) ++ "T"
        ++ two_digits (hour d) ++ two_digits (minute d) ++ two_digits (second d)).

(** Seconds from the start of day 0 of the calendar. *)
Definition timeline (d : datetime) : Z :=
  toordinal d * 86400 + hour d * 3600 + minute d * 60 + second d.

End PyDatetime.

(** ** Objects of the module *)

(** A [datetime] as [dateutil] returns it: naive, or aware with a UTC offset
    in minutes. *)
Record parsed_datetime : Type := {
  naive : PyDatetime.datetime;
  utcoffset : option Z
}.

(** [requests.Session()]: the module reads no attribute of it. *)
Record Session : Type := { session_headers : list (string * string) }.

Definition new_Session : Session := {| session_headers := [] |}.

Record Request : Type := {
  url : string;
  auth : pyval * pyval;
  headers : list (string * string)
}.

(** What the module uses of a response: the outcome of [response.json()]. *)
Record Response : Type := {
  status_code : Z;
  response_json : result json
}.

Record ServerInfo : Type := {
  data : json;
  version : json;
  version_major : json;
  version_minor : json;
  build_number : json;
  internal_id : json;
  current_time : parsed_datetime;
  start_time : parsed_datetime;
  build_date : parsed_datetime
}.

Record Client : Type := {
  _session : Session;
  username : pyval;
  password : pyval;
  host : pyval;
  port : pyval;
  base_url : string;
  locators : dict pyval;
  parameters : dict pyval
}.

Definition with_locators (c : Client) (l : dict pyval) : Client :=
  {| _session := _session c; username := username c; password := password c;
     host := host c; port := port c; base_url := base_url c;
     locators := l; parameters := parameters c |}.

Definition with_parameters (c : Client) (p : dict pyval) : Client :=
  {| _session := _session c; username := username c; password := password c;
     host := host c; port := port c; base_url := base_url c;
     locators := locators c; parameters := p |}.

(** What a method returns: the client itself (the setters end in
    [return self]) or a new object. *)
Inductive pyobj : Type :=
| Self
| ServerInfoObj (info : ServerInfo)
| JsonObj (body : json).

(** ** The heap and the monad of methods

    [self] is the client a method runs on, [sent] the requests handed to
    [requests.get] so far, oldest first.  An exception leaves the heap as the
    statements before it made it. *)
Record heap : Type := {
  self : Client;
  sent : list Request
}.

Definition M (A : Type) : Type := heap -> result A * heap.

Definition ret {A : Type} (a : A) : M A := fun h => (Ok a, h).

Definition raise {A : Type} (e : exn) : M A := fun h => (Raise e, h).

Definition bind {A B : Type} (m : M A) (k : A -> M B) : M B :=
  fun h =>
    match m h with
    | (Ok a, h') => k a h'
    | (Raise e, h') => (Raise e, h')
    end.

Definition lift {A : Type} (r : result A) : M A := fun h => (r, h).

Definition get_self : M Client := fun h => (Ok (self h), h).

Definition update_self (f : Client -> Client) : M unit :=
  fun h => (Ok tt, {| self := f (self h); sent := sent h |}).

Declare Scope method_scope.
Delimit Scope method_scope with method.
Notation "x <- m ;; k" := (bind m (fun x => k))
  (at level 61, m at next level, right associativity) : method_scope.
Notation "m ;; k" := (bind m (fun _ => k))
  (at level 61, right associativity) : method_scope.
Notation "x <~ r ;; k" := (result_bind r (fun x => k))
  (at level 61, r at next level, right associativity) : method_scope.
Local Open Scope method_scope.

(** A method run on client [c] with nothing sent yet. *)
Definition run {A : Type} (m : M A) (c : Client) : result A * heap :=
  m {| self := c; sent := [] |}.

Definition outcome {A : Type} (r : result A * heap) : result A := fst r.
Definition client_after {A : Type} (r : result A * heap) : Client := self (snd r).
Definition requests_of {A : Type} (r : result A * heap) : list Request := sent (snd r).

(** ** [Session.build_url] and [Resource] *)

(** [requests.Session] has no attribute [base_url]. *)
Definition Session_base_url (s : Session) : result pyval :=
  Raise (AttributeError "base_url").

(** [Session.build_url]: [args] are the positional arguments and
    [kw_base_url] is [kwargs.get('base_url')]. *)
Definition build_url (s : Session) (args : list pyval) (kw_base_url : pyval)
  : result string :=
  first <~ (if truthy kw_base_url then Ok kw_base_url else Session_base_url s) ;;
  Ok (String.concat "/" (map py_str (first :: args))).

(** [Resource.__init__] with [session=None]: [None] has no [_session], so a
    new [Session] is made. *)
Definition Resource_init : Session := new_Session.

Definition _build_url (args : list pyval) : M string :=
  c <- get_self ;;
  lift (build_url (_session c) args (PyStr (base_url c))).

(** ** Names an instance of [TeamCityRESTApiClient] binds *)

Definition instance_attributes : list string :=
  ["_session"; "username"; "password"; "host"; "port"; "base_url"; "locators";
   "parameters"].

Definition Resource_functions : list string := ["__init__"; "_build_url"].

Definition TeamCityRESTApiClient_functions : list string :=
  ["__init__"; "set_count"; "set_running"; "set_build_type"; "set_tags";
   "set_status"; "set_user"; "set_personal"; "set_canceled"; "set_pinned";
   "set_branch"; "set_agent_name"; "set_since_build"; "set_since_date";
   "set_start"; "set_lookup_limit"; "_get"; "get_server_info";
   "get_all_plugins"; "get_all_builds"; "get_all_builds_by_build_type_id";
   "get_build_by_build_id"; "get_all_changes"; "get_change_by_change_id";
   "get_changes_by_build_id"; "get_all_build_types"; "get_build_type";
   "get_all_projects"; "get_project_by_project_id"; "get_agents";
   "get_agent_by_agent_id"; "get_build_statistics_by_build_id";
   "get_build_tags_by_build_id"; "get_all_vcs_roots";
   "get_vcs_root_by_vcs_root_id"; "get_all_users"; "get_user_by_username"].

(** [hasattr(self, name)], the attributes of [object] apart. *)
Definition hasattr (name : string) : bool :=
  existsb (String.eqb name)
    (instance_attributes ++ TeamCityRESTApiClient_functions ++ Resource_functions).

(** ** A runtime to run the methods against

    One value of each library function, for running examples: a reader of
    plain decimal numerals for [int], a parser of the compact timestamps the
    server sends ([20140301T001005+0000]) for [dateutil], a server that
    answers every request with the same body for [requests.get]. *)
Module Sample.
Import PyDatetime.

Definition digit_value (a : ascii) : option Z :=
  let n := Z.of_nat (nat_of_ascii a) in
  if (48 <=? n) && (n <=? 57) then Some (n - 48) else None.

Fixpoint digits_value (acc : Z) (s : string) : option Z :=
  match s with
  | EmptyString => Some acc
  | String a rest =>
      match digit_value a with
      | Some v => digits_value (acc * 10 + v) rest
      | None => None
      end
  end.

Definition int_of_str (s : string) : result Z :=
  match s with
  | EmptyString => Raise (ValueError "invalid literal for int() with base 10")
  | _ =>
      match digits_value 0 s with
      | Some n => Ok n
      | None => Raise (ValueError "invalid literal for int() with base 10")
      end
  end.

Definition field (s : string) (start len : nat) : option Z :=
  let part := substring start len s in
  if Nat.eqb (String.length part) len then digits_value 0 part else None.

Definition parse_str (s : string) : result parsed_datetime :=
  match field s 0 4, field s 4 2, field s 6 2,
        field s 9 2, field s 11 2, field s 13 2,
        field s 16 2, field s 18 2 with
  | Some y, Some mo, Some d, Some h, Some mi, Some sec, Some oh, Some om =>
      let sign :=
        if (substring 15 1 s =? "-")%string then (-1) else 1 in
      if (substring 8 1 s =? "T")%string && Nat.eqb (String.length s) 20 then
        Ok {| naive := {| year := y; month := mo; day := d; hour := h;
                          minute := mi; second := sec; microsecond := 0 |};
              utcoffset := Some (sign * (oh * 60 + om)) |}
      else Raise (ValueError "Unknown string format")
  | _, _, _, _, _, _, _, _ => Raise (ValueError "Unknown string format")
  end.

Definition server_info_body : json :=
  JDict [("version", JStr "8.1.2 (build 29993)");
         ("versionMajor", JInt 8);
         ("versionMinor", JInt 1);
         ("buildNumber", JStr "29993");
         ("internalId", JStr "b5a3c1f2");
         ("currentTime", JStr "20140301T001005+0000");
         ("startTime", JStr "20140228T080000+0000");
         ("buildDate", JStr "20140213T000000+0000")].

Definition requests_get (r : Request) : result Response :=
  Ok {| status_code := 200; response_json := Ok server_info_body |}.

Definition environ (name : string) : option string := None.

(** A server that answers 404 with the same body. *)
Definition not_found_get (r : Request) : result Response :=
  Ok {| status_code := 404; response_json := Ok server_info_body |}.

(** An environment that names a host and a port. *)
Definition environ_with_port (name : string) : option string :=
  if (name =? "TEAMCITY_HOST")%string then Some "tc.example.org"
  else if (name =? "TEAMCITY_PORT")%string then Some "8111"
  else None.

(** [pprint.pformat] reduced to the name of the class. *)
Definition pformat_dict (obj : pyobj) : string :=
  match obj with
  | Self => "TeamCityRESTApiClient"
  | ServerInfoObj _ => "ServerInfo"
  | JsonObj _ => "json"
  end.

(** The client that [TeamCityRESTApiClient('admin', 'secret',
    'tc.example.org', 8111)] builds. *)
Definition client : Client :=
  {| _session := new_Session; username := PyStr "admin"; password := PyStr "secret";
     host := PyStr "tc.example.org"; port := PyInt 8111;
     base_url := "http://tc.example.org:8111/httpAuth/app/rest";
     locators := []; parameters := [] |}.

End Sample.

(** ** The client *)
Section TeamCity.

(** [int] applied to a [str]. *)
Variable int_of_str : string -> result Z.
(** [os.environ]. *)
Variable environ : string -> option string.
(** [requests.get] with its keyword arguments gathered in a [Request]. *)
Variable requests_get : Request -> result Response.
(** [dateutil.parser.parse] applied to a [str]. *)
Variable dateutil_parse_str : string -> result parsed_datetime.
(** What the attribute reference [self.set_resource] evaluates to: a bound
    method taking the resource, or nothing when neither the instance nor a
    class of its MRO binds the name. *)
Variable set_resource_attr : option (string -> M pyobj).

Definition getenv (name : string) (default : pyval) : pyval :=
  match environ name with
  | Some s => PyStr s
  | None => default
  end.

Definition py_int (v : pyval) : result Z :=
  match v with
  | PyInt n => Ok n
  | PyBool b => Ok (if b then 1 else 0)
  | PyStr s => int_of_str s
  | PyNone => Raise (TypeError "int() argument must be a string or a real number")
  end.

(** [dateutil.parser.parse]: anything but a string (or a stream) is refused. *)
Definition dateutil_parser_parse (v : json) : result parsed_datetime :=
  match v with
  | JStr s => dateutil_parse_str s
  | _ => Raise (TypeError "Parser must be a string or character stream")
  end.

(** [data.get(key)]: [dict.get] answers [None] for a missing key; no other
    decoded value has a [get]. *)
Definition data_get (data : json) (key : string) : result json :=
  match data with
  | JDict members =>
      Ok (match dict_get key members with
          | Some v => v
          | None => JNull
          end)
  | _ => Raise (AttributeError "get")
  end.

Definition ServerInfo_init (data : json) : result ServerInfo :=
  version <~ data_get data "version" ;;
  version_major <~ data_get data "versionMajor" ;;
  version_minor <~ data_get data "versionMinor" ;;
  build_number <~ data_get data "buildNumber" ;;
  internal_id <~ data_get data "internalId" ;;
  current_time <~ result_bind (data_get data "currentTime") dateutil_parser_parse ;;
  start_time <~ result_bind (data_get data "startTime") dateutil_parser_parse ;;
  build_date <~ result_bind (data_get data "buildDate") dateutil_parser_parse ;;
  Ok {| data := data; version := version; version_major := version_major;
        version_minor := version_minor; build_number := build_number;
        internal_id := internal_id; current_time := current_time;
        start_time := start_time; build_date := build_date |}.

Definition TeamCityRESTApiClient_init (username password server port : pyval)
  : result Client :=
  let session := Resource_init in
  let username := py_or username (getenv "TEAMCITY_USER" PyNone) in
  let password := py_or password (getenv "TEAMCITY_PASSWORD" PyNone) in
  let host := py_or server (getenv "TEAMCITY_HOST" PyNone) in
  port <~ (if truthy port then Ok port
           else n <~ py_int (getenv "TEAMCITY_PORT" (PyInt 0)) ;;
                Ok (py_or (PyInt n) (PyInt 80))) ;;
  port_text <~ percent_d port ;;
  Ok {| _session := session; username := username; password := password;
        host := host; port := port;
        base_url := "http://" ++ py_str host ++ ":" ++ port_text ++ "/httpAuth/app/rest";
        locators := []; parameters := [] |}.

(** [self.locators[key] = value] and [self.parameters[key] = value]. *)
Definition assign_locator (key : string) (value : pyval) : M unit :=
  update_self (fun c => with_locators c (dict_set key value (locators c))).

Definition assign_parameter (key : string) (value : pyval) : M unit :=
  update_self (fun c => with_parameters c (dict_set key value (parameters c))).

Definition set_count (count : pyval) : M pyobj :=
  assign_parameter "count" count ;; ret Self.

Definition set_running (running : pyval) : M pyobj :=
  assign_locator "running" running ;; ret Self.

Definition set_build_type (bt : pyval) : M pyobj :=
  assign_locator "buildType" bt ;; ret Self.

Definition set_tags (tags : pyval) : M pyobj :=
  assign_locator "tags" tags ;; ret Self.

Definition set_status (status : pyval) : M pyobj :=
  assign_locator "status" status ;; ret Self.

Definition set_user (user : pyval) : M pyobj :=
  assign_locator "user" user ;; ret Self.

Definition set_personal (personal : pyval) : M pyobj :=
  assign_locator "personal" personal ;; ret Self.

Definition set_canceled (canceled : pyval) : M pyobj :=
  assign_locator "canceled" canceled ;; ret Self.

Definition set_pinned (pinned : pyval) : M pyobj :=
  assign_locator "pinned" pinned ;; ret Self.

Definition set_branch (branch : pyval) : M pyobj :=
  assign_locator "branch" branch ;; ret Self.

Definition set_agent_name (agent_name : pyval) : M pyobj :=
  assign_locator "agentName" agent_name ;; ret Self.

Definition set_since_build (since_build : pyval) : M pyobj :=
  assign_locator "sinceBuild" since_build ;; ret Self.

(** [now] is what [datetime.now()] answers during the call. *)
Definition set_since_date (minutes : pyval) (now : PyDatetime.datetime) : M pyobj :=
  minutes_delta <- lift (PyDatetime.timedelta_minutes minutes) ;;
  minutes_ago <- lift (PyDatetime.datetime_sub now minutes_delta) ;;
  formatted <- lift (PyDatetime.strftime_basic minutes_ago) ;;
  assign_locator "sinceDate" (PyStr (formatted ++ "-0500")) ;;
  ret Self.

Definition set_start (start : pyval) : M pyobj :=
  assign_parameter "start" start ;; ret Self.

Definition set_lookup_limit (lookup_limit : pyval) : M pyobj :=
  assign_locator "lookupLimit" lookup_limit ;; ret Self.

Definition _get (url : string) : M Response :=
  c <- get_self ;;
  let request :=
    {| url := url; auth := (username c, password c);
       headers := [("Accept", "application/json")] |} in
  fun h =>
    (requests_get request, {| self := self h; sent := sent h ++ [request] |}).

Definition get_server_info : M pyobj :=
  url <- _build_url [PyStr "server"] ;;
  response <- _get url ;;
  data <- lift (response_json response) ;;
  info <- lift (ServerInfo_init data) ;;
  ret (ServerInfoObj info).

(** [self.set_resource(arg)]: the attribute reference comes first, then the
    argument, then the call. *)
Definition call_set_resource (arg : result string) : M pyobj :=
  match set_resource_attr with
  | None => raise (AttributeError "set_resource")
  | Some bound_method => resource <- lift arg ;; bound_method resource
  end.

Definition get_all_plugins : M pyobj :=
  call_set_resource (Ok "server/plugins").

Definition get_all_builds (start count : pyval) : M pyobj :=
  set_start start ;;
  set_count count ;;
  call_set_resource (Ok "builds/").

Definition get_all_builds_by_build_type_id (btId start count : pyval) : M pyobj :=
  set_count count ;;
  set_start start ;;
  call_set_resource (Ok ("buildTypes/id:" ++ py_str btId ++ "/builds/")).

Definition get_build_by_build_id (bId : pyval) : M pyobj :=
  call_set_resource (Ok ("builds/id:" ++ py_str bId)).

Definition get_all_changes : M pyobj :=
  call_set_resource (Ok "changes").

Definition get_change_by_change_id (cId : pyval) : M pyobj :=
  call_set_resource (Ok ("changes/id:" ++ py_str cId)).

Definition get_changes_by_build_id (bId : pyval) : M pyobj :=
  assign_parameter "build" (PyStr ("id:" ++ py_str bId)) ;;
  call_set_resource (Ok "changes").

Definition get_all_build_types : M pyobj :=
  call_set_resource (Ok "buildTypes").

Definition get_build_type (btId : pyval) : M pyobj :=
  call_set_resource (Ok ("buildTypes/id:" ++ py_str btId)).

Definition get_all_projects : M pyobj :=
  call_set_resource (Ok "projects").

Definition get_project_by_project_id (pId : pyval) : M pyobj :=
  call_set_resource (Ok ("projects/id:" ++ py_str pId)).

Definition get_agents : M pyobj :=
  call_set_resource (Ok "agents").

Definition get_agent_by_agent_id (aId : pyval) : M pyobj :=
  call_set_resource (text <~ percent_d aId ;; Ok ("agents/id:" ++ text)).

Definition get_build_statistics_by_build_id (bId : pyval) : M pyobj :=
  call_set_resource (Ok ("builds/id:" ++ py_str bId ++ "/statistics")).

Definition get_build_tags_by_build_id (bId : pyval) : M pyobj :=
  call_set_resource (Ok ("builds/id:" ++ py_str bId ++ "/tags")).

Definition get_all_vcs_roots : M pyobj :=
  call_set_resource (Ok "vcs-roots").

Definition get_vcs_root_by_vcs_root_id (vrId : pyval) : M pyobj :=
  call_set_resource (Ok ("vcs-roots/id:" ++ py_str vrId)).

Definition get_all_users : M pyobj :=
  call_set_resource (Ok "users").

Definition get_user_by_username (name : pyval) : M pyobj :=
  call_set_resource (Ok ("users/username:" ++ py_str name)).

(** ** Calls

    One constructor per public method, so that statements can range over
    every call a caller can make. *)
Inductive setter_call : Type :=
| SetCount (count : pyval)
| SetRunning (running : pyval)
| SetBuildType (bt : pyval)
| SetTags (tags : pyval)
| SetStatus (status : pyval)
| SetUser (user : pyval)
| SetPersonal (personal : pyval)
| SetCanceled (canceled : pyval)
| SetPinned (pinned : pyval)
| SetBranch (branch : pyval)
| SetAgentName (agent_name : pyval)
| SetSinceBuild (since_build : pyval)
| SetSinceDate (minutes : pyval) (now : PyDatetime.datetime)
| SetStart (start : pyval)
| SetLookupLimit (lookup_limit : pyval).

Definition call_setter (s : setter_call) : M pyobj :=
  match s with
  | SetCount v => set_count v
  | SetRunning v => set_running v
  | SetBuildType v => set_build_type v
  | SetTags v => set_tags v
  | SetStatus v => set_status v
  | SetUser v => set_user v
  | SetPersonal v => set_personal v
  | SetCanceled v => set_canceled v
  | SetPinned v => set_pinned v
  | SetBranch v => set_branch v
  | SetAgentName v => set_agent_name v
  | SetSinceBuild v => set_since_build v
  | SetSinceDate minutes now => set_since_date minutes now
  | SetStart v => set_start v
  | SetLookupLimit v => set_lookup_limit v
  end.

(** The client after a sequence of setter calls, each made whether or not an
    earlier one raised. *)
Definition after_setters (calls : list setter_call) (c : Client) : Client :=
  fold_left (fun c s => client_after (run (call_setter s) c)) calls c.

Inductive endpoint_call : Type :=
| GetServerInfo
| GetAllPlugins
| GetAllBuilds (start count : pyval)
| GetAllBuildsByBuildTypeId (btId start count : pyval)
| GetBuildByBuildId (bId : pyval)
| GetAllChanges
| GetChangeByChangeId (cId : pyval)
| GetChangesByBuildId (bId : pyval)
| GetAllBuildTypes
| GetBuildType (btId : pyval)
| GetAllProjects
| GetProjectByProjectId (pId : pyval)
| GetAgents
| GetAgentByAgentId (aId : pyval)
| GetBuildStatisticsByBuildId (bId : pyval)
| GetBuildTagsByBuildId (bId : pyval)
| GetAllVcsRoots
| GetVcsRootByVcsRootId (vrId : pyval)
| GetAllUsers
| GetUserByUsername (name : pyval).

Definition call_endpoint (e : endpoint_call) : M pyobj :=
  match e with
  | GetServerInfo => get_server_info
  | GetAllPlugins => get_all_plugins
  | GetAllBuilds start count => get_all_builds start count
  | GetAllBuildsByBuildTypeId btId start count =>
      get_all_builds_by_build_type_id btId start count
  | GetBuildByBuildId bId => get_build_by_build_id bId
  | GetAllChanges => get_all_changes
  | GetChangeByChangeId cId => get_change_by_change_id cId
  | GetChangesByBuildId bId => get_changes_by_build_id bId
  | GetAllBuildTypes => get_all_build_types
  | GetBuildType btId => get_build_type btId
  | GetAllProjects => get_all_projects
  | GetProjectByProjectId pId => get_project_by_project_id pId
  | GetAgents => get_agents
  | GetAgentByAgentId aId => get_agent_by_agent_id aId
  | GetBuildStatisticsByBuildId bId => get_build_statistics_by_build_id bId
  | GetBuildTagsByBuildId bId => get_build_tags_by_build_id bId
  | GetAllVcsRoots => get_all_vcs_roots
  | GetVcsRootByVcsRootId vrId => get_vcs_root_by_vcs_root_id vrId
  | GetAllUsers => get_all_users
  | GetUserByUsername name => get_user_by_username name
  end.

(** ** The command line *)

(** [pprint.pformat(obj.__dict__)]. *)
Variable pformat_dict : pyobj -> string.

(** The command [server info]: the text that [click.echo] prints, or the
    exception that ends the command, and the requests sent on the way. *)
Definition server_info : result string * list Request :=
  match TeamCityRESTApiClient_init PyNone PyNone PyNone PyNone with
  | Raise e => (Raise e, [])
  | Ok tc =>
      let r := run get_server_info tc in
      (obj <~ outcome r ;; Ok (pformat_dict obj), requests_of r)
  end.

End TeamCity.

(** The module as written: [TeamCityRESTApiClient], [Resource] and [object]
    define no [set_resource] and no statement assigns one to an instance
    (compare [hasattr]), so the attribute reference finds nothing. *)
Definition source_set_resource : option (string -> M pyobj) := None.

(** The method [set_resource] as the docstrings of the endpoint methods
    describe it ("an instance of the Client with resource = ..."): it records
    nothing the model keeps and returns the client. *)
Definition documented_set_resource : option (string -> M pyobj) :=
  Some (fun _ => ret Self).

(** ** The assignment a setter call makes

    A summary of each setter used to state what a sequence of calls leaves
    behind: the key and value a call assigns in [self.locators], if the call
    returns and is a locator setter. *)
Definition since_date_text (minutes : pyval) (now : PyDatetime.datetime)
  : result string :=
  result_bind (PyDatetime.timedelta_minutes minutes) (fun delta =>
  result_bind (PyDatetime.datetime_sub now delta) (fun ago =>
  result_bind (PyDatetime.strftime_basic ago) (fun formatted =>
  Ok (formatted ++ "-0500")))).

Definition locator_assignment (s : setter_call) : option (string * pyval) :=
  match s with
  | SetCount _ | SetStart _ => None
  | SetRunning v => Some ("running", v)
  | SetBuildType v => Some ("buildType", v)
  | SetTags v => Some ("tags", v)
  | SetStatus v => Some ("status", v)
  | SetUser v => Some ("user", v)
  | SetPersonal v => Some ("personal", v)
  | SetCanceled v => Some ("canceled", v)
  | SetPinned v => Some ("pinned", v)
  | SetBranch v => Some ("branch", v)
  | SetAgentName v => Some ("agentName", v)
  | SetSinceBuild v => Some ("sinceBuild", v)
  | SetSinceDate minutes now =>
      match since_date_text minutes now with
      | Ok text => Some ("sinceDate", PyStr text)
      | Raise _ => None
      end
  | SetLookupLimit v => Some ("lookupLimit", v)
  end.

Definition parameter_assignment (s : setter_call) : option (string * pyval) :=
  match s with
  | SetCount v => Some ("count", v)
  | SetStart v => Some ("start", v)
  | _ => None
  end.

Fixpoint assignments {A B : Type} (f : A -> option B) (l : list A) : list B :=
  match l with
  | [] => []
  | a :: rest =>
      match f a with
      | Some b => b :: assignments f rest
      | None => assignments f rest
      end
  end.

(** The keys of a list in the order of their first occurrence. *)
Fixpoint first_occurrences (keys : list string) : list string :=
  match keys with
  | [] => []
  | k :: rest =>
      k :: filter (fun k' => negb (k' =? k)%string) (first_occurrences rest)
  end.

(** The value of the last pair with key [k]. *)
Definition latest {V : Type} (k : string) (pairs : list (string * V)) : option V :=
  dict_get k (rev pairs).

(** [d[k] = v] for each pair [(k, v)] in turn. *)
Definition assign_all {V : Type} (pairs : list (string * V)) (d : dict V) : dict V :=
  fold_left (fun d kv => dict_set (fst kv) (snd kv) d) pairs d.

Definition is_parameter_setter (s : setter_call) : bool :=
  match s with
  | SetCount _ | SetStart _ => true
  | _ => false
  end.

Definition is_locator_setter (s : setter_call) : bool :=
  negb (is_parameter_setter s).

(** [str(v)] of a value that may be absent. *)
Definition optional_str (v : option pyval) : string :=
  match v with
  | Some v => py_str v
  | None => ""
  end.

(** The key a setter assigns to. *)
Definition setter_key (s : setter_call) : string :=
  match s with
  | SetCount _ => "count"
  | SetRunning _ => "running"
  | SetBuildType _ => "buildType"
  | SetTags _ => "tags"
  | SetStatus _ => "status"
  | SetUser _ => "user"
  | SetPersonal _ => "personal"
  | SetCanceled _ => "canceled"
  | SetPinned _ => "pinned"
  | SetBranch _ => "branch"
  | SetAgentName _ => "agentName"
  | SetSinceBuild _ => "sinceBuild"
  | SetSinceDate _ _ => "sinceDate"
  | SetStart _ => "start"
  | SetLookupLimit _ => "lookupLimit"
  end.

(** The locator keys of section 6 of the specification. *)
Definition locator_keys : list string :=
  ["running"; "buildType"; "tags"; "status"; "user"; "personal"; "canceled";
   "pinned"; "branch"; "agentName"; "sinceBuild"; "sinceDate"; "lookupLimit"].

(** Modelled from the spec: the function that combines the locator mapping
    into one expression is not in the source (nothing there reads
    [self.locators]).  The specification has "multiple locators combine into
    one comma-joined key:value expression"; [listed] are the items of the
    mapping in the order in which the interpreter lists them. *)
Definition locator_expression (listed : list (string * pyval)) : string :=
  String.concat "," (map (fun kv => fst kv ++ ":" ++ py_str (snd kv)) listed).

(** The call [m] on the client [c] returns the client, stores [v] under the
    key [k] of [self.locators] and leaves [self.parameters] as it was. *)
Definition stores_locator (m : M pyobj) (k : string) (v : pyval) (c : Client) : Prop :=
  outcome (run m c) = Ok Self /\
  dict_get k (locators (client_after (run m c))) = Some v /\
  parameters (client_after (run m c)) = parameters c.

(** The same for [self.parameters]. *)
Definition stores_parameter (m : M pyobj) (k : string) (v : pyval) (c : Client) : Prop :=
  outcome (run m c) = Ok Self /\
  dict_get k (parameters (client_after (run m c))) = Some v /\
  locators (client_after (run m c)) = locators c.

(** The format of the specification, written with the decimal numerals of
    the library and not with the digit arithmetic of [strftime_basic], which
    is compared with it: the numeral of [n], with zeros on its left up to
    [width] characters. *)
Fixpoint zeros (n : nat) : string :=
  match n with
  | O => ""
  | S n' => String "0" (zeros n')
  end.

Definition zero_padded (width : nat) (n : Z) : string :=
  zeros (width - String.length (str_of_Z n)) ++ str_of_Z n.

(** [YYYYMMDD], the letter T, [HHMMSS]. *)
Definition YYYYMMDD_T_HHMMSS (d : PyDatetime.datetime) : string :=
  zero_padded 4 (PyDatetime.year d) ++ zero_padded 2 (PyDatetime.month d)
  ++ zero_padded 2 (PyDatetime.day d) ++ "T"
  ++ zero_padded 2 (PyDatetime.hour d) ++ zero_padded 2 (PyDatetime.minute d)
  ++ zero_padded 2 (PyDatetime.second d).

(** ** Auxiliary functions of the proofs *)

(** The month and day that [ord2ymd] computes from the day of the year [n]
    (counted from 0) once the year is known. *)
Definition month_day (leapyear : bool) (n : Z) : Z * Z :=
  let month := Z.shiftr (n + 50) 5 in
  let preceding :=
    PyDatetime.month_entry PyDatetime.DAYS_BEFORE_MONTH month
    + (if (2 <? month) && leapyear then 1 else 0) in
  if n <? preceding then
    (month - 1,
     n - (preceding
          - (PyDatetime.month_entry PyDatetime.DAYS_IN_MONTH (month - 1)
             + (if (month - 1 =? 2) && leapyear then 1 else 0))) + 1)
  else (month, n - preceding + 1).

(** Leap years in terms of the position [400a + 100b + 4c + e] of the year
    before in the 400-year cycle. *)
Definition leap_of (b c e : Z) : bool := (e =? 3) && (negb (c =? 24) || (b =? 3)).

(** [data.get(key)] on a decoded object, [None] standing for a missing key. *)
Definition member (members : dict json) (key : string) : json :=
  match dict_get key members with
  | Some v => v
  | None => JNull
  end.

(** Seconds since midnight. *)
Definition time_of_day (d : PyDatetime.datetime) : Z :=
  PyDatetime.hour d * 3600 + PyDatetime.minute d * 60 + PyDatetime.second d.

(** The sizes of the table of a dict of at most 21 keys, and the word
    sizes. *)
Definition size_ok (n : nat) : Prop := n = 8%nat \/ n = 32%nat.
Definition word_ok (w : Z) : Prop := w = 32 \/ w = 64.

(** The slot that follows slot [j] in the probe sequence once [perturb] is
    used up, and the slot [m] steps later. *)
Definition next_slot (n j : Z) : Z := (5 * j + 1) mod n.

Fixpoint slot_after (n j : Z) (m : nat) : Z :=
  match m with
  | O => j
  | S m' => slot_after n (next_slot n j) m'
  end.

(** From every slot of a table of [n] slots, [n] steps reach every slot. *)
Definition full_cycle (n : nat) : bool :=
  forallb (fun j =>
    forallb (fun f =>
      existsb (fun m => slot_after (Z.of_nat n) (Z.of_nat j) (S m) =? Z.of_nat f)
        (seq 0 n))
      (seq 0 n))
    (seq 0 n).

(** A table as [PyDict_SetItem] leaves it while the dict has at most 21 keys:
    8 slots up to 5 keys, 32 slots from the sixth key on. *)
Definition table_ok (t : PyDict.table) : Prop :=
  NoDup (PyDict.active t) /\
  ((length t = 8 /\ length (PyDict.active t) <= 5)%nat \/
   (length t = 32 /\ length (PyDict.active t) <= 21)%nat).

(** * Facts *)

(** ** The calendar *)
Module CalendarFacts.
Import PyDatetime.

Lemma div_mod_eq (x d q r : Z) :
  0 <= r < d -> x = d * q + r -> x / d = q /\ x mod d = r.
Proof.
  intros Hr Hx. split; symmetry.
  - apply Z.div_unique_pos with r; assumption.
  - apply Z.mod_unique_pos with q; assumption.
Qed.

Lemma small_cases (lo hi : Z) (P : Z -> Prop) (m : Z) :
  lo <= m <= hi ->
  (forall k : nat, (k <= Z.to_nat (hi - lo))%nat -> P (lo + Z.of_nat k)) ->
  P m.
Proof.
  intros H HP. replace m with (lo + Z.of_nat (Z.to_nat (m - lo))) by lia.
  apply HP. lia.
Qed.

Ltac enum k H :=
  destruct k as [| k];
  [ clear H | first [ apply le_S_n in H; enum k H | exfalso; inversion H ] ].

Ltac closed_Z t :=
  lazymatch t with
  | Z0 => idtac
  | Zpos _ => idtac
  | Zneg _ => idtac
  end.

Ltac numerals :=
  repeat match goal with
  | |- context [?lo + Z.of_nat ?k] =>
      let v := eval cbv in (lo + Z.of_nat k) in
      change (lo + Z.of_nat k) with v
  end.

Ltac tables :=
  repeat match goal with
  | |- context [month_entry ?T ?k] =>
      closed_Z k;
      let v := eval cbv in (month_entry T k) in
      change (month_entry T k) with v
  | |- context [?a - ?b] =>
      closed_Z a; closed_Z b;
      let v := eval cbv in (a - b) in change (a - b) with v
  | |- context [?a <? ?b] =>
      closed_Z a; closed_Z b;
      let v := eval cbv in (a <? b) in change (a <? b) with v
  | |- context [?a =? ?b] =>
      closed_Z a; closed_Z b;
      let v := eval cbv in (a =? b) in change (a =? b) with v
  end;
  cbn [andb orb negb].

Ltac triple :=
  cbn [fst snd];
  match goal with
  | |- (_, _, _) = (_, _, _) =>
      apply f_equal2; [apply f_equal2 |]; try reflexivity; try lia
  end.

(** From a month and a day to the day of the year and back. *)
Lemma month_day_correct (leapyear : bool) (m d : Z) :
  1 <= m <= 12 ->
  1 <= d <= (if (m =? 2) && leapyear then 29 else month_entry DAYS_IN_MONTH m) ->
  month_day leapyear
    (month_entry DAYS_BEFORE_MONTH m + (if (2 <? m) && leapyear then 1 else 0) + d - 1)
  = (m, d).
Proof.
  intros Hm. revert d. pattern m. apply (small_cases 1 12 _ m Hm). clear m Hm.
  intros k Hk. cbn in Hk.
  enum k Hk.
  all: numerals; destruct leapyear; unfold month_day; tables; intros d Hd.
  all: rewrite Z.shiftr_div_pow2 by lia; change (2 ^ 5) with 32.
  all: match goal with |- context [?N / 32] =>
         let q := fresh "q" in
         let Hq := fresh "Hq" in
         assert (Hq : 1 <= N / 32 <= 13)
           by (split; [apply Z.div_le_lower_bound | apply Z.div_le_upper_bound]; lia);
         assert (Hq' : 32 * (N / 32) <= N < 32 * (N / 32) + 32)
           by (pose proof (Z.mul_div_le N 32); pose proof (Z.mul_succ_div_gt N 32); lia);
         set (q := N / 32) in *; clearbody q
       end.
  all: cbv zeta.
  all: revert Hq'; pattern q; apply (small_cases 1 13 _ q Hq); clear q Hq;
    intros j Hj; cbn in Hj.
  all: enum j Hj; numerals.
  all: tables; intros Hq'; try (exfalso; lia).
  all: match goal with |- context [?a <? ?b] => destruct (Z.ltb_spec a b) end;
    try (exfalso; lia).
  all: f_equal; lia.
Qed.

(** The day of the year of a date of the calendar lies within the year. *)
Lemma day_of_year_bound (leapyear : bool) (m d : Z) :
  1 <= m <= 12 ->
  1 <= d <= (if (m =? 2) && leapyear then 29 else month_entry DAYS_IN_MONTH m) ->
  0 <= month_entry DAYS_BEFORE_MONTH m + (if (2 <? m) && leapyear then 1 else 0) + d - 1
    < 365 + (if leapyear then 1 else 0).
Proof.
  intros Hm. revert d. pattern m. apply (small_cases 1 12 _ m Hm). clear m Hm.
  intros k Hk. cbn in Hk.
  enum k Hk.
  all: numerals; destruct leapyear; tables; intros d Hd; lia.
Qed.

(** [ord2ymd] with its constants evaluated and its last part named. *)
Lemma ord2ymd_tail (ordinal : Z) :
  ord2ymd ordinal =
  let n := ordinal - 1 in
  let n400 := n / 146097 in
  let n := n mod 146097 in
  let n100 := n / 36524 in
  let n := n mod 36524 in
  let n4 := n / 1461 in
  let n := n mod 1461 in
  let n1 := n / 365 in
  let n := n mod 365 in
  let y := n400 * 400 + 1 + n100 * 100 + n4 * 4 + n1 in
  if (n1 =? 4) || (n100 =? 4) then (y - 1, 12, 31)
  else
    let md := month_day ((n1 =? 3) && (negb (n4 =? 24) || (n100 =? 3))) n in
    (y, fst md, snd md).
Proof.
  unfold ord2ymd, month_day. change DI400Y with 146097. change DI100Y with 36524.
  change DI4Y with 1461. cbv zeta.
  destruct ((_ =? 4) || (_ =? 4)); [reflexivity |].
  match goal with |- context [?a <? ?b] => destruct (a <? b) end; reflexivity.
Qed.

(** [ord2ymd] on an ordinal given by its place in the cycles of 400, 100, 4
    and 1 years. *)
Lemma ord2ymd_cycles (a b c e doy : Z) :
  0 <= a -> 0 <= b < 4 -> 0 <= c < 25 -> 0 <= e < 4 ->
  0 <= doy < 365 + (if leap_of b c e then 1 else 0) ->
  ord2ymd (146097 * a + 36524 * b + 1461 * c + 365 * e + doy + 1) =
  let md := month_day (leap_of b c e) doy in
  (400 * a + 100 * b + 4 * c + e + 1, fst md, snd md).
Proof.
  unfold leap_of.
  intros Ha Hb Hc He Hdoy. rewrite ord2ymd_tail. cbv zeta.
  replace (146097 * a + 36524 * b + 1461 * c + 365 * e + doy + 1 - 1)
    with (146097 * a + 36524 * b + 1461 * c + 365 * e + doy) by lia.
  destruct (Z.eq_dec doy 365) as [D | D].
  - (* the last day of a leap year *)
    subst doy.
    destruct ((e =? 3) && (negb (c =? 24) || (b =? 3))) eqn:L; [| lia].
    apply andb_true_iff in L. destruct L as [E L]. apply Z.eqb_eq in E. subst e.
    destruct (Z.eqb_spec c 24) as [C | C]; cbn [negb orb] in L.
    + apply Z.eqb_eq in L. subst b c.
      destruct (div_mod_eq (146097 * a + 36524 * 3 + 1461 * 24 + 365 * 3 + 365)
                  146097 a 146096 ltac:(lia) ltac:(lia)) as [-> ->].
      change (146096 / 36524) with 4. cbn [Z.eqb Pos.eqb andb orb negb].
      change ((146096 mod 36524) mod 1461 / 365) with 0.
      change (146096 mod 36524 / 1461) with 0.
      change (month_day true 365) with (12, 31). cbn [Z.eqb Pos.eqb andb orb negb].
      triple.
    + clear L.
      destruct (div_mod_eq (146097 * a + 36524 * b + 1461 * c + 365 * 3 + 365) 146097 a
                  (36524 * b + 1461 * c + 1460) ltac:(lia) ltac:(lia)) as [-> ->].
      destruct (div_mod_eq (36524 * b + 1461 * c + 1460) 36524 b (1461 * c + 1460)
                  ltac:(lia) ltac:(lia)) as [-> ->].
      destruct (div_mod_eq (1461 * c + 1460) 1461 c 1460 ltac:(lia) ltac:(lia))
        as [-> ->].
      change (1460 / 365) with 4. cbn [Z.eqb Pos.eqb orb andb negb].
      change (month_day true 365) with (12, 31). triple.
  - assert (doy < 365) as D'.
    { destruct ((e =? 3) && (negb (c =? 24) || (b =? 3))); lia. }
    destruct (div_mod_eq (146097 * a + 36524 * b + 1461 * c + 365 * e + doy) 146097 a
                (36524 * b + 1461 * c + 365 * e + doy) ltac:(lia) ltac:(lia)) as [-> ->].
    destruct (div_mod_eq (36524 * b + 1461 * c + 365 * e + doy) 36524 b
                (1461 * c + 365 * e + doy) ltac:(lia) ltac:(lia)) as [-> ->].
    destruct (div_mod_eq (1461 * c + 365 * e + doy) 1461 c (365 * e + doy)
                ltac:(lia) ltac:(lia)) as [-> ->].
    destruct (div_mod_eq (365 * e + doy) 365 e doy ltac:(lia) ltac:(lia)) as [-> ->].
    destruct (Z.eqb_spec e 4); [lia |]. destruct (Z.eqb_spec b 4); [lia |].
    cbn [orb]. triple.
Qed.

(** Every year from 1 on has a place in the cycles, which gives the days
    before it and whether it is a leap year. *)
Lemma year_decompose (y : Z) :
  1 <= y ->
  exists a b c e,
    0 <= a /\ 0 <= b < 4 /\ 0 <= c < 25 /\ 0 <= e < 4 /\
    y = 400 * a + 100 * b + 4 * c + e + 1 /\
    days_before_year y = 146097 * a + 36524 * b + 1461 * c + 365 * e /\
    is_leap y = leap_of b c e.
Proof.
  intros Hy.
  pose proof (Z.div_mod (y - 1) 400 ltac:(lia)) as H400.
  pose proof (Z.mod_pos_bound (y - 1) 400 ltac:(lia)) as B400.
  set (a := (y - 1) / 400) in *. set (r := (y - 1) mod 400) in *.
  pose proof (Z.div_mod r 100 ltac:(lia)) as H100.
  pose proof (Z.mod_pos_bound r 100 ltac:(lia)) as B100.
  set (b := r / 100) in *. set (r' := r mod 100) in *.
  pose proof (Z.div_mod r' 4 ltac:(lia)) as H4.
  pose proof (Z.mod_pos_bound r' 4 ltac:(lia)) as B4.
  set (c := r' / 4) in *. set (e := r' mod 4) in *.
  assert (0 <= a) by (apply Z.div_pos; lia).
  assert (0 <= b < 4) by (split; [apply Z.div_pos | apply Z.div_lt_upper_bound]; lia).
  assert (0 <= c < 25) by (split; [apply Z.div_pos | apply Z.div_lt_upper_bound]; lia).
  clearbody a r b r' c e.
  exists a, b, c, e. repeat (split; [lia |]).
  assert (y = 400 * a + 100 * b + 4 * c + e + 1) as -> by lia.
  split.
  - unfold days_before_year. cbv zeta.
    replace (400 * a + 100 * b + 4 * c + e + 1 - 1)
      with (400 * a + 100 * b + 4 * c + e) by lia.
    destruct (div_mod_eq (400 * a + 100 * b + 4 * c + e) 4 (100 * a + 25 * b + c) e
                ltac:(lia) ltac:(lia)) as [-> _].
    destruct (div_mod_eq (400 * a + 100 * b + 4 * c + e) 100 (4 * a + b) (4 * c + e)
                ltac:(lia) ltac:(lia)) as [-> _].
    destruct (div_mod_eq (400 * a + 100 * b + 4 * c + e) 400 a (100 * b + 4 * c + e)
                ltac:(lia) ltac:(lia)) as [-> _].
    lia.
  - unfold is_leap, leap_of.
    destruct (Z.eqb_spec e 3) as [E | E].
    + subst e.
      destruct (div_mod_eq (400 * a + 100 * b + 4 * c + 3 + 1) 4
                  (100 * a + 25 * b + c + 1) 0 ltac:(lia) ltac:(lia)) as [_ ->].
      cbn [Z.eqb andb].
      destruct (Z.eqb_spec c 24) as [C | C].
      * subst c.
        destruct (div_mod_eq (400 * a + 100 * b + 4 * 24 + 3 + 1) 100 (4 * a + b + 1) 0
                    ltac:(lia) ltac:(lia)) as [_ ->].
        cbn [Z.eqb negb orb].
        destruct (Z.eqb_spec b 3) as [B | B].
        -- subst b.
           destruct (div_mod_eq (400 * a + 100 * 3 + 4 * 24 + 3 + 1) 400 (a + 1) 0
                       ltac:(lia) ltac:(lia)) as [_ ->]. reflexivity.
        -- destruct (div_mod_eq (400 * a + 100 * b + 4 * 24 + 3 + 1) 400 a
                       (100 * b + 100) ltac:(lia) ltac:(lia)) as [_ ->].
           destruct (Z.eqb_spec (100 * b + 100) 0); [lia | reflexivity].
      * destruct (div_mod_eq (400 * a + 100 * b + 4 * c + 3 + 1) 100 (4 * a + b)
                    (4 * c + 4) ltac:(lia) ltac:(lia)) as [_ ->].
        destruct (Z.eqb_spec (4 * c + 4) 0); [lia | reflexivity].
    + destruct (div_mod_eq (400 * a + 100 * b + 4 * c + e + 1) 4
                  (100 * a + 25 * b + c) (e + 1) ltac:(lia) ltac:(lia)) as [_ ->].
      destruct (Z.eqb_spec (e + 1) 0); [lia | reflexivity].
Qed.

(** A date of the calendar is found again from its ordinal. *)
Lemma ord2ymd_ymd2ord (y m d : Z) :
  1 <= y -> 1 <= m <= 12 -> 1 <= d <= days_in_month y m ->
  ord2ymd (ymd2ord y m d) = (y, m, d).
Proof.
  intros Hy Hm Hd.
  destruct (year_decompose y Hy) as (a & b & c & e & Ha & Hb & Hc & He & Ey & Edby & El).
  unfold ymd2ord, days_before_month. unfold days_in_month in Hd.
  rewrite Edby, El in *.
  pose proof (day_of_year_bound (leap_of b c e) m d Hm Hd) as Hdoy.
  pose proof (month_day_correct (leap_of b c e) m d Hm Hd) as Hmd.
  set (doy := month_entry DAYS_BEFORE_MONTH m
              + (if (2 <? m) && leap_of b c e then 1 else 0) + d - 1) in *.
  replace (146097 * a + 36524 * b + 1461 * c + 365 * e
           + (month_entry DAYS_BEFORE_MONTH m
              + (if (2 <? m) && leap_of b c e then 1 else 0)) + d)
    with (146097 * a + 36524 * b + 1461 * c + 365 * e + doy + 1) by (unfold doy; lia).
  rewrite (ord2ymd_cycles a b c e doy Ha Hb Hc He Hdoy). cbv zeta.
  rewrite Hmd. cbn [fst snd]. rewrite Ey. reflexivity.
Qed.

(** The ordinals of the dates of years 1 to 9999. *)
Lemma ymd2ord_range (y m d : Z) :
  1 <= y <= 9999 -> 1 <= m <= 12 -> 1 <= d <= days_in_month y m ->
  1 <= ymd2ord y m d <= MAXORDINAL.
Proof.
  intros Hy Hm Hd.
  destruct (year_decompose y ltac:(lia)) as (a & b & c & e & Ha & Hb & Hc & He & Ey & Edby & El).
  unfold ymd2ord, days_before_month, MAXORDINAL. unfold days_in_month in Hd.
  rewrite Edby, El in *.
  pose proof (day_of_year_bound (leap_of b c e) m d Hm Hd) as Hdoy.
  set (doy := month_entry DAYS_BEFORE_MONTH m
              + (if (2 <? m) && leap_of b c e then 1 else 0) + d - 1) in *.
  replace (146097 * a + 36524 * b + 1461 * c + 365 * e
           + (month_entry DAYS_BEFORE_MONTH m
              + (if (2 <? m) && leap_of b c e then 1 else 0)) + d)
    with (146097 * a + 36524 * b + 1461 * c + 365 * e + doy + 1) by (unfold doy; lia).
  clearbody doy. unfold leap_of in Hdoy.
  destruct (Z.eqb_spec e 3); destruct (Z.eqb_spec c 24); destruct (Z.eqb_spec b 3);
    cbn [andb orb negb] in Hdoy; lia.
Qed.

(** From the day of the year to the month and the day. *)
Lemma month_day_inverse (leapyear : bool) (doy : Z) :
  0 <= doy < 365 + (if leapyear then 1 else 0) ->
  let md := month_day leapyear doy in
  1 <= fst md <= 12 /\
  1 <= snd md <= (if (fst md =? 2) && leapyear then 29
                  else month_entry DAYS_IN_MONTH (fst md)) /\
  month_entry DAYS_BEFORE_MONTH (fst md)
    + (if (2 <? fst md) && leapyear then 1 else 0) + snd md - 1 = doy.
Proof.
  intros Hdoy. cbv zeta. unfold month_day.
  assert (0 <= doy < 366) as Hdoy' by (destruct leapyear; simpl in Hdoy; lia).
  rewrite Z.shiftr_div_pow2 by lia; change (2 ^ 5) with 32.
  assert (Hq : 1 <= (doy + 50) / 32 <= 12).
  { split; [apply Z.div_le_lower_bound; lia |].
    enough ((doy + 50) / 32 < 13) by lia. apply Z.div_lt_upper_bound; lia. }
  assert (Hq' : 32 * ((doy + 50) / 32) <= doy + 50 < 32 * ((doy + 50) / 32) + 32).
  { pose proof (Z.mul_div_le (doy + 50) 32); pose proof (Z.mul_succ_div_gt (doy + 50) 32); lia. }
  set (q := (doy + 50) / 32) in *. clearbody q. cbv zeta.
  revert Hq'. pattern q. apply (small_cases 1 12 _ q Hq). clear q Hq.
  intros j Hj. cbn in Hj. enum j Hj; numerals.
  all: destruct leapyear; simpl in Hdoy; tables; intros Hq'.
  all: match goal with |- context [?a <? ?b] => destruct (Z.ltb_spec a b) end;
    cbn [fst snd]; tables; try lia.
Qed.

(** The days before a year and its leap status from its place in the cycles. *)
Lemma year_of_cycles (a b c e : Z) :
  0 <= a -> 0 <= b < 4 -> 0 <= c < 25 -> 0 <= e < 4 ->
  days_before_year (400 * a + 100 * b + 4 * c + e + 1)
    = 146097 * a + 36524 * b + 1461 * c + 365 * e /\
  is_leap (400 * a + 100 * b + 4 * c + e + 1) = leap_of b c e.
Proof.
  intros Ha Hb Hc He.
  destruct (year_decompose (400 * a + 100 * b + 4 * c + e + 1) ltac:(lia))
    as (a' & b' & c' & e' & Ha' & Hb' & Hc' & He' & Ey & Edby & El).
  assert (a' = a /\ b' = b /\ c' = c /\ e' = e) as (-> & -> & -> & ->) by lia.
  split; assumption.
Qed.

(** Every ordinal from 1 on has a place in the cycles. *)
Lemma ordinal_decompose (n : Z) :
  1 <= n ->
  exists a b c e doy,
    0 <= a /\ 0 <= b < 4 /\ 0 <= c < 25 /\ 0 <= e < 4 /\
    0 <= doy < 365 + (if leap_of b c e then 1 else 0) /\
    n = 146097 * a + 36524 * b + 1461 * c + 365 * e + doy + 1.
Proof.
  intros Hn.
  pose proof (Z.div_mod (n - 1) 146097 ltac:(lia)) as H400.
  pose proof (Z.mod_pos_bound (n - 1) 146097 ltac:(lia)) as B400.
  assert (0 <= (n - 1) / 146097) as Ha by (apply Z.div_pos; lia).
  set (a := (n - 1) / 146097) in *. set (r := (n - 1) mod 146097) in *.
  clearbody a r.
  destruct (Z.eq_dec r 146096) as [R | R].
  { exists a, 3, 24, 3, 365. unfold leap_of. cbn [Z.eqb Pos.eqb andb orb negb]. lia. }
  pose proof (Z.div_mod r 36524 ltac:(lia)) as H100.
  pose proof (Z.mod_pos_bound r 36524 ltac:(lia)) as B100.
  assert (0 <= r / 36524 < 4) as Hb
    by (split; [apply Z.div_pos | apply Z.div_lt_upper_bound]; lia).
  set (b := r / 36524) in *. set (r1 := r mod 36524) in *. clearbody b r1.
  pose proof (Z.div_mod r1 1461 ltac:(lia)) as H4.
  pose proof (Z.mod_pos_bound r1 1461 ltac:(lia)) as B4.
  assert (0 <= r1 / 1461 < 25) as Hc
    by (split; [apply Z.div_pos | apply Z.div_lt_upper_bound]; lia).
  set (c := r1 / 1461) in *. set (r2 := r1 mod 1461) in *. clearbody c r2.
  destruct (Z.eq_dec r2 1460) as [R2 | R2].
  { exists a, b, c, 3, 365. unfold leap_of.
    destruct (Z.eqb_spec c 24) as [C | C]; [lia |]. cbn [Z.eqb Pos.eqb andb orb negb]. lia. }
  pose proof (Z.div_mod r2 365 ltac:(lia)) as H1.
  pose proof (Z.mod_pos_bound r2 365 ltac:(lia)) as B1.
  assert (0 <= r2 / 365 < 4) as He
    by (split; [apply Z.div_pos | apply Z.div_lt_upper_bound]; lia).
  set (e := r2 / 365) in *. set (doy := r2 mod 365) in *. clearbody e doy.
  exists a, b, c, e, doy. destruct (leap_of b c e); lia.
Qed.

(** [ord2ymd] answers a date of the calendar, the one with this ordinal. *)
Lemma ord2ymd_valid (n : Z) :
  1 <= n <= MAXORDINAL ->
  exists y m d,
    ord2ymd n = (y, m, d) /\
    1 <= y <= 9999 /\ 1 <= m <= 12 /\ 1 <= d <= days_in_month y m /\
    ymd2ord y m d = n.
Proof.
  intros [Hn Hmax]. unfold MAXORDINAL in Hmax.
  destruct (ordinal_decompose n Hn)
    as (a & b & c & e & doy & Ha & Hb & Hc & He & Hdoy & En).
  destruct (year_of_cycles a b c e Ha Hb Hc He) as [Edby El].
  pose proof (month_day_inverse (leap_of b c e) doy Hdoy) as Hmd. cbv zeta in Hmd.
  destruct Hmd as (Hm & Hd & Edoy).
  exists (400 * a + 100 * b + 4 * c + e + 1), (fst (month_day (leap_of b c e) doy)),
    (snd (month_day (leap_of b c e) doy)).
  split; [rewrite En; apply ord2ymd_cycles; assumption |].
  split; [| split; [exact Hm | split]].
  - destruct (leap_of b c e); lia.
  - unfold days_in_month. rewrite El. exact Hd.
  - unfold ymd2ord, days_before_month. rewrite Edby, El. lia.
Qed.

End CalendarFacts.

(** ** [datetime] arithmetic *)
Module DatetimeFacts.
Import PyDatetime CalendarFacts.

Lemma make_timedelta_ok (d s us : Z) :
  Z.abs (d + (s + us / 1000000) / 86400) <= MAX_DELTA_DAYS ->
  make_timedelta d s us =
  Ok {| days := d + (s + us / 1000000) / 86400;
        seconds := (s + us / 1000000) mod 86400;
        microseconds := us mod 1000000 |}.
Proof.
  intros H. unfold make_timedelta. cbv zeta.
  destruct (Z.gtb_spec (Z.abs (d + (s + us / 1000000) / 86400)) MAX_DELTA_DAYS);
    [lia | reflexivity].
Qed.

Lemma valid_ordinal (d : datetime) :
  valid d -> 1 <= toordinal d <= MAXORDINAL.
Proof.
  intros (Hy & Hm & Hd & _). apply ymd2ord_range; assumption.
Qed.

Lemma valid_time_of_day (d : datetime) :
  valid d -> 0 <= time_of_day d < 86400.
Proof.
  unfold valid, time_of_day. lia.
Qed.

Lemma timeline_split (d : datetime) :
  timeline d = toordinal d * 86400 + time_of_day d.
Proof.
  unfold timeline, time_of_day. lia.
Qed.

(** [now - timedelta(minutes=N)] is the [datetime] that lies [60 N] seconds
    earlier on the timeline, whenever there is one. *)
Lemma datetime_sub_minutes (T d : datetime) (N : Z) :
  valid T -> valid d ->
  timeline d = timeline T - 60 * N ->
  microsecond d = microsecond T ->
  result_bind (timedelta_minutes (PyInt N)) (datetime_sub T) = Ok d.
Proof.
  intros VT Vd Ht Hus.
  pose proof (valid_ordinal T VT) as OT. pose proof (valid_ordinal d Vd) as Od.
  pose proof (valid_time_of_day T VT) as TT. pose proof (valid_time_of_day d Vd) as Td.
  pose proof (timeline_split T) as ET. pose proof (timeline_split d) as Ed.
  unfold MAXORDINAL in *.
  cbn [timedelta_minutes].
  rewrite make_timedelta_ok; change (0 / 1000000) with 0; rewrite ?Z.add_0_r, ?Z.add_0_l.
  2:{ unfold MAX_DELTA_DAYS. Z.div_mod_to_equations. lia. }
  cbn [result_bind]. unfold datetime_sub, timedelta_neg. cbn [days seconds microseconds].
  change (0 mod 1000000) with 0. change (- 0) with 0.
  rewrite make_timedelta_ok; change (0 / 1000000) with 0; rewrite ?Z.add_0_r.
  2:{ unfold MAX_DELTA_DAYS. Z.div_mod_to_equations. lia. }
  cbn [result_bind]. unfold datetime_add. cbn [days seconds microseconds].
  change (0 mod 1000000) with 0. rewrite ?Z.add_0_r.
  destruct VT as (_ & _ & _ & _ & _ & _ & HusT).
  fold (time_of_day T).
  assert (toordinal T + (- (N * 60 / 86400) + - ((N * 60) mod 86400) / 86400)
          + (time_of_day T + (- ((N * 60) mod 86400)) mod 86400) / 86400 = toordinal d
          /\ (time_of_day T + (- ((N * 60) mod 86400)) mod 86400) mod 86400
             = time_of_day d)
    as [E1 E2].
  { Z.div_mod_to_equations. lia. }
  rewrite make_timedelta_ok;
    rewrite (Z.div_small (microsecond T) 1000000 HusT), ?Z.add_0_r, E1.
  2:{ unfold MAX_DELTA_DAYS. lia. }
  rewrite E2, (Z.mod_small (microsecond T) 1000000 HusT).
  cbn [result_bind days seconds microseconds].
  unfold MAXORDINAL.
  destruct (Z.ltb_spec 0 (toordinal d)); [| lia].
  destruct (Z.leb_spec (toordinal d) 3652059); [| lia].
  cbn [andb]. unfold toordinal.
  destruct Vd as (Hy & Hm & Hd & Hh & Hmi & Hs & Hu).
  rewrite ord2ymd_ymd2ord by (unfold MINYEAR in *; lia || assumption).
  unfold time_of_day.
  destruct (div_mod_eq (hour d * 3600 + minute d * 60 + second d) 3600 (hour d)
              (minute d * 60 + second d) ltac:(lia) ltac:(lia)) as [-> ->].
  destruct (div_mod_eq (minute d * 60 + second d) 60 (minute d) (second d)
              ltac:(lia) ltac:(lia)) as [-> ->].
  rewrite <- Hus. destruct d; reflexivity.
Qed.

(** Every second of the years 1 to 9999 is the place of a [datetime]. *)
Lemma datetime_exists (X us : Z) :
  86400 <= X < 3652060 * 86400 -> 0 <= us < 1000000 ->
  exists d, valid d /\ timeline d = X /\ microsecond d = us.
Proof.
  intros HX Hus.
  pose proof (Z.div_mod X 86400 ltac:(lia)) as EX.
  pose proof (Z.mod_pos_bound X 86400 ltac:(lia)) as BX.
  assert (1 <= X / 86400 <= MAXORDINAL) as Hn.
  { unfold MAXORDINAL. split; [apply Z.div_le_lower_bound; lia |].
    enough (X / 86400 < 3652060) by lia. apply Z.div_lt_upper_bound; lia. }
  set (n := X / 86400) in *. set (s := X mod 86400) in *. clearbody n s.
  destruct (ord2ymd_valid n Hn) as (y & m & dd & _ & Hy & Hm & Hd & En).
  pose proof (Z.div_mod s 3600 ltac:(lia)) as E1.
  pose proof (Z.mod_pos_bound s 3600 ltac:(lia)) as B1.
  assert (0 <= s / 3600 < 24) as Hh
    by (split; [apply Z.div_pos | apply Z.div_lt_upper_bound]; lia).
  set (h := s / 3600) in *. set (r := s mod 3600) in *. clearbody h r.
  pose proof (Z.div_mod r 60 ltac:(lia)) as E2.
  pose proof (Z.mod_pos_bound r 60 ltac:(lia)) as B2.
  assert (0 <= r / 60 < 60) as Hmi
    by (split; [apply Z.div_pos | apply Z.div_lt_upper_bound]; lia).
  exists {| year := y; month := m; day := dd; hour := h; minute := r / 60;
            second := r mod 60; microsecond := us |}.
  split; [| split; [| reflexivity]].
  - unfold valid, MINYEAR, MAXYEAR. cbn [year month day hour minute second microsecond].
    repeat split; try lia; apply Hd.
  - unfold timeline, toordinal. cbn [year month day hour minute second]. lia.
Qed.

(** Outside these years the subtraction raises [OverflowError]. *)
Lemma datetime_sub_overflow (T : datetime) (N : Z) :
  valid T ->
  ~ (86400 <= timeline T - 60 * N < 3652060 * 86400) ->
  exists msg,
    result_bind (timedelta_minutes (PyInt N)) (datetime_sub T)
    = Raise (OverflowError msg).
Proof.
  intros VT HX.
  pose proof (valid_ordinal T VT) as OT. pose proof (valid_time_of_day T VT) as TT.
  pose proof (timeline_split T) as ET. unfold MAXORDINAL in *.
  destruct VT as (_ & _ & _ & _ & _ & _ & HusT).
  cbn [timedelta_minutes]. unfold make_timedelta at 1. cbv zeta.
  change (0 / 1000000) with 0. change (0 mod 1000000) with 0.
  rewrite ?Z.add_0_r, ?Z.add_0_l.
  destruct (Z.abs (N * 60 / 86400) >? MAX_DELTA_DAYS); [eexists; reflexivity |].
  cbn [result_bind]. unfold datetime_sub, timedelta_neg. cbn [days seconds microseconds].
  unfold make_timedelta at 1. cbv zeta.
  change (- 0) with 0. change (0 / 1000000) with 0. change (0 mod 1000000) with 0.
  rewrite ?Z.add_0_r.
  destruct (Z.abs _ >? MAX_DELTA_DAYS); [eexists; reflexivity |].
  cbn [result_bind]. unfold datetime_add. cbn [days seconds microseconds].
  rewrite ?Z.add_0_r. fold (time_of_day T).
  unfold make_timedelta. cbv zeta.
  rewrite (Z.div_small (microsecond T) 1000000 HusT), ?Z.add_0_r.
  destruct (Z.abs _ >? MAX_DELTA_DAYS); [eexists; reflexivity |].
  cbn [result_bind days seconds microseconds].
  match goal with |- context [(0 <? ?D) && (?D <=? ?M)] =>
    assert (~ (0 < D <= 3652059)) as HD
  end.
  { Z.div_mod_to_equations. lia. }
  unfold MAXORDINAL.
  match goal with |- context [(0 <? ?D) && (?D <=? ?M)] =>
    destruct (Z.ltb_spec 0 D); destruct (Z.leb_spec D M); try lia
  end; cbn [andb]; eexists; reflexivity.
Qed.

(** 1900-01-01 is day 693596: a [datetime] lies in the years from 1900 on
    exactly when it is on or after that day. *)
Lemma year_1900 (d : datetime) :
  valid d -> (1900 <= year d <-> 693596 * 86400 <= timeline d).
Proof.
  intros V. pose proof (valid_time_of_day d V) as TD. rewrite timeline_split.
  destruct V as (Hy & Hm & Hd & _). unfold MINYEAR, MAXYEAR in Hy.
  destruct (year_decompose (year d) ltac:(lia))
    as (a & b & c & e & Ha & Hb & Hc & He & Ey & Edby & El).
  unfold toordinal, ymd2ord, days_before_month. unfold days_in_month in Hd.
  rewrite Edby, El in *.
  pose proof (day_of_year_bound (leap_of b c e) (month d) (day d) Hm Hd) as Hdoy.
  set (doy := month_entry DAYS_BEFORE_MONTH (month d)
              + (if (2 <? month d) && leap_of b c e then 1 else 0) + day d - 1) in *.
  replace (146097 * a + 36524 * b + 1461 * c + 365 * e
           + (month_entry DAYS_BEFORE_MONTH (month d)
              + (if (2 <? month d) && leap_of b c e then 1 else 0)) + day d)
    with (146097 * a + 36524 * b + 1461 * c + 365 * e + doy + 1) by (unfold doy; lia).
  clearbody doy. unfold leap_of in Hdoy.
  destruct (Z.eqb_spec e 3); destruct (Z.eqb_spec c 24); destruct (Z.eqb_spec b 3);
    cbn [andb orb negb] in Hdoy; lia.
Qed.

(** A property checked on every number below [n] holds below [n]. *)
Lemma checked_below (f : Z -> bool) (n : Z) :
  forallb f (map Z.of_nat (seq 0 (Z.to_nat n))) = true ->
  forall z, 0 <= z < n -> f z = true.
Proof.
  intros H z Hz. rewrite forallb_forall in H. apply H.
  apply in_map_iff. exists (Z.to_nat z). split; [lia | apply in_seq; lia].
Qed.

Lemma two_digits_padded (n : Z) : 0 <= n < 100 -> two_digits n = zero_padded 2 n.
Proof.
  intros H. apply String.eqb_eq.
  apply (checked_below (fun n => (two_digits n =? zero_padded 2 n)%string) 100);
    [vm_compute; reflexivity | exact H].
Qed.

Lemma four_digits_padded (n : Z) : 0 <= n < 10000 -> four_digits n = zero_padded 4 n.
Proof.
  intros H. apply String.eqb_eq.
  apply (checked_below (fun n => (four_digits n =? zero_padded 4 n)%string) 10000);
    [vm_compute; reflexivity | exact H].
Qed.

(** From 1900 on [strftime] writes the format of the specification ... *)
Lemma strftime_basic_format (d : datetime) :
  valid d -> 1900 <= year d -> strftime_basic d = Ok (YYYYMMDD_T_HHMMSS d).
Proof.
  intros (Hy & Hm & Hd & Hh & Hmi & Hs & _) H1900. unfold MINYEAR, MAXYEAR in Hy.
  assert (day d <= 31) as Hd31.
  { destruct Hd as [_ Hd]. revert Hd. unfold days_in_month.
    destruct ((month d =? 2) && is_leap (year d)); [lia |].
    pattern (month d). apply (small_cases 1 12 _ (month d) Hm).
    intros k Hk. cbn in Hk. enum k Hk; numerals; tables; lia. }
  unfold strftime_basic, YYYYMMDD_T_HHMMSS.
  destruct (Z.ltb_spec (year d) 1900) as [L | _]; [lia |].
  rewrite (four_digits_padded (year d)) by lia.
  rewrite (two_digits_padded (month d)) by lia.
  rewrite (two_digits_padded (day d)) by lia.
  rewrite (two_digits_padded (hour d)) by lia.
  rewrite (two_digits_padded (minute d)) by lia.
  rewrite (two_digits_padded (second d)) by lia.
  reflexivity.
Qed.

(** ... and before 1900 it raises. *)
Lemma strftime_basic_before_1900 (d : datetime) :
  year d < 1900 -> exists msg, strftime_basic d = Raise (ValueError msg).
Proof.
  intros H. unfold strftime_basic.
  destruct (Z.ltb_spec (year d) 1900) as [_ | L]; [eexists; reflexivity | lia].
Qed.

(** The exceptions of [now - timedelta(minutes=...)]. *)
Lemma datetime_sub_errors (minutes : pyval) (now : datetime) (e : exn) :
  result_bind (timedelta_minutes minutes) (datetime_sub now) = Raise e ->
  exists msg, e = TypeError msg \/ e = OverflowError msg.
Proof.
  unfold timedelta_minutes, datetime_sub, timedelta_neg,
    datetime_add, make_timedelta.
  destruct minutes as [| b | n | s]; cbv zeta.
  - intros H. injection H as <-. eexists. left. reflexivity.
  - destruct (Z.abs _ >? _); cbn [result_bind];
      [intros H; injection H as <-; eexists; right; reflexivity |].
    cbn [days seconds microseconds].
    destruct (Z.abs _ >? _); cbn [result_bind];
      [intros H; injection H as <-; eexists; right; reflexivity |].
    cbn [days seconds microseconds].
    destruct (Z.abs _ >? _); cbn [result_bind];
      [intros H; injection H as <-; eexists; right; reflexivity |].
    cbn [days seconds microseconds].
    destruct ((0 <? _) && (_ <=? MAXORDINAL));
      [destruct (ord2ymd _) as [[y m] dd]; discriminate |].
    intros H; injection H as <-; eexists; right; reflexivity.
  - destruct (Z.abs _ >? _); cbn [result_bind];
      [intros H; injection H as <-; eexists; right; reflexivity |].
    cbn [days seconds microseconds].
    destruct (Z.abs _ >? _); cbn [result_bind];
      [intros H; injection H as <-; eexists; right; reflexivity |].
    cbn [days seconds microseconds].
    destruct (Z.abs _ >? _); cbn [result_bind];
      [intros H; injection H as <-; eexists; right; reflexivity |].
    cbn [days seconds microseconds].
    destruct ((0 <? _) && (_ <=? MAXORDINAL));
      [destruct (ord2ymd _) as [[y m] dd]; discriminate |].
    intros H; injection H as <-; eexists; right; reflexivity.
  - intros H. injection H as <-. eexists. left. reflexivity.
Qed.

End DatetimeFacts.

(** ** Dictionaries *)
Section DictFacts.
Context {V : Type}.
Implicit Types (d : dict V) (k : string) (v : V).

Lemma dict_get_set_same k v d : dict_get k (dict_set k v d) = Some v.
Proof.
  induction d as [| [k' v'] d IH]; cbn.
  - rewrite String.eqb_refl. reflexivity.
  - destruct (String.eqb_spec k k') as [E | E]; cbn.
    + rewrite (proj2 (String.eqb_eq k k') E). reflexivity.
    + rewrite (proj2 (String.eqb_neq k k') E). exact IH.
Qed.

Lemma dict_get_set_other k k' v d :
  k <> k' -> dict_get k (dict_set k' v d) = dict_get k d.
Proof.
  intros N. induction d as [| [k0 v0] d IH]; cbn.
  - rewrite (proj2 (String.eqb_neq k k') N). reflexivity.
  - destruct (String.eqb_spec k' k0) as [E | E]; cbn.
    + subst k0. rewrite (proj2 (String.eqb_neq k k') N). reflexivity.
    + rewrite IH. reflexivity.
Qed.

Lemma dict_get_In k d : dict_get k d <> None <-> In k (dict_keys d).
Proof.
  induction d as [| [k' v'] d IH]; cbn.
  - tauto.
  - destruct (String.eqb_spec k k') as [E | E].
    + subst. split; [auto | discriminate].
    + rewrite IH. split; [auto | intros [H | H]; [cbn in H; subst; contradiction | exact H]].
Qed.

Lemma dict_get_None k d : dict_get k d = None <-> ~ In k (dict_keys d).
Proof.
  rewrite <- dict_get_In. destruct (dict_get k d) as [v |]; split; intros H.
  - discriminate.
  - exfalso. apply H. discriminate.
  - intros H'. apply H'. reflexivity.
  - reflexivity.
Qed.

(** Assigning to a key that is present keeps the keys; a new key goes last. *)
Lemma dict_keys_set k v d :
  dict_keys (dict_set k v d) =
  if existsb (String.eqb k) (dict_keys d) then dict_keys d
  else (dict_keys d ++ [k])%list.
Proof.
  induction d as [| [k' v'] d IH]; cbn.
  - reflexivity.
  - destruct (String.eqb_spec k k') as [E | E]; cbn.
    + reflexivity.
    + fold (dict_keys (dict_set k v d)). rewrite IH.
      fold (dict_keys d). destruct (existsb (String.eqb k) (dict_keys d)); reflexivity.
Qed.

Lemma existsb_eqb_In k (l : list string) :
  existsb (String.eqb k) l = true <-> In k l.
Proof.
  rewrite existsb_exists. split.
  - intros (x & Hx & E). apply String.eqb_eq in E. subst. exact Hx.
  - intros H. exists k. split; [exact H | apply String.eqb_refl].
Qed.

Lemma dict_keys_set_NoDup k v d :
  NoDup (dict_keys d) -> NoDup (dict_keys (dict_set k v d)).
Proof.
  intros H. rewrite dict_keys_set.
  destruct (existsb (String.eqb k) (dict_keys d)) eqn:E; [exact H |].
  apply NoDup_app; [exact H | constructor; [intros [] | constructor] |].
  intros x Hx [Hk | []]. subst x.
  apply existsb_eqb_In in Hx. congruence.
Qed.

Lemma dict_get_app k (d1 d2 : dict V) :
  dict_get k (d1 ++ d2)%list =
  match dict_get k d1 with
  | Some v => Some v
  | None => dict_get k d2
  end.
Proof.
  induction d1 as [| [k' v'] d1 IH]; cbn.
  - reflexivity.
  - destruct (k =? k')%string; [reflexivity | exact IH].
Qed.

Lemma assign_all_cons k v (pairs : list (string * V)) d :
  assign_all ((k, v) :: pairs) d = assign_all pairs (dict_set k v d).
Proof. reflexivity. Qed.

Lemma assign_all_NoDup (pairs : list (string * V)) d :
  NoDup (dict_keys d) -> NoDup (dict_keys (assign_all pairs d)).
Proof.
  revert d. induction pairs as [| [k v] pairs IH]; intros d H.
  - exact H.
  - rewrite assign_all_cons. apply IH. apply dict_keys_set_NoDup. exact H.
Qed.

(** After a run of assignments a key holds the value assigned to it last, or
    what it held before when none was. *)
Lemma assign_all_get (pairs : list (string * V)) d k :
  dict_get k (assign_all pairs d) =
  match latest k pairs with
  | Some v => Some v
  | None => dict_get k d
  end.
Proof.
  revert d. unfold latest.
  induction pairs as [| [k' v'] pairs IH]; intros d.
  - reflexivity.
  - rewrite assign_all_cons, IH. cbn [rev]. rewrite dict_get_app.
    destruct (dict_get k (rev pairs)); [reflexivity |].
    cbn. destruct (String.eqb_spec k k') as [E | E].
    + subst. apply dict_get_set_same.
    + apply dict_get_set_other. exact E.
Qed.

Lemma filter_filter_mem (seen : list string) k (l : list string) :
  filter (fun x => negb (existsb (String.eqb x) (seen ++ [k])%list)) l =
  filter (fun x => negb (existsb (String.eqb x) seen))
    (filter (fun x => negb (x =? k)%string) l).
Proof.
  induction l as [| x l IH]; cbn.
  - reflexivity.
  - rewrite existsb_app. cbn. rewrite orb_false_r.
    destruct (x =? k)%string; cbn.
    + rewrite orb_true_r. cbn. exact IH.
    + rewrite orb_false_r. destruct (existsb (String.eqb x) seen); cbn;
        [exact IH | f_equal; exact IH].
Qed.

Lemma filter_mem_absorb (seen : list string) k (l : list string) :
  In k seen ->
  filter (fun x => negb (existsb (String.eqb x) seen))
    (filter (fun x => negb (x =? k)%string) l) =
  filter (fun x => negb (existsb (String.eqb x) seen)) l.
Proof.
  intros H. induction l as [| x l IH]; cbn.
  - reflexivity.
  - destruct (String.eqb_spec x k) as [E | E]; cbn.
    + subst x. rewrite (proj2 (existsb_eqb_In k seen) H). cbn. exact IH.
    + destruct (existsb (String.eqb x) seen); cbn; [exact IH | f_equal; exact IH].
Qed.

(** The keys after a run of assignments: those present before, then the new
    ones in the order in which they were first assigned. *)
Lemma assign_all_keys (pairs : list (string * V)) d :
  dict_keys (assign_all pairs d) =
  (dict_keys d
   ++ filter (fun k => negb (existsb (String.eqb k) (dict_keys d)))
        (first_occurrences (map fst pairs)))%list.
Proof.
  revert d. induction pairs as [| [k v] pairs IH]; intros d.
  - cbn. rewrite app_nil_r. reflexivity.
  - rewrite assign_all_cons, IH, dict_keys_set. cbn [map fst first_occurrences filter].
    destruct (existsb (String.eqb k) (dict_keys d)) eqn:E; cbn.
    + rewrite filter_mem_absorb by (apply existsb_eqb_In; exact E). reflexivity.
    + rewrite <- app_assoc. cbn. rewrite filter_filter_mem. reflexivity.
Qed.

Lemma first_occurrences_In (l : list string) k :
  In k (first_occurrences l) <-> In k l.
Proof.
  induction l as [| x l IH]; cbn.
  - tauto.
  - rewrite filter_In, IH. destruct (String.eqb_spec k x) as [E | E]; cbn.
    + subst. tauto.
    + split; [tauto | intros [H | H]; [congruence | tauto]].
Qed.

(** A dictionary with distinct keys is its keys paired with their values. *)
Lemma dict_as_keys d :
  NoDup (dict_keys d) ->
  map (fun kv => (fst kv, Some (snd kv))) d =
  map (fun k => (k, dict_get k d)) (dict_keys d).
Proof.
  induction d as [| [k v] d IH]; intros N; cbn.
  - reflexivity.
  - rewrite String.eqb_refl. f_equal. inversion N as [| ? ? Hk N']; subst.
    rewrite (IH N'). unfold dict_keys. rewrite !map_map.
    apply map_ext_in. intros [k' v'] Hin. cbn.
    destruct (String.eqb_spec k' k) as [E | E]; [| reflexivity].
    subst k'. exfalso. apply Hk. apply (in_map fst) in Hin. exact Hin.
Qed.

Lemma NoDup_keys_get (d : dict V) (k : string) (v : V) :
  NoDup (dict_keys d) -> In (k, v) d -> dict_get k d = Some v.
Proof.
  induction d as [| [k' v'] d IH]; cbn; [tauto |].
  intros N [H | H].
  - injection H as -> ->. rewrite String.eqb_refl. reflexivity.
  - destruct (String.eqb_spec k k') as [-> | _].
    + exfalso. apply NoDup_cons_iff in N. apply (proj1 N).
      apply in_map_iff. exists (k', v). split; [reflexivity | exact H].
    + apply IH; [| exact H]. apply NoDup_cons_iff in N. apply N.
Qed.

End DictFacts.

(** ** The hash table of CPython 2.7 *)
Module PyDictFacts.
Import PyDict.

Lemma lxor_below (w a b : Z) :
  0 < w -> 0 <= a < 2 ^ w -> 0 <= b < 2 ^ w -> 0 <= Z.lxor a b < 2 ^ w.
Proof.
  intros Hw Ha Hb. split; [apply Z.lxor_nonneg; lia |].
  assert (forall x, 0 <= x < 2 ^ w -> Z.log2 x < w) as L.
  { intros x Hx. destruct (Z.eq_dec x 0) as [-> | N]; [cbn; lia |].
    apply Z.log2_lt_pow2; lia. }
  destruct (Z.eq_dec (Z.lxor a b) 0) as [-> | N]; [apply Z.pow_pos_nonneg; lia |].
  assert (0 <= Z.lxor a b) by (apply Z.lxor_nonneg; lia).
  apply Z.log2_lt_pow2; [lia |].
  pose proof (Z.log2_lxor a b ltac:(lia) ltac:(lia)) as M.
  pose proof (L a Ha). pose proof (L b Hb). lia.
Qed.

Lemma wrap_below (w x : Z) : 0 < w -> 0 <= wrap w x < 2 ^ w.
Proof. intros Hw. unfold wrap. apply Z.mod_pos_bound. apply Z.pow_pos_nonneg; lia. Qed.

Lemma char_below (w : Z) (ch : ascii) : 8 <= w -> 0 <= Z.of_nat (nat_of_ascii ch) < 2 ^ w.
Proof.
  intros Hw. pose proof (nat_ascii_bounded ch) as B.
  assert (2 ^ 8 <= 2 ^ w) by (apply Z.pow_le_mono_r; lia).
  change (2 ^ 8) with 256 in *. lia.
Qed.

Lemma hash_chars_below (w : Z) (s : string) (x : Z) :
  8 <= w -> 0 <= x < 2 ^ w -> 0 <= hash_chars w x s < 2 ^ w.
Proof.
  intros Hw. revert x. induction s as [| ch s IH]; intros x Hx; cbn [hash_chars].
  - exact Hx.
  - apply IH. apply lxor_below; [lia | apply wrap_below; lia | apply char_below; lia].
Qed.

Lemma string_hash_below (w : Z) (s : string) :
  16 <= w -> 0 <= string_hash w s < 2 ^ w.
Proof.
  intros Hw. assert (2 ^ 16 <= 2 ^ w) as P by (apply Z.pow_le_mono_r; lia).
  change (2 ^ 16) with 65536 in P.
  unfold string_hash. destruct s as [| ch s]; [lia |]. cbv zeta.
  match goal with |- context [if ?x =? _ then _ else _] => set (h := x) end.
  assert (0 <= h < 2 ^ w) as Hh.
  { unfold h. apply lxor_below; [lia | | apply wrap_below; lia].
    apply hash_chars_below; [lia |].
    rewrite Z.shiftl_mul_pow2 by lia. pose proof (nat_ascii_bounded ch) as B.
    change (2 ^ 7) with 128. lia. }
  destruct (h =? 2 ^ w - 1); lia.
Qed.

Lemma mask_slot (n : nat) (x : Z) :
  size_ok n -> Z.land x (Z.of_nat n - 1) = x mod Z.of_nat n.
Proof.
  intros [-> | ->].
  - change (Z.of_nat 8 - 1) with (Z.ones 3). rewrite Z.land_ones by lia. reflexivity.
  - change (Z.of_nat 32 - 1) with (Z.ones 5). rewrite Z.land_ones by lia. reflexivity.
Qed.

Lemma wrap_slot (w : Z) (n : nat) (x : Z) :
  word_ok w -> size_ok n -> (wrap w x) mod Z.of_nat n = x mod Z.of_nat n.
Proof.
  intros Hw Hn. unfold wrap. apply Z.mod_mod_divide.
  destruct Hw as [-> | ->]; destruct Hn as [-> | ->].
  - exists (2 ^ 29). reflexivity.
  - exists (2 ^ 27). reflexivity.
  - exists (2 ^ 61). reflexivity.
  - exists (2 ^ 59). reflexivity.
Qed.

Lemma slot_in_table (n : nat) (x : Z) :
  size_ok n -> (Z.to_nat (x mod Z.of_nat n) < n)%nat.
Proof.
  intros Hn. pose proof (Z.mod_pos_bound x (Z.of_nat n)) as B.
  destruct Hn as [-> | ->]; lia.
Qed.

Lemma probe_sound (fuel : nat) (w : Z) (t : table) (key : string) (i perturb : Z)
  (index : nat) :
  size_ok (length t) ->
  probe fuel w t key i perturb = Some index ->
  (index < length t)%nat /\ free_or_same t index key = true.
Proof.
  intros Hn. revert i perturb. induction fuel as [| fuel IH]; intros i perturb; cbn [probe].
  - discriminate.
  - cbv zeta. rewrite (mask_slot _ _ Hn).
    intros H.
    match type of H with (if ?b then _ else _) = _ => destruct b eqn:F end.
    + injection H as <-. split; [apply slot_in_table; exact Hn | exact F].
    + exact (IH _ _ H).
Qed.

Lemma lookdict_string_sound (w : Z) (t : table) (key : string) (index : nat) :
  size_ok (length t) ->
  lookdict_string w t key = Some index ->
  (index < length t)%nat /\ free_or_same t index key = true.
Proof.
  intros Hn. unfold lookdict_string. cbv zeta. rewrite (mask_slot _ _ Hn).
  intros H.
  match type of H with (if ?b then _ else _) = _ => destruct b eqn:F end.
  - injection H as <-. split; [apply slot_in_table; exact Hn | exact F].
  - exact (probe_sound _ w t key _ _ index Hn H).
Qed.

Lemma full_cycle_spec (n : nat) (j f : Z) :
  full_cycle n = true -> 0 <= j < Z.of_nat n -> 0 <= f < Z.of_nat n ->
  exists m, (m < n)%nat /\ slot_after (Z.of_nat n) j (S m) = f.
Proof.
  intros C Hj Hf. unfold full_cycle in C. rewrite forallb_forall in C.
  specialize (C (Z.to_nat j) ltac:(apply in_seq; lia)). rewrite forallb_forall in C.
  specialize (C (Z.to_nat f) ltac:(apply in_seq; lia)). apply existsb_exists in C.
  destruct C as (m & Hm & E). apply in_seq in Hm. apply Z.eqb_eq in E.
  rewrite !Z2Nat.id in E by lia. exists m. split; [lia | exact E].
Qed.

Lemma size_full_cycle (n : nat) : size_ok n -> full_cycle n = true.
Proof. intros [-> | ->]; vm_compute; reflexivity. Qed.

(** Once [perturb] is used up the probe visits the slots of the cycle. *)
Lemma probe_cycle (fuel : nat) (w : Z) (t : table) (key : string) (i : Z) :
  word_ok w -> size_ok (length t) ->
  probe fuel w t key i 0 = None ->
  forall m, (m < fuel)%nat ->
    free_or_same t
      (Z.to_nat (slot_after (Z.of_nat (length t)) (i mod Z.of_nat (length t)) (S m))) key
    = false.
Proof.
  intros Hw Hn. revert i. induction fuel as [| fuel IH]; intros i H m Hm; [lia |].
  cbn [probe] in H. cbv zeta in H. rewrite (mask_slot _ _ Hn) in H.
  rewrite (wrap_slot w _ _ Hw Hn) in H.
  assert ((Z.shiftl i 2 + i + 0 + 1) mod Z.of_nat (length t)
          = next_slot (Z.of_nat (length t)) (i mod Z.of_nat (length t))) as E.
  { unfold next_slot. rewrite Z.shiftl_mul_pow2 by lia. change (2 ^ 2) with 4.
    destruct Hn as [-> | ->]; Z.div_mod_to_equations; lia. }
  rewrite E in H.
  destruct (free_or_same t _ key) eqn:F; [discriminate |].
  change (Z.shiftr 0 PERTURB_SHIFT) with 0 in H.
  destruct m as [| m].
  - exact F.
  - cbn [slot_after]. specialize (IH _ H m ltac:(lia)).
    rewrite (wrap_slot w _ _ Hw Hn), E in IH. exact IH.
Qed.

Lemma free_slot_not_same (t : table) (f : nat) (key : string) :
  nth f t None = None -> free_or_same t f key = true.
Proof. unfold free_or_same. intros ->. reflexivity. Qed.

Lemma probe_finds (m : nat) (fuel : nat) (w : Z) (t : table) (key : string)
  (i perturb : Z) (f : nat) :
  word_ok w -> size_ok (length t) ->
  (f < length t)%nat -> nth f t None = None ->
  0 <= perturb < 2 ^ (5 * Z.of_nat m) -> (m + length t <= fuel)%nat ->
  probe fuel w t key i perturb <> None.
Proof.
  intros Hw Hn Hf Ff. revert fuel i perturb.
  induction m as [| m IH]; intros fuel i perturb Hp Hfuel.
  - assert (perturb = 0) as -> by (change (2 ^ (5 * Z.of_nat 0)) with 1 in Hp; lia).
    intros N.
    destruct (full_cycle_spec (length t) (i mod Z.of_nat (length t)) (Z.of_nat f)
                (size_full_cycle _ Hn)
                ltac:(apply Z.mod_pos_bound; lia) ltac:(lia)) as (k & Hk & E).
    pose proof (probe_cycle fuel w t key i Hw Hn N k ltac:(lia)) as F.
    rewrite E, Nat2Z.id, (free_slot_not_same t f key Ff) in F. discriminate.
  - destruct fuel as [| fuel]; [lia |]. cbn [probe]. cbv zeta.
    destruct (free_or_same t _ key); [discriminate |].
    apply IH; [| lia]. unfold PERTURB_SHIFT. rewrite Z.shiftr_div_pow2 by lia.
    change (2 ^ 5) with 32. split; [apply Z.div_pos; lia |].
    apply Z.div_lt_upper_bound; [lia |].
    replace (5 * Z.of_nat (S m)) with (5 + 5 * Z.of_nat m) in Hp by lia.
    rewrite Z.pow_add_r in Hp by lia. change (2 ^ 5) with 32 in Hp. lia.
Qed.

Lemma lookdict_string_finds (w : Z) (t : table) (key : string) (f : nat) :
  word_ok w -> size_ok (length t) ->
  (f < length t)%nat -> nth f t None = None ->
  lookdict_string w t key <> None.
Proof.
  intros Hw Hn Hf Ff. unfold lookdict_string. cbv zeta.
  destruct (free_or_same t _ key); [discriminate |].
  apply (probe_finds 13 _ w t key _ _ f Hw Hn Hf Ff).
  - pose proof (string_hash_below w key ltac:(destruct Hw; lia)) as B.
    assert (2 ^ w <= 2 ^ (5 * Z.of_nat 13)) by (apply Z.pow_le_mono_r; destruct Hw; lia).
    lia.
  - destruct Hw as [-> | ->]; lia.
Qed.

Lemma active_cons (slot : option string) (t : table) :
  active (slot :: t) = (match slot with Some k => [k] | None => [] end ++ active t)%list.
Proof. reflexivity. Qed.

Lemma active_length (t : table) : (length (active t) <= length t)%nat.
Proof.
  induction t as [| slot t IH]; [apply le_n |].
  rewrite active_cons, length_app. destruct slot; cbn; lia.
Qed.

Lemma free_slot_exists (t : table) :
  (length (active t) < length t)%nat ->
  exists f, (f < length t)%nat /\ nth f t None = None.
Proof.
  induction t as [| slot t IH]; [cbn; lia |].
  rewrite active_cons, length_app. destruct slot as [k |]; cbn.
  - intros H. destruct (IH ltac:(lia)) as (f & Hf & E). exists (S f). split; [lia | exact E].
  - intros _. exists 0%nat. split; [lia | reflexivity].
Qed.

Lemma In_active (t : table) (k : string) : In k (active t) <-> In (Some k) t.
Proof.
  unfold active. rewrite in_flat_map. split.
  - intros ([k' |] & Hin & Hk); [| destruct Hk].
    destruct Hk as [-> | []]. exact Hin.
  - intros H. exists (Some k). split; [exact H | left; reflexivity].
Qed.

Lemma lookdict_string_new (w : Z) (t : table) (key : string) :
  word_ok w -> size_ok (length t) ->
  (length (active t) < length t)%nat -> ~ In key (active t) ->
  exists index,
    lookdict_string w t key = Some index /\
    (index < length t)%nat /\ nth index t None = None.
Proof.
  intros Hw Hn Hfree Hnew.
  destruct (free_slot_exists t Hfree) as (f & Hf & Ff).
  destruct (lookdict_string w t key) as [index |] eqn:L;
    [| exfalso; exact (lookdict_string_finds w t key f Hw Hn Hf Ff L)].
  destruct (lookdict_string_sound w t key index Hn L) as [Hi F].
  exists index. split; [reflexivity |]. split; [exact Hi |].
  unfold free_or_same in F. destruct (nth index t None) as [k |] eqn:E; [| reflexivity].
  exfalso. apply Hnew. apply In_active. apply String.eqb_eq in F. subst k.
  rewrite <- E. apply nth_In. exact Hi.
Qed.

Lemma store_free (t : table) (index : nat) (key : string) :
  (index < length t)%nat -> nth index t None = None ->
  Permutation (active (store t index key)) (key :: active t) /\
  length (store t index key) = length t.
Proof.
  revert index. induction t as [| slot t IH]; intros index Hi E; [cbn in Hi; lia |].
  destruct index as [| index].
  - cbn in E. subst slot. split; reflexivity.
  - cbn in E, Hi. destruct (IH index ltac:(lia) E) as [P L].
    change (store (slot :: t) (S index) key) with (slot :: store t index key).
    split; [| cbn; rewrite L; reflexivity].
    rewrite !active_cons.
    apply (Permutation_trans (Permutation_app_head _ P)).
    apply Permutation_sym, Permutation_middle.
Qed.

Lemma insertdict_clean_new (w : Z) (t : table) (key : string) :
  word_ok w -> size_ok (length t) ->
  (length (active t) < length t)%nat -> ~ In key (active t) ->
  Permutation (active (insertdict_clean w t key)) (key :: active t) /\
  length (insertdict_clean w t key) = length t.
Proof.
  intros Hw Hn Hfree Hnew.
  destruct (lookdict_string_new w t key Hw Hn Hfree Hnew) as (index & L & Hi & E).
  unfold insertdict_clean. rewrite L. apply store_free; assumption.
Qed.

Lemma insertdict_clean_all (w : Z) (l : list string) (t : table) :
  word_ok w -> size_ok (length t) ->
  NoDup l -> (forall k, In k l -> ~ In k (active t)) ->
  (length (active t) + length l < length t)%nat ->
  Permutation (active (fold_left (insertdict_clean w) l t)) (active t ++ l) /\
  length (fold_left (insertdict_clean w) l t) = length t.
Proof.
  intros Hw. revert t. induction l as [| k l IH]; intros t Hn N D B.
  - cbn. rewrite app_nil_r. split; reflexivity.
  - cbn [fold_left]. cbn [length] in B.
    destruct (insertdict_clean_new w t k Hw Hn ltac:(lia) (D k (or_introl eq_refl)))
      as [P L].
    apply NoDup_cons_iff in N. destruct N as [Nk N].
    destruct (IH (insertdict_clean w t k)) as [P' L'].
    + rewrite L. exact Hn.
    + exact N.
    + intros k' Hk' Hin. apply (Permutation_in _ P) in Hin. destruct Hin as [<- | Hin].
      * exact (Nk Hk').
      * exact (D k' (or_intror Hk') Hin).
    + rewrite L, (Permutation_length P). cbn [length]. lia.
    + split; [| rewrite L'; exact L].
      apply (Permutation_trans P').
      apply (Permutation_trans (Permutation_app_tail l P)).
      cbn [app]. apply Permutation_middle.
Qed.

Lemma PyDict_SetItem_new (w : Z) (t : table) (key : string) :
  word_ok w -> table_ok t -> ~ In key (active t) -> (length (active t) < 21)%nat ->
  table_ok (PyDict_SetItem w t key) /\
  Permutation (active (PyDict_SetItem w t key)) (key :: active t).
Proof.
  intros Hw [N Sz] Hnew B.
  assert (size_ok (length t)) as Hn by (destruct Sz as [[-> _] | [-> _]]; [left | right]; reflexivity).
  assert (length (active t) < length t)%nat as Hfree by (destruct Sz; lia).
  destruct (lookdict_string_new w t key Hw Hn Hfree Hnew) as (index & L & Hi & E).
  unfold PyDict_SetItem. rewrite L, E. cbv zeta.
  destruct (store_free t index key Hi E) as [P Len].
  pose proof (Permutation_length P) as U. cbn [length] in U.
  assert (NoDup (active (store t index key))) as N1.
  { apply (Permutation_NoDup (Permutation_sym P)). constructor; assumption. }
  rewrite Len, U.
  destruct (Nat.leb_spec (length t * 2) (S (length (active t)) * 3)) as [R | R].
  - assert (length t = 8 /\ length (active t) = 5)%nat as [L8 U5] by (destruct Sz; lia).
    rewrite U5. change (50000 <? Z.of_nat 6) with false. cbv iota.
    unfold dictresize. change (newsize (4 * 6) PyDict_MINSIZE (4 * 6)) with 32%nat.
    set (empty := repeat (@None string) 32).
    assert (length empty = 32%nat) as Le by reflexivity.
    assert (active empty = []) as Ae by reflexivity.
    destruct (insertdict_clean_all w (active (store t index key)) empty Hw)
      as [P' L'].
    + right. exact Le.
    + exact N1.
    + intros k _. rewrite Ae. intros [].
    + rewrite Ae, Le, U, U5. cbn. lia.
    + rewrite Ae in P'. cbn [app] in P'.
      split; [| exact (Permutation_trans P' P)].
      split; [apply (Permutation_NoDup (Permutation_sym P')); exact N1 |].
      right. split; [rewrite L'; exact Le |].
      rewrite (Permutation_length P'), U, U5. lia.
  - split; [| exact P]. split; [exact N1 |]. rewrite Len, U. destruct Sz; lia.
Qed.

Lemma PyDict_SetItem_all (w : Z) (l : list string) (t : table) :
  word_ok w -> table_ok t ->
  NoDup l -> (forall k, In k l -> ~ In k (active t)) ->
  (length (active t) + length l <= 21)%nat ->
  Permutation (active (fold_left (PyDict_SetItem w) l t)) (active t ++ l).
Proof.
  intros Hw. revert t. induction l as [| k l IH]; intros t T N D B.
  - cbn. rewrite app_nil_r. reflexivity.
  - cbn [fold_left]. cbn [length] in B.
    destruct (PyDict_SetItem_new w t k Hw T (D k (or_introl eq_refl)) ltac:(lia)) as [T' P].
    apply NoDup_cons_iff in N. destruct N as [Nk N].
    apply (Permutation_trans (IH _ T' N
             ltac:(intros k' Hk' Hin; apply (Permutation_in _ P) in Hin;
                   destruct Hin as [<- | Hin];
                   [exact (Nk Hk') | exact (D k' (or_intror Hk') Hin)])
             ltac:(rewrite (Permutation_length P); cbn [length]; lia))).
    apply (Permutation_trans (Permutation_app_tail l P)).
    cbn [app]. apply Permutation_middle.
Qed.

(** A dict of at most 21 keys lists each of them once. *)
Lemma keys_permutation (w : Z) (l : list string) :
  word_ok w -> NoDup l -> (length l <= 21)%nat -> Permutation (keys w l) l.
Proof.
  intros Hw N B. unfold keys.
  apply (PyDict_SetItem_all w l PyDict_New Hw); [| exact N | intros k _ [] | exact B].
  split; [constructor |]. left. split; [reflexivity | cbn; lia].
Qed.

Lemma lookups_of_entries {V : Type} (d : dict V) (l : list (string * V)) :
  (forall k v, In (k, v) l -> dict_get k d = Some v) ->
  flat_map (fun k => match dict_get k d with Some v => [(k, v)] | None => [] end)
    (map fst l) = l.
Proof.
  induction l as [| [k v] l IH]; intros H; [reflexivity |].
  cbn [map fst flat_map]. rewrite (H k v (or_introl eq_refl)), IH; [reflexivity |].
  intros k' v' Hin. apply H. right. exact Hin.
Qed.

(** A dict of at most 21 keys lists each of its items once. *)
Lemma listed_items_permutation {V : Type} (w : Z) (d : dict V) :
  word_ok w -> NoDup (dict_keys d) -> (length d <= 21)%nat ->
  Permutation (listed_items w d) d.
Proof.
  intros Hw N B. unfold listed_items, listed_keys.
  rewrite <- (lookups_of_entries d d) at 2 by (intros k v; apply NoDup_keys_get; exact N).
  apply Permutation_flat_map. apply keys_permutation; [exact Hw | exact N |].
  unfold dict_keys. rewrite length_map. exact B.
Qed.

End PyDictFacts.

(** ** The setters *)
Section SetterFacts.

Lemma since_date_run (minutes : pyval) (now : PyDatetime.datetime) (c : Client) :
  run (set_since_date minutes now) c =
  match since_date_text minutes now with
  | Ok text =>
      (Ok Self,
       {| self := with_locators c (dict_set "sinceDate" (PyStr text) (locators c));
          sent := [] |})
  | Raise e => (Raise e, {| self := c; sent := [] |})
  end.
Proof.
  unfold run, set_since_date, since_date_text, bind, lift.
  destruct (PyDatetime.timedelta_minutes minutes) as [delta | e]; cbn; [| reflexivity].
  destruct (PyDatetime.datetime_sub now delta) as [ago | e]; cbn; [| reflexivity].
  destruct (PyDatetime.strftime_basic ago) as [formatted | e]; reflexivity.
Qed.

(** What one setter call does to [self.locators] ... *)
Lemma call_setter_locators (s : setter_call) (c : Client) :
  locators (client_after (run (call_setter s) c)) =
  match locator_assignment s with
  | Some (k, v) => dict_set k v (locators c)
  | None => locators c
  end.
Proof.
  destruct s; try reflexivity.
  cbn [call_setter locator_assignment]. rewrite since_date_run.
  destruct (since_date_text minutes now); reflexivity.
Qed.

(** ... and to [self.parameters]. *)
Lemma call_setter_parameters (s : setter_call) (c : Client) :
  parameters (client_after (run (call_setter s) c)) =
  match parameter_assignment s with
  | Some (k, v) => dict_set k v (parameters c)
  | None => parameters c
  end.
Proof.
  destruct s; try reflexivity.
  cbn [call_setter parameter_assignment]. rewrite since_date_run.
  destruct (since_date_text minutes now); reflexivity.
Qed.

Lemma after_setters_cons (s : setter_call) (calls : list setter_call) (c : Client) :
  after_setters (s :: calls) c = after_setters calls (client_after (run (call_setter s) c)).
Proof. reflexivity. Qed.

Lemma after_setters_locators (calls : list setter_call) (c : Client) :
  locators (after_setters calls c) =
  assign_all (assignments locator_assignment calls) (locators c).
Proof.
  revert c. induction calls as [| s calls IH]; intros c.
  - reflexivity.
  - rewrite after_setters_cons, IH, call_setter_locators. cbn [assignments].
    destruct (locator_assignment s) as [[k v] |]; reflexivity.
Qed.

Lemma after_setters_parameters (calls : list setter_call) (c : Client) :
  parameters (after_setters calls c) =
  assign_all (assignments parameter_assignment calls) (parameters c).
Proof.
  revert c. induction calls as [| s calls IH]; intros c.
  - reflexivity.
  - rewrite after_setters_cons, IH, call_setter_parameters. cbn [assignments].
    destruct (parameter_assignment s) as [[k v] |]; reflexivity.
Qed.

Lemma assignments_filter {A B : Type} (f : A -> option B) (keep : A -> bool)
  (l : list A) :
  (forall a, keep a = false -> f a = None) ->
  assignments f (filter keep l) = assignments f l.
Proof.
  intros H. induction l as [| a l IH]; cbn.
  - reflexivity.
  - destruct (keep a) eqn:K; cbn.
    + destruct (f a); [f_equal |]; exact IH.
    + rewrite (H a K). exact IH.
Qed.

Lemma assignments_none {A B : Type} (f : A -> option B) (keep : A -> bool)
  (l : list A) :
  (forall a, keep a = true -> f a = None) ->
  assignments f (filter keep l) = [].
Proof.
  intros H. induction l as [| a l IH]; cbn.
  - reflexivity.
  - destruct (keep a) eqn:K; cbn; [rewrite (H a K) |]; exact IH.
Qed.

Lemma parameter_setter_assigns_no_locator (s : setter_call) :
  is_parameter_setter s = true -> locator_assignment s = None.
Proof. destruct s; cbn; congruence. Qed.

Lemma locator_setter_assigns_no_parameter (s : setter_call) :
  is_locator_setter s = true -> parameter_assignment s = None.
Proof. destruct s; cbn; congruence. Qed.

Lemma not_parameter_setter (s : setter_call) :
  is_parameter_setter s = false -> parameter_assignment s = None.
Proof. destruct s; cbn; congruence. Qed.

Lemma not_locator_setter (s : setter_call) :
  is_locator_setter s = false -> locator_assignment s = None.
Proof. destruct s; cbn; congruence. Qed.

Lemma locator_assignment_key (s : setter_call) (k : string) (v : pyval) :
  locator_assignment s = Some (k, v) -> In k locator_keys.
Proof.
  destruct s; cbn; try discriminate;
    try (intros H; injection H as <- _; cbn; tauto).
  destruct (since_date_text minutes now); [| discriminate].
  intros H; injection H as <- _; cbn; tauto.
Qed.

Lemma parameter_assignment_key (s : setter_call) (k : string) (v : pyval) :
  parameter_assignment s = Some (k, v) -> k = "count" \/ k = "start".
Proof.
  destruct s; cbn; try discriminate; intros H; injection H as <- _; tauto.
Qed.

Lemma assignments_In {A B : Type} (f : A -> option B) (l : list A) (b : B) :
  In b (assignments f l) <-> exists a, In a l /\ f a = Some b.
Proof.
  induction l as [| a l IH]; cbn.
  - split; [tauto | intros (a & [] & _)].
  - destruct (f a) as [b' |] eqn:E; cbn; rewrite IH; split.
    + intros [-> | (a' & Ha & Hf)]; [exists a; auto | exists a'; auto].
    + intros (a' & [-> | Ha] & Hf); [left; congruence | right; exists a'; auto].
    + intros (a' & Ha & Hf). exists a'; auto.
    + intros (a' & [-> | Ha] & Hf); [congruence | exists a'; auto].
Qed.

Lemma plain_setter_stores (k : string) (v : pyval) (c : Client) :
  stores_locator (assign_locator k v ;; ret Self) k v c.
Proof.
  unfold stores_locator. cbn. repeat split. apply dict_get_set_same.
Qed.

(** C4.  Whatever the order of the calls, [set_count] and [set_start] write
    to [self.parameters] only and every other setter to [self.locators]
    only: the parameters after a sequence of setter calls are those the
    [set_count] and [set_start] calls alone would leave, those calls leave
    the locators as they were, and the other way round; what [set_count] and
    [set_start] store is read back under the keys [count] and [start], and
    no key of the locator mapping is ever one of these two.  Each of the
    other setters returns the client with its argument stored under its own
    key of [self.locators] and the parameters untouched; [set_since_date]
    stores its text there when it returns and touches the parameters in no
    case. *)
Theorem setters_keep_to_their_mapping (calls : list setter_call) (c : Client) :
  parameters (after_setters calls c)
    = parameters (after_setters (filter is_parameter_setter calls) c) /\
  locators (after_setters (filter is_parameter_setter calls) c) = locators c /\
  locators (after_setters calls c)
    = locators (after_setters (filter is_locator_setter calls) c) /\
  parameters (after_setters (filter is_locator_setter calls) c) = parameters c /\
  (forall v c',
      dict_get "count" (parameters (client_after (run (set_count v) c'))) = Some v /\
      dict_get "start" (parameters (client_after (run (set_start v) c'))) = Some v /\
      locators (client_after (run (set_count v) c')) = locators c' /\
      locators (client_after (run (set_start v) c')) = locators c') /\
  (forall k, In k (dict_keys (locators (after_setters calls c))) ->
      In k (dict_keys (locators c)) \/ (In k locator_keys /\ k <> "count" /\ k <> "start")) /\
  (forall k, In k (dict_keys (parameters (after_setters calls c))) ->
      In k (dict_keys (parameters c)) \/ k = "count" \/ k = "start") /\
  (forall v c',
      stores_locator (set_running v) "running" v c' /\
      stores_locator (set_build_type v) "buildType" v c' /\
      stores_locator (set_tags v) "tags" v c' /\
      stores_locator (set_status v) "status" v c' /\
      stores_locator (set_user v) "user" v c' /\
      stores_locator (set_personal v) "personal" v c' /\
      stores_locator (set_canceled v) "canceled" v c' /\
      stores_locator (set_pinned v) "pinned" v c' /\
      stores_locator (set_branch v) "branch" v c' /\
      stores_locator (set_agent_name v) "agentName" v c' /\
      stores_locator (set_since_build v) "sinceBuild" v c' /\
      stores_locator (set_lookup_limit v) "lookupLimit" v c') /\
  (forall minutes now c',
      parameters (client_after (run (set_since_date minutes now) c')) = parameters c' /\
      (outcome (run (set_since_date minutes now) c') = Ok Self ->
       exists text,
         since_date_text minutes now = Ok text /\
         stores_locator (set_since_date minutes now) "sinceDate" (PyStr text) c')) /\
  (forall v c',
      stores_parameter (set_count v) "count" v c' /\
      stores_parameter (set_start v) "start" v c').
Proof.
  split; [| split; [| split; [| split; [| split; [| split; [| split; [| split; [| split]]]]]]]].
  - rewrite !after_setters_parameters.
    rewrite (assignments_filter parameter_assignment is_parameter_setter calls
               not_parameter_setter). reflexivity.
  - rewrite after_setters_locators.
    rewrite (assignments_none locator_assignment is_parameter_setter calls
               parameter_setter_assigns_no_locator). reflexivity.
  - rewrite !after_setters_locators.
    rewrite (assignments_filter locator_assignment is_locator_setter calls
               not_locator_setter). reflexivity.
  - rewrite after_setters_parameters.
    rewrite (assignments_none parameter_assignment is_locator_setter calls
               locator_setter_assigns_no_parameter). reflexivity.
  - intros v c'. repeat split.
    + apply (dict_get_set_same "count" v (parameters c')).
    + apply (dict_get_set_same "start" v (parameters c')).
  - intros k Hk. rewrite after_setters_locators, assign_all_keys in Hk.
    apply in_app_or in Hk. destruct Hk as [Hk | Hk]; [left; exact Hk | right].
    apply filter_In in Hk. destruct Hk as [Hk _].
    apply (proj1 (first_occurrences_In _ _)) in Hk. apply in_map_iff in Hk.
    destruct Hk as ([k' v] & <- & Hin). apply (proj1 (assignments_In _ _ _)) in Hin.
    destruct Hin as (s & _ & Hs). apply locator_assignment_key in Hs.
    cbn [fst]. split; [exact Hs |].
    cbn in Hs. split; intros ->;
      repeat (destruct Hs as [Hs | Hs]; [discriminate |]); exact Hs.
  - intros k Hk. rewrite after_setters_parameters, assign_all_keys in Hk.
    apply in_app_or in Hk. destruct Hk as [Hk | Hk]; [left; exact Hk | right].
    apply filter_In in Hk. destruct Hk as [Hk _].
    apply (proj1 (first_occurrences_In _ _)) in Hk. apply in_map_iff in Hk.
    destruct Hk as ([k' v] & <- & Hin). apply (proj1 (assignments_In _ _ _)) in Hin.
    destruct Hin as (s & _ & Hs). apply parameter_assignment_key in Hs. exact Hs.
  - intros v c'. repeat (split; [apply plain_setter_stores |]). apply plain_setter_stores.
  - intros minutes now c'. unfold stores_locator. rewrite since_date_run.
    destruct (since_date_text minutes now) as [text | e].
    + split; [reflexivity |]. intros _. exists text. split; [reflexivity |].
      cbn. repeat split. apply dict_get_set_same.
    + split; [reflexivity |]. cbn. discriminate.
  - intros v c'. unfold stores_parameter. cbn. repeat split; apply dict_get_set_same.
Qed.

End SetterFacts.

(** ** The constructor, [ServerInfo] and the endpoints *)
Section ClientFacts.

Variable int_of_str : string -> result Z.
Variable environ : string -> option string.
Variable requests_get : Request -> result Response.
Variable dateutil_parse_str : string -> result parsed_datetime.

Local Abbreviation init := (TeamCityRESTApiClient_init int_of_str environ).
Local Abbreviation ServerInfo_new := (ServerInfo_init dateutil_parse_str).
Local Abbreviation parse := (dateutil_parser_parse dateutil_parse_str).
Local Abbreviation endpoint :=
  (call_endpoint requests_get dateutil_parse_str source_set_resource).

(** The module binds every name of its own but [set_resource]. *)
Lemma set_resource_is_unbound :
  hasattr "set_resource" = false /\
  Forall (fun name => hasattr name = true)
    (instance_attributes ++ TeamCityRESTApiClient_functions ++ Resource_functions).
Proof.
  split; [reflexivity |]. repeat constructor.
Qed.

Lemma init_inv (u pw s p : pyval) (c : Client) :
  init u pw s p = Ok c ->
  exists text,
    percent_d (port c) = Ok text /\
    base_url c = "http://" ++ py_str (host c) ++ ":" ++ text ++ "/httpAuth/app/rest" /\
    host c = py_or s (getenv environ "TEAMCITY_HOST" PyNone) /\
    username c = py_or u (getenv environ "TEAMCITY_USER" PyNone) /\
    password c = py_or pw (getenv environ "TEAMCITY_PASSWORD" PyNone) /\
    locators c = [] /\ parameters c = [].
Proof.
  unfold TeamCityRESTApiClient_init. cbv zeta.
  destruct (if truthy p then Ok p else _) as [p' |]; cbn [result_bind]; [| discriminate].
  destruct (percent_d p') as [text |] eqn:E; cbn [result_bind]; [| discriminate].
  intros H. injection H as <-. cbn. exists text. auto 10.
Qed.

Lemma init_truthy_base_url (u pw s p : pyval) (c : Client) :
  init u pw s p = Ok c -> truthy (PyStr (base_url c)) = true.
Proof.
  intros H. destruct (init_inv u pw s p c H) as (text & _ & -> & _). reflexivity.
Qed.

(** C8.  The base URL is [http://h:p/httpAuth/app/rest]: for a host [h] and
    a port [p] given to the constructor (an empty host or the port 0 count
    as not given), and in general for the host and the port the client
    ends up with; with no port argument and no [TEAMCITY_PORT] in the
    environment the port is 80. *)
Theorem base_url_of_client :
  (forall (u pw : pyval) (h : string) (p : Z),
      h <> "" -> p <> 0 ->
      exists c,
        init u pw (PyStr h) (PyInt p) = Ok c /\
        host c = PyStr h /\ port c = PyInt p /\
        base_url c = "http://" ++ h ++ ":" ++ str_of_Z p ++ "/httpAuth/app/rest") /\
  (forall (u pw s p : pyval) (c : Client),
      init u pw s p = Ok c ->
      exists text,
        percent_d (port c) = Ok text /\
        base_url c = "http://" ++ py_str (host c) ++ ":" ++ text ++ "/httpAuth/app/rest") /\
  (forall (u pw s : pyval),
      environ "TEAMCITY_PORT" = None ->
      exists c,
        init u pw s PyNone = Ok c /\
        port c = PyInt 80 /\
        base_url c = "http://" ++ py_str (host c) ++ ":80/httpAuth/app/rest").
Proof.
  split; [| split].
  - intros u pw h p Hh Hp. unfold TeamCityRESTApiClient_init. cbv zeta.
    cbn [truthy]. rewrite (proj2 (Z.eqb_neq p 0) Hp). cbn [negb result_bind percent_d].
    eexists. split; [reflexivity |]. cbn.
    unfold py_or. cbn [truthy]. rewrite (proj2 (String.eqb_neq h "") Hh). cbn. auto.
  - intros u pw s p c H. destruct (init_inv u pw s p c H) as (text & Hp & Hb & _).
    exists text. auto.
  - intros u pw s He. unfold TeamCityRESTApiClient_init, getenv. cbv zeta.
    rewrite He. cbn. eexists. split; [reflexivity |]. cbn. auto.
Qed.

(** [get_server_info] on any client. *)
Lemma get_server_info_run (c : Client) :
  run (get_server_info requests_get dateutil_parse_str) c =
  if truthy (PyStr (base_url c)) then
    let request :=
      {| url := base_url c ++ "/server"; auth := (username c, password c);
         headers := [("Accept", "application/json")] |} in
    (response <~ requests_get request ;;
     data <~ response_json response ;;
     info <~ ServerInfo_new data ;;
     Ok (ServerInfoObj info),
     {| self := c; sent := [request] |})
  else (Raise (AttributeError "base_url"), {| self := c; sent := [] |}).
Proof.
  unfold run, get_server_info, _build_url, _get, bind, get_self, lift, build_url, ret.
  cbn [self sent].
  destruct (truthy (PyStr (base_url c))); cbn [result_bind]; [| reflexivity].
  cbn [map py_str String.concat app].
  destruct (requests_get _) as [response |]; cbn [result_bind]; [| reflexivity].
  destruct (response_json response) as [data |]; cbn [result_bind]; [| reflexivity].
  destruct (ServerInfo_new data); reflexivity.
Qed.

(** Every other endpoint fails on the attribute reference [self.set_resource]
    with nothing sent. *)
Lemma other_endpoints_run (e : endpoint_call) (c : Client) :
  e <> GetServerInfo ->
  outcome (run (endpoint e) c) = Raise (AttributeError "set_resource") /\
  requests_of (run (endpoint e) c) = [] /\
  locators (client_after (run (endpoint e) c)) = locators c.
Proof.
  intros H. destruct e; try (repeat split; reflexivity). congruence.
Qed.

(** C1, as the code has it.  On a client that the constructor built,
    [get_server_info] sends one GET for [<base url>/server] with the
    client's user name and password as basic authentication and the header
    [Accept: application/json], and returns the [ServerInfo] made from the
    decoded body (or raises what the transport, the decoding or the
    construction raised); no other endpoint method sends a request. *)
Theorem get_server_info_is_the_only_request (u pw s p : pyval) (c : Client) :
  init u pw s p = Ok c ->
  let request :=
    {| url := base_url c ++ "/server"; auth := (username c, password c);
       headers := [("Accept", "application/json")] |} in
  run (get_server_info requests_get dateutil_parse_str) c =
    (response <~ requests_get request ;;
     data <~ response_json response ;;
     info <~ ServerInfo_new data ;;
     Ok (ServerInfoObj info),
     {| self := c; sent := [request] |}) /\
  forall e, e <> GetServerInfo -> requests_of (run (endpoint e) c) = [].
Proof.
  intros H. cbv zeta. split.
  - rewrite get_server_info_run, (init_truthy_base_url u pw s p c H). reflexivity.
  - intros e He. apply (other_endpoints_run e c He).
Qed.

(** C2, as the code has it.  No endpoint reads the accumulated locators:
    whatever locator mapping the client holds, an endpoint call sends the
    same requests and ends the same way, for the builds and changes
    endpoints as for the single-resource ones, and it leaves the mapping as
    it found it. *)
Theorem endpoints_ignore_locators (e : endpoint_call) (c : Client) (l : dict pyval) :
  outcome (run (endpoint e) (with_locators c l)) = outcome (run (endpoint e) c) /\
  requests_of (run (endpoint e) (with_locators c l)) = requests_of (run (endpoint e) c) /\
  client_after (run (endpoint e) (with_locators c l))
    = with_locators (client_after (run (endpoint e) c)) l.
Proof.
  destruct e; try (repeat split; reflexivity).
  cbn [call_endpoint]. rewrite !get_server_info_run. cbn [with_locators base_url username password].
  destruct (truthy (PyStr (base_url c))); repeat split; reflexivity.
Qed.

(** What the methods hand to [set_resource] when the name is bound. *)
Lemma get_changes_by_build_id_bound (f : string -> M pyobj) (bId : pyval) (c : Client) :
  run (get_changes_by_build_id (Some f) bId) c =
  f "changes"
    {| self := with_parameters c
                 (dict_set "build" (PyStr ("id:" ++ py_str bId)) (parameters c));
       sent := [] |}.
Proof. reflexivity. Qed.

Lemma get_agent_by_agent_id_bound (f : string -> M pyobj) (aId : pyval) (c : Client) :
  run (get_agent_by_agent_id (Some f) aId) c =
  match aId with
  | PyInt n => f ("agents/id:" ++ str_of_Z n) {| self := c; sent := [] |}
  | PyBool b => f ("agents/id:" ++ (if b then "1" else "0")) {| self := c; sent := [] |}
  | PyStr _ =>
      (Raise (TypeError "%d format: a number is required, not str"),
       {| self := c; sent := [] |})
  | PyNone =>
      (Raise (TypeError "%d format: a number is required, not NoneType"),
       {| self := c; sent := [] |})
  end.
Proof. destruct aId as [| [|] | n | s]; reflexivity. Qed.

Lemma get_build_by_build_id_bound (f : string -> M pyobj) (bId : pyval) (c : Client) :
  run (get_build_by_build_id (Some f) bId) c =
  f ("builds/id:" ++ py_str bId) {| self := c; sent := [] |}.
Proof. reflexivity. Qed.

(** C5, on the code.  [get_changes_by_build_id(42)] stores [build=id:42] as
    the only new entry of the parameter mapping, embeds nothing in a path,
    and then raises [AttributeError] on [self.set_resource]: no resource
    path [changes] is recorded and nothing is sent. *)
Theorem get_changes_by_build_id_42 (c : Client) :
  run (get_changes_by_build_id source_set_resource (PyInt 42)) c =
  (Raise (AttributeError "set_resource"),
   {| self := with_parameters c (dict_set "build" (PyStr "id:42") (parameters c));
      sent := [] |}).
Proof. reflexivity. Qed.

(** C9, on the code.  [get_agent_by_agent_id] raises [AttributeError] on
    [self.set_resource] for every argument, an integer included, before
    [%d] is applied; so do the other by-id endpoints. *)
Theorem get_agent_by_agent_id_raises (aId : pyval) (c : Client) :
  run (get_agent_by_agent_id source_set_resource aId) c =
    (Raise (AttributeError "set_resource"), {| self := c; sent := [] |}) /\
  run (get_build_by_build_id source_set_resource aId) c =
    (Raise (AttributeError "set_resource"), {| self := c; sent := [] |}).
Proof. split; reflexivity. Qed.

End ClientFacts.

(** ** [ServerInfo] *)
Section ServerInfoFacts.

Variable dateutil_parse_str : string -> result parsed_datetime.

Local Abbreviation ServerInfo_new := (ServerInfo_init dateutil_parse_str).
Local Abbreviation parse := (dateutil_parser_parse dateutil_parse_str).

(** The constructor on a decoded object: the five plain attributes always
    get a value; the three timestamps are parsed in the order of the
    assignments and the first failure is raised. *)
Lemma ServerInfo_init_object (members : dict json) :
  ServerInfo_new (JDict members) =
  (current_time <~ parse (member members "currentTime") ;;
   start_time <~ parse (member members "startTime") ;;
   build_date <~ parse (member members "buildDate") ;;
   Ok {| data := JDict members;
         version := member members "version";
         version_major := member members "versionMajor";
         version_minor := member members "versionMinor";
         build_number := member members "buildNumber";
         internal_id := member members "internalId";
         current_time := current_time;
         start_time := start_time;
         build_date := build_date |}).
Proof. reflexivity. Qed.

(** C6.  From a decoded object that has all eight fields, the three
    timestamps being strings that [dateutil] parses, the constructor makes a
    [ServerInfo] whose eight attributes are the eight values, the timestamps
    as [dateutil] parses them. *)
Theorem ServerInfo_of_complete_object
  (members : dict json) (v1 v2 v3 v4 v5 : json) (s6 s7 s8 : string)
  (t6 t7 t8 : parsed_datetime) :
  dict_get "version" members = Some v1 ->
  dict_get "versionMajor" members = Some v2 ->
  dict_get "versionMinor" members = Some v3 ->
  dict_get "buildNumber" members = Some v4 ->
  dict_get "internalId" members = Some v5 ->
  dict_get "currentTime" members = Some (JStr s6) ->
  dict_get "startTime" members = Some (JStr s7) ->
  dict_get "buildDate" members = Some (JStr s8) ->
  dateutil_parse_str s6 = Ok t6 ->
  dateutil_parse_str s7 = Ok t7 ->
  dateutil_parse_str s8 = Ok t8 ->
  ServerInfo_new (JDict members) =
  Ok {| data := JDict members;
        version := v1; version_major := v2; version_minor := v3;
        build_number := v4; internal_id := v5;
        current_time := t6; start_time := t7; build_date := t8 |}.
Proof.
  intros H1 H2 H3 H4 H5 H6 H7 H8 P6 P7 P8.
  rewrite ServerInfo_init_object. unfold member.
  rewrite H1, H2, H3, H4, H5, H6, H7, H8. cbn [dateutil_parser_parse].
  rewrite P6, P7, P8. reflexivity.
Qed.

Lemma parse_missing (members : dict json) (key : string) :
  dict_get key members = None ->
  parse (member members key) =
  Raise (TypeError "Parser must be a string or character stream").
Proof.
  intros H. unfold member. rewrite H. reflexivity.
Qed.

(** C10.  Missing fields are not treated alike.  When the three timestamps
    parse, construction succeeds and each of the five plain attributes whose
    field is missing is [None].  When a timestamp field is missing,
    construction raises; the exception is the [TypeError] of parsing [None]
    unless a timestamp assigned earlier is itself rejected first. *)
Theorem ServerInfo_missing_fields (members : dict json) :
  (forall t6 t7 t8,
      parse (member members "currentTime") = Ok t6 ->
      parse (member members "startTime") = Ok t7 ->
      parse (member members "buildDate") = Ok t8 ->
      exists info,
        ServerInfo_new (JDict members) = Ok info /\
        (dict_get "version" members = None -> version info = JNull) /\
        (dict_get "versionMajor" members = None -> version_major info = JNull) /\
        (dict_get "versionMinor" members = None -> version_minor info = JNull) /\
        (dict_get "buildNumber" members = None -> build_number info = JNull) /\
        (dict_get "internalId" members = None -> internal_id info = JNull)) /\
  (dict_get "currentTime" members = None \/
   dict_get "startTime" members = None \/
   dict_get "buildDate" members = None ->
   exists e, ServerInfo_new (JDict members) = Raise e) /\
  (dict_get "currentTime" members = None ->
   ServerInfo_new (JDict members) =
   Raise (TypeError "Parser must be a string or character stream")) /\
  (forall t6,
      parse (member members "currentTime") = Ok t6 ->
      dict_get "startTime" members = None ->
      ServerInfo_new (JDict members) =
      Raise (TypeError "Parser must be a string or character stream")) /\
  (forall t6 t7,
      parse (member members "currentTime") = Ok t6 ->
      parse (member members "startTime") = Ok t7 ->
      dict_get "buildDate" members = None ->
      ServerInfo_new (JDict members) =
      Raise (TypeError "Parser must be a string or character stream")).
Proof.
  rewrite ServerInfo_init_object.
  split; [| split; [| split; [| split]]].
  - intros t6 t7 t8 P6 P7 P8. rewrite P6, P7, P8. cbn [result_bind].
    eexists. split; [reflexivity |]. cbn [version version_major version_minor
      build_number internal_id]. unfold member.
    repeat split; intros ->; reflexivity.
  - intros [H | [H | H]]; rewrite (parse_missing members _ H).
    + eexists. reflexivity.
    + destruct (parse (member members "currentTime")); eexists; reflexivity.
    + destruct (parse (member members "currentTime")); cbn [result_bind];
        [| eexists; reflexivity].
      destruct (parse (member members "startTime")); eexists; reflexivity.
  - intros H. rewrite (parse_missing members _ H). reflexivity.
  - intros t6 P6 H. rewrite P6, (parse_missing members _ H). reflexivity.
  - intros t6 t7 P6 P7 H. rewrite P6, P7, (parse_missing members _ H). reflexivity.
Qed.

End ServerInfoFacts.

(** ** Sequences of setter calls on a new client *)
Section BuilderFacts.

Variable int_of_str : string -> result Z.
Variable environ : string -> option string.

Local Abbreviation init := (TeamCityRESTApiClient_init int_of_str environ).

Lemma filter_all {A : Type} (l : list A) : filter (fun _ => true) l = l.
Proof.
  induction l as [| a l IH]; cbn; [reflexivity | f_equal; exact IH].
Qed.

Lemma first_occurrences_NoDup (l : list string) : NoDup (first_occurrences l).
Proof.
  induction l as [| k l IH]; cbn.
  - constructor.
  - constructor.
    + rewrite filter_In. intros [_ H]. rewrite String.eqb_refl in H. discriminate.
    + apply NoDup_filter. exact IH.
Qed.

Lemma init_locators (u pw s p : pyval) (c : Client) :
  init u pw s p = Ok c -> locators c = [] /\ parameters c = [].
Proof.
  unfold TeamCityRESTApiClient_init. cbv zeta.
  destruct (if truthy p then Ok p else _) as [p' |]; cbn [result_bind]; [| discriminate].
  destruct (percent_d p') as [text |]; cbn [result_bind]; [| discriminate].
  intros H. injection H as <-. split; reflexivity.
Qed.

(** The locator mapping of a new client never has more keys than there are
    locator setters. *)
Lemma assigned_locators_size (assigned : list (string * pyval)) (calls : list setter_call) :
  assigned = assignments locator_assignment calls ->
  (length (first_occurrences (map fst assigned)) <= 13)%nat.
Proof.
  intros ->. change 13%nat with (length locator_keys).
  apply NoDup_incl_length; [apply first_occurrences_NoDup |].
  intros k Hk. apply (proj1 (first_occurrences_In _ _)) in Hk. apply in_map_iff in Hk.
  destruct Hk as ([k' v] & <- & Hin). apply (proj1 (assignments_In _ _ _)) in Hin.
  destruct Hin as (s' & _ & Hs). exact (locator_assignment_key s' k' v Hs).
Qed.

(** C3.  After any sequence of setter calls on a new client the locator
    mapping holds, for every key, the value assigned to it last, and CPython
    2.7 lists each of its items once, in the order of its hash table.  For
    every listing of the mapping that has each item once, in whatever order,
    the combined locator expression is the comma-joined list of [key:value]
    over the listed items: it has exactly one segment for each key that the
    calls assigned, with the value assigned to it last.  The order of the
    segments is that of the listing, not that of the calls. *)
Theorem locator_expression_of_calls
  (u pw s p : pyval) (c : Client) (calls : list setter_call) :
  init u pw s p = Ok c ->
  let assigned := assignments locator_assignment calls in
  let keys := first_occurrences (map fst assigned) in
  let final := locators (after_setters calls c) in
  let segment := fun kv : string * pyval => fst kv ++ ":" ++ py_str (snd kv) in
  (forall k, dict_get k final = latest k assigned) /\
  (forall w, w = 32 \/ w = 64 -> Permutation (listed_items w final) final) /\
  (forall items : list (string * pyval),
     Permutation items final ->
     NoDup (map fst items) /\
     (forall k, In k (map fst items) <-> In k (map fst assigned)) /\
     (forall k v, In (k, v) items -> latest k assigned = Some v) /\
     locator_expression items = String.concat "," (map segment items) /\
     Permutation (map segment items)
       (map (fun k => k ++ ":" ++ optional_str (latest k assigned)) keys)).
Proof.
  intros H. destruct (init_locators u pw s p c H) as [Hl _]. cbv zeta.
  rewrite after_setters_locators, Hl.
  set (assigned := assignments locator_assignment calls).
  set (final := assign_all assigned []).
  assert (dict_keys final = first_occurrences (map fst assigned)) as K.
  { unfold final. rewrite assign_all_keys. cbn [dict_keys map app existsb negb].
    apply filter_all. }
  assert (forall k, dict_get k final = latest k assigned) as G.
  { intros k. unfold final. rewrite assign_all_get. cbn [dict_get].
    destruct (latest k assigned); reflexivity. }
  assert (NoDup (dict_keys final)) as N by (rewrite K; apply first_occurrences_NoDup).
  split; [exact G |]. split.
  { intros w Hw. apply (PyDictFacts.listed_items_permutation w final Hw N).
    pose proof (assigned_locators_size assigned calls eq_refl) as B.
    rewrite <- K in B. unfold dict_keys in B. rewrite length_map in B. lia. }
  intros items P.
  assert (Permutation (map fst items) (dict_keys final)) as PK
    by (apply Permutation_map; exact P).
  split; [apply (Permutation_NoDup (Permutation_sym PK)); exact N |].
  split.
  { intros k. rewrite <- (first_occurrences_In (map fst assigned) k), <- K.
    split; intros Hk.
    - apply (Permutation_in k PK Hk).
    - apply (Permutation_in k (Permutation_sym PK) Hk). }
  split.
  { intros k v Hk. rewrite <- G. apply NoDup_keys_get; [exact N |].
    apply (Permutation_in (k, v) P Hk). }
  split; [reflexivity |].
  apply (Permutation_trans
           (Permutation_map (fun kv : string * pyval => fst kv ++ ":" ++ py_str (snd kv)) P)).
  rewrite <- K.
  replace (map (fun kv : string * pyval => fst kv ++ ":" ++ py_str (snd kv)) final)
    with (map (fun k => k ++ ":" ++ optional_str (latest k assigned)) (dict_keys final));
    [apply Permutation_refl |].
  symmetry.
  transitivity
    (map (fun ko : string * option pyval => fst ko ++ ":" ++ optional_str (snd ko))
       (map (fun kv : string * pyval => (fst kv, Some (snd kv))) final)).
  { rewrite map_map. reflexivity. }
  rewrite dict_as_keys by exact N.
  rewrite map_map. apply map_ext. intros k. cbn [fst snd]. rewrite G. reflexivity.
Qed.

End BuilderFacts.

(** ** [set_since_date] *)
Section SinceDateFacts.
Import PyDatetime.

(** C7.  At local time [T], [set_since_date(N)] stores under [sinceDate]
    the date and time [d] that lies [N] minutes before [T], written as
    [YYYYMMDD], the letter T and [HHMMSS] and followed by [-0500], whenever
    [d] is a date of the years 1900 to 9999; the call reads the clock and
    nothing else, no time zone in particular. *)
Theorem set_since_date_stores (N : Z) (T d : datetime) (c : Client) :
  valid T -> valid d -> 1900 <= year d ->
  timeline d = timeline T - 60 * N ->
  microsecond d = microsecond T ->
  run (set_since_date (PyInt N) T) c =
  (Ok Self,
   {| self :=
        with_locators c
          (dict_set "sinceDate"
             (PyStr (YYYYMMDD_T_HHMMSS d ++ "-0500"))
             (locators c));
      sent := [] |}).
Proof.
  intros VT Vd Hy Ht Hus. rewrite since_date_run. unfold since_date_text.
  pose proof (DatetimeFacts.datetime_sub_minutes T d N VT Vd Ht Hus) as E.
  destruct (timedelta_minutes (PyInt N)) as [delta |]; cbn [result_bind] in E |- *;
    [| discriminate].
  rewrite E. cbn [result_bind].
  rewrite (DatetimeFacts.strftime_basic_format d Vd Hy). reflexivity.
Qed.

End SinceDateFacts.

(** ** The theorems at work on the sample runtime *)

(** The constructor call that builds [Sample.client]. *)
Lemma sample_client_built :
  TeamCityRESTApiClient_init Sample.int_of_str Sample.environ
    (PyStr "admin") (PyStr "secret") (PyStr "tc.example.org") (PyInt 8111)
  = Ok Sample.client.
Proof. reflexivity. Qed.

(** C1: [get_all_plugins] on the sample client raises before anything is
    sent, and would send nothing either if [set_resource] were the method the
    docstrings describe; it returns no decoded body. *)
Lemma endpoint_without_request :
  run (get_all_plugins source_set_resource) Sample.client
    = (Raise (AttributeError "set_resource"), {| self := Sample.client; sent := [] |}) /\
  run (get_all_plugins documented_set_resource) Sample.client
    = (Ok Self, {| self := Sample.client; sent := [] |}) /\
  ~ (exists request body,
        requests_of (run (get_all_plugins source_set_resource) Sample.client) = [request] /\
        outcome (run (get_all_plugins source_set_resource) Sample.client)
          = Ok (JsonObj body)).
Proof.
  split; [reflexivity |]. split; [reflexivity |].
  intros (request & body & H & _). discriminate H.
Qed.

Lemma get_server_info_is_the_only_request_witness :
  run (get_server_info Sample.requests_get Sample.parse_str) Sample.client =
  (result_bind (ServerInfo_init Sample.parse_str Sample.server_info_body)
     (fun info => Ok (ServerInfoObj info)),
   {| self := Sample.client;
      sent := [{| url := "http://tc.example.org:8111/httpAuth/app/rest/server";
                  auth := (PyStr "admin", PyStr "secret");
                  headers := [("Accept", "application/json")] |}] |}) /\
  requests_of
    (run (call_endpoint Sample.requests_get Sample.parse_str source_set_resource
            GetAllChanges) Sample.client) = [].
Proof.
  destruct (get_server_info_is_the_only_request
              Sample.int_of_str Sample.environ Sample.requests_get Sample.parse_str
              (PyStr "admin") (PyStr "secret") (PyStr "tc.example.org") (PyInt 8111)
              Sample.client sample_client_built) as [E N].
  split.
  - rewrite E. reflexivity.
  - apply N. discriminate.
Defined.

(** C2: with [status] set on the sample client, [get_all_builds] and
    [get_all_changes] send no request, so no request path carries the
    locator. *)
Lemma locators_not_merged :
  let c := after_setters [SetStatus (PyStr "SUCCESS")] Sample.client in
  locators c = [("status", PyStr "SUCCESS")] /\
  outcome (run (get_all_builds source_set_resource (PyInt 0) (PyInt 100)) c)
    = Raise (AttributeError "set_resource") /\
  outcome (run (get_all_changes source_set_resource) c)
    = Raise (AttributeError "set_resource") /\
  ~ (exists request,
        In request
          (requests_of (run (get_all_builds source_set_resource (PyInt 0) (PyInt 100)) c)
           ++ requests_of (run (get_all_changes source_set_resource) c))%list).
Proof.
  cbv zeta. repeat split. intros (request & H). exact H.
Qed.

Lemma locator_expression_of_calls_witness :
  let final :=
    locators
      (after_setters
         [SetRunning (PyStr "true"); SetStatus (PyStr "SUCCESS"); SetCount (PyInt 3);
          SetRunning (PyStr "false")]
         Sample.client) in
  listed_items 64 final = [("status", PyStr "SUCCESS"); ("running", PyStr "false")] /\
  locator_expression (listed_items 64 final) = "status:SUCCESS,running:false" /\
  Permutation ["status:SUCCESS"; "running:false"] ["running:false"; "status:SUCCESS"].
Proof.
  cbv zeta. split; [reflexivity |]. split; [reflexivity |].
  destruct (locator_expression_of_calls Sample.int_of_str Sample.environ
              (PyStr "admin") (PyStr "secret") (PyStr "tc.example.org") (PyInt 8111)
              Sample.client
              [SetRunning (PyStr "true"); SetStatus (PyStr "SUCCESS");
               SetCount (PyInt 3); SetRunning (PyStr "false")]
              sample_client_built) as (_ & L & E).
  exact (proj2 (proj2 (proj2 (proj2 (E _ (L 64 (or_intror eq_refl))))))).
Defined.

(** C3: on CPython 2.7 [set_running] followed by [set_status] leaves a
    mapping that lists [status] first, so that its comma-joined expression
    is not in the order of the calls. *)
Lemma locator_expression_in_hash_order :
  let final :=
    locators
      (after_setters [SetRunning (PyStr "true"); SetStatus (PyStr "SUCCESS")]
         Sample.client) in
  dict_keys final = ["running"; "status"] /\
  (forall w, w = 32 \/ w = 64 ->
     listed_keys w final = ["status"; "running"] /\
     locator_expression (listed_items w final) = "status:SUCCESS,running:true") /\
  "status:SUCCESS,running:true" <> "running:true,status:SUCCESS".
Proof.
  cbv zeta. split; [reflexivity |]. split; [| discriminate].
  intros w [-> | ->]; split; vm_compute; reflexivity.
Qed.

Lemma ServerInfo_of_complete_object_witness :
  exists info,
    ServerInfo_init Sample.parse_str Sample.server_info_body = Ok info /\
    version info = JStr "8.1.2 (build 29993)" /\
    PyDatetime.day (naive (start_time info)) = 28.
Proof.
  eexists. split.
  - apply (ServerInfo_of_complete_object Sample.parse_str
             [("version", JStr "8.1.2 (build 29993)");
              ("versionMajor", JInt 8);
              ("versionMinor", JInt 1);
              ("buildNumber", JStr "29993");
              ("internalId", JStr "b5a3c1f2");
              ("currentTime", JStr "20140301T001005+0000");
              ("startTime", JStr "20140228T080000+0000");
              ("buildDate", JStr "20140213T000000+0000")]
             _ _ _ _ _ _ _ _ _ _ _
             eq_refl eq_refl eq_refl eq_refl eq_refl eq_refl eq_refl eq_refl
             eq_refl eq_refl eq_refl).
  - split; reflexivity.
Defined.

Lemma set_since_date_stores_witness :
  let T := {| PyDatetime.year := 2014; PyDatetime.month := 3; PyDatetime.day := 1;
              PyDatetime.hour := 0; PyDatetime.minute := 10; PyDatetime.second := 5;
              PyDatetime.microsecond := 123 |} in
  dict_get "sinceDate"
    (locators (client_after (run (set_since_date (PyInt 30) T) Sample.client)))
  = Some (PyStr "20140228T234005-0500").
Proof.
  cbv zeta.
  rewrite (set_since_date_stores 30
             {| PyDatetime.year := 2014; PyDatetime.month := 3; PyDatetime.day := 1;
                PyDatetime.hour := 0; PyDatetime.minute := 10; PyDatetime.second := 5;
                PyDatetime.microsecond := 123 |}
             {| PyDatetime.year := 2014; PyDatetime.month := 2; PyDatetime.day := 28;
                PyDatetime.hour := 23; PyDatetime.minute := 40; PyDatetime.second := 5;
                PyDatetime.microsecond := 123 |}
             Sample.client).
  - reflexivity.
  - cbv. repeat split; solve [reflexivity | discriminate].
  - cbv. repeat split; solve [reflexivity | discriminate].
  - cbv. discriminate.
  - reflexivity.
  - reflexivity.
Defined.

(** C7: not every minute count has a date to store.  At ten past midnight on
    2014-03-01, 60100000 minutes lead back into 1899, where [strftime]
    raises, and 10000000000 minutes lead before the year 1, where the
    subtraction raises; nothing is stored in either case. *)
Lemma set_since_date_without_a_date :
  let T := {| PyDatetime.year := 2014; PyDatetime.month := 3; PyDatetime.day := 1;
              PyDatetime.hour := 0; PyDatetime.minute := 10; PyDatetime.second := 5;
              PyDatetime.microsecond := 123 |} in
  run (set_since_date (PyInt 60100000) T) Sample.client
    = (Raise (ValueError
         "year=1899 is before 1900; the datetime strftime() methods require year >= 1900"),
       {| self := Sample.client; sent := [] |}) /\
  run (set_since_date (PyInt 10000000000) T) Sample.client
    = (Raise (OverflowError "date value out of range"),
       {| self := Sample.client; sent := [] |}) /\
  dict_get "sinceDate"
    (locators (client_after (run (set_since_date (PyInt 60100000) T) Sample.client)))
  = None /\
  dict_get "sinceDate"
    (locators (client_after (run (set_since_date (PyInt 10000000000) T) Sample.client)))
  = None.
Proof.
  cbv zeta. repeat split; vm_compute; reflexivity.
Qed.

Lemma base_url_of_client_witness :
  exists c,
    TeamCityRESTApiClient_init Sample.int_of_str Sample.environ
      PyNone PyNone (PyStr "tc.example.org") (PyInt 8111) = Ok c /\
    base_url c = "http://tc.example.org:8111/httpAuth/app/rest".
Proof.
  destruct (base_url_of_client Sample.int_of_str Sample.environ) as (H & _ & _).
  destruct (H PyNone PyNone "tc.example.org" 8111 ltac:(discriminate) ltac:(discriminate))
    as (c & E & _ & _ & B).
  exists c. split; [exact E | exact B].
Defined.

Lemma ServerInfo_missing_fields_witness :
  (exists info,
      ServerInfo_init Sample.parse_str
        (JDict [("currentTime", JStr "20140301T001005+0000");
                ("startTime", JStr "20140228T080000+0000");
                ("buildDate", JStr "20140213T000000+0000")]) = Ok info /\
      version info = JNull) /\
  ServerInfo_init Sample.parse_str
    (JDict [("version", JStr "8.1.2"); ("startTime", JStr "20140228T080000+0000")])
  = Raise (TypeError "Parser must be a string or character stream").
Proof.
  split.
  - destruct (ServerInfo_missing_fields Sample.parse_str
                [("currentTime", JStr "20140301T001005+0000");
                 ("startTime", JStr "20140228T080000+0000");
                 ("buildDate", JStr "20140213T000000+0000")]) as (H & _).
    destruct (H _ _ _ eq_refl eq_refl eq_refl) as (info & E & V & _).
    exists info. split; [exact E | apply V; reflexivity].
  - destruct (ServerInfo_missing_fields Sample.parse_str
                [("version", JStr "8.1.2"); ("startTime", JStr "20140228T080000+0000")])
      as (_ & _ & H & _).
    apply H. reflexivity.
Defined.

(** * Further properties of the code *)

(** ** The setters *)
Section MoreSetterFacts.
Import PyDatetime.

(** X1.  [set_since_date] succeeds exactly when the moment [N] minutes before
    the clock reading lies in the years 1900 to 9999: then it stores that
    moment.  In the years 1 to 1899 [strftime] raises [ValueError], outside
    the years 1 to 9999 the subtraction raises [OverflowError]; in both
    cases the client is left as it was. *)
Theorem set_since_date_range (N : Z) (T : datetime) (c : Client) :
  valid T ->
  (693596 * 86400 <= timeline T - 60 * N < 3652060 * 86400 ->
   exists d,
     valid d /\ 1900 <= year d /\
     timeline d = timeline T - 60 * N /\ microsecond d = microsecond T /\
     run (set_since_date (PyInt N) T) c =
     (Ok Self,
      {| self := with_locators c
                   (dict_set "sinceDate" (PyStr (YYYYMMDD_T_HHMMSS d ++ "-0500"))
                      (locators c));
         sent := [] |})) /\
  (86400 <= timeline T - 60 * N < 693596 * 86400 ->
   exists msg,
     run (set_since_date (PyInt N) T) c =
     (Raise (ValueError msg), {| self := c; sent := [] |})) /\
  (~ (86400 <= timeline T - 60 * N < 3652060 * 86400) ->
   exists msg,
     run (set_since_date (PyInt N) T) c =
     (Raise (OverflowError msg), {| self := c; sent := [] |})).
Proof.
  intros VT.
  assert (0 <= microsecond T < 1000000) as Hus by apply VT.
  split; [| split].
  - intros HX.
    destruct (DatetimeFacts.datetime_exists (timeline T - 60 * N) (microsecond T)
                ltac:(lia) Hus) as (d & Vd & Ht & Hu).
    assert (1900 <= year d) as Hy
      by (apply (proj2 (DatetimeFacts.year_1900 d Vd)); lia).
    exists d. repeat (split; [assumption |]).
    rewrite since_date_run. unfold since_date_text.
    pose proof (DatetimeFacts.datetime_sub_minutes T d N VT Vd Ht Hu) as E.
    destruct (timedelta_minutes (PyInt N)) as [delta |]; cbn [result_bind] in E |- *;
      [| discriminate].
    rewrite E. cbn [result_bind].
    rewrite (DatetimeFacts.strftime_basic_format d Vd Hy). reflexivity.
  - intros HX.
    destruct (DatetimeFacts.datetime_exists (timeline T - 60 * N) (microsecond T)
                ltac:(lia) Hus) as (d & Vd & Ht & Hu).
    assert (year d < 1900) as Hy.
    { pose proof (proj1 (DatetimeFacts.year_1900 d Vd)) as Y. lia. }
    destruct (DatetimeFacts.strftime_basic_before_1900 d Hy) as (msg & F).
    exists msg. rewrite since_date_run. unfold since_date_text.
    pose proof (DatetimeFacts.datetime_sub_minutes T d N VT Vd Ht Hu) as E.
    destruct (timedelta_minutes (PyInt N)) as [delta |]; cbn [result_bind] in E |- *;
      [| discriminate].
    rewrite E. cbn [result_bind]. rewrite F. reflexivity.
  - intros HX. destruct (DatetimeFacts.datetime_sub_overflow T N VT HX) as (msg & E).
    exists msg. rewrite since_date_run. unfold since_date_text.
    destruct (timedelta_minutes (PyInt N)) as [delta | e]; cbn [result_bind] in E |- *.
    + rewrite E. reflexivity.
    + injection E as ->. reflexivity.
Qed.

(** The exceptions of [set_since_date]. *)
Lemma since_date_text_errors (minutes : pyval) (now : datetime) (e : exn) :
  since_date_text minutes now = Raise e ->
  exists msg, e = TypeError msg \/ e = OverflowError msg \/ e = ValueError msg.
Proof.
  unfold since_date_text.
  pose proof (DatetimeFacts.datetime_sub_errors minutes now) as S.
  destruct (timedelta_minutes minutes) as [delta | e1]; cbn [result_bind] in S |- *.
  - destruct (datetime_sub now delta) as [ago | e2]; cbn [result_bind].
    + unfold strftime_basic. destruct (year ago <? 1900); cbn [result_bind];
        [| discriminate].
      intros H. injection H as <-. eexists. right. right. reflexivity.
    + intros H. injection H as <-. destruct (S e2 eq_refl) as (msg & [-> | ->]);
        exists msg; tauto.
  - intros H. injection H as <-. destruct (S e1 eq_refl) as (msg & [-> | ->]);
      exists msg; tauto.
Qed.

(** X2.  A setter call sends nothing and returns the client itself, so that
    calls chain; only [set_since_date] can raise, a [TypeError], an
    [OverflowError] or the [ValueError] of [strftime], and then the client
    is left as it was.  Minutes given as a string are such a [TypeError]. *)
Theorem setters_return_self_or_leave_the_client (s : setter_call) (c : Client) :
  requests_of (run (call_setter s) c) = [] /\
  (outcome (run (call_setter s) c) = Ok Self \/
   (exists minutes now msg,
       s = SetSinceDate minutes now /\
       (outcome (run (call_setter s) c) = Raise (TypeError msg) \/
        outcome (run (call_setter s) c) = Raise (OverflowError msg) \/
        outcome (run (call_setter s) c) = Raise (ValueError msg)) /\
       client_after (run (call_setter s) c) = c)) /\
  (forall text now,
      run (set_since_date (PyStr text) now) c =
      (Raise (TypeError "unsupported type for timedelta minutes component: str"),
       {| self := c; sent := [] |})).
Proof.
  split; [| split].
  - destruct s; try reflexivity. cbn [call_setter]. rewrite since_date_run.
    destruct (since_date_text minutes now); reflexivity.
  - destruct s; try (left; reflexivity). cbn [call_setter]. rewrite since_date_run.
    destruct (since_date_text minutes now) as [text | e] eqn:E; [left; reflexivity |].
    right. destruct (since_date_text_errors minutes now e E) as (msg & [-> | [-> | ->]]);
      exists minutes, now, msg; (split; [reflexivity |]); split; auto.
  - reflexivity.
Qed.

End MoreSetterFacts.

(** ** Sequences of setter calls *)
Section SequenceFacts.

Lemma after_setters_app (l1 l2 : list setter_call) (c : Client) :
  after_setters (l1 ++ l2)%list c = after_setters l2 (after_setters l1 c).
Proof. unfold after_setters. apply fold_left_app. Qed.

Lemma call_setter_connection (s : setter_call) (c : Client) :
  let c' := client_after (run (call_setter s) c) in
  _session c' = _session c /\ username c' = username c /\ password c' = password c /\
  host c' = host c /\ port c' = port c /\ base_url c' = base_url c.
Proof.
  destruct s; try (cbv zeta; repeat split; reflexivity).
  cbv zeta. cbn [call_setter]. rewrite since_date_run.
  destruct (since_date_text minutes now); repeat split; reflexivity.
Qed.

(** X3.  No sequence of setter calls touches the connection settings: the
    session, the credentials, the host, the port and the base URL stay as
    the constructor set them. *)
Theorem setters_keep_the_connection (calls : list setter_call) (c : Client) :
  let c' := after_setters calls c in
  _session c' = _session c /\ username c' = username c /\ password c' = password c /\
  host c' = host c /\ port c' = port c /\ base_url c' = base_url c.
Proof.
  cbv zeta. revert c. induction calls as [| s calls IH]; intros c.
  - repeat split; reflexivity.
  - rewrite after_setters_cons.
    destruct (IH (client_after (run (call_setter s) c))) as (H1 & H2 & H3 & H4 & H5 & H6).
    destruct (call_setter_connection s c) as (G1 & G2 & G3 & G4 & G5 & G6).
    cbv zeta in G1, G2, G3, G4, G5, G6.
    rewrite H1, H2, H3, H4, H5, H6. auto 10.
Qed.

Lemma dict_set_twice {V : Type} (k : string) (v : V) (d : dict V) :
  dict_set k v (dict_set k v d) = dict_set k v d.
Proof.
  induction d as [| [k' v'] d IH]; cbn.
  - rewrite String.eqb_refl. reflexivity.
  - destruct (k =? k')%string eqn:E; cbn; rewrite E; [reflexivity | f_equal; exact IH].
Qed.

(** The client after one setter call. *)
Lemma call_setter_client (s : setter_call) (c : Client) :
  client_after (run (call_setter s) c) =
  match locator_assignment s, parameter_assignment s with
  | Some (k, v), _ => with_locators c (dict_set k v (locators c))
  | None, Some (k, v) => with_parameters c (dict_set k v (parameters c))
  | None, None => c
  end.
Proof.
  destruct s; try reflexivity.
  cbn [call_setter locator_assignment parameter_assignment]. rewrite since_date_run.
  destruct (since_date_text minutes now); reflexivity.
Qed.

Lemma call_setter_twice (s : setter_call) (c : Client) :
  client_after (run (call_setter s) (client_after (run (call_setter s) c)))
  = client_after (run (call_setter s) c).
Proof.
  rewrite !call_setter_client.
  destruct (locator_assignment s) as [[k v] |].
  - unfold with_locators. cbn. rewrite dict_set_twice. reflexivity.
  - destruct (parameter_assignment s) as [[k v] |]; [| reflexivity].
    unfold with_parameters. cbn. rewrite dict_set_twice. reflexivity.
Qed.

(** X4.  Repeating a setter call changes nothing: after any calls, making
    the same call twice in a row leaves the client that making it once
    leaves. *)
Theorem setter_twice_is_once (calls : list setter_call) (s : setter_call) (c : Client) :
  after_setters (calls ++ [s; s])%list c = after_setters (calls ++ [s])%list c.
Proof.
  rewrite !after_setters_app. cbn [after_setters fold_left].
  apply call_setter_twice.
Qed.

Lemma assignments_app {A B : Type} (f : A -> option B) (l1 l2 : list A) :
  assignments f (l1 ++ l2)%list = (assignments f l1 ++ assignments f l2)%list.
Proof.
  induction l1 as [| a l1 IH]; cbn; [reflexivity |].
  destruct (f a); cbn; rewrite IH; reflexivity.
Qed.

Lemma locator_assignment_setter_key (s : setter_call) (k : string) (v : pyval) :
  locator_assignment s = Some (k, v) -> k = setter_key s.
Proof.
  destruct s; cbn; try discriminate; try (intros H; injection H as <- _; reflexivity).
  destruct (since_date_text minutes now); [| discriminate].
  intros H; injection H as <- _; reflexivity.
Qed.

Lemma parameter_assignment_setter_key (s : setter_call) (k : string) (v : pyval) :
  parameter_assignment s = Some (k, v) -> k = setter_key s.
Proof.
  destruct s; cbn; try discriminate; intros H; injection H as <- _; reflexivity.
Qed.

(** Swapping two neighbours that assign different keys keeps the last
    assignment of every key. *)
Lemma latest_swap (f : setter_call -> option (string * pyval))
  (pre post : list setter_call) (s1 s2 : setter_call) (k : string) :
  (forall s k v, f s = Some (k, v) -> k = setter_key s) ->
  setter_key s1 <> setter_key s2 ->
  latest k (assignments f (pre ++ s1 :: s2 :: post)%list)
  = latest k (assignments f (pre ++ s2 :: s1 :: post)%list).
Proof.
  intros Hf Hk. unfold latest.
  rewrite !assignments_app.
  change (s1 :: s2 :: post) with ([s1; s2] ++ post)%list.
  change (s2 :: s1 :: post) with ([s2; s1] ++ post)%list.
  rewrite !assignments_app, !rev_app_distr, !dict_get_app.
  destruct (dict_get k (rev (assignments f post))); [reflexivity |].
  enough (dict_get k (rev (assignments f [s1; s2]))
          = dict_get k (rev (assignments f [s2; s1]))) as -> by reflexivity.
  cbn [assignments].
  destruct (f s1) as [[k1 v1] |] eqn:E1; destruct (f s2) as [[k2 v2] |] eqn:E2;
    try reflexivity.
  apply Hf in E1. apply Hf in E2. cbn.
  destruct (String.eqb_spec k k1) as [K1 | K1];
    destruct (String.eqb_spec k k2) as [K2 | K2]; try reflexivity.
  congruence.
Qed.

(** X5.  Setters for different keys commute: swapping two neighbouring calls
    that assign different keys changes no value read from the locator
    mapping or the parameter mapping afterwards (only the order of the keys
    may differ). *)
Theorem setters_for_different_keys_commute
  (pre post : list setter_call) (s1 s2 : setter_call) (c : Client) (k : string) :
  setter_key s1 <> setter_key s2 ->
  dict_get k (locators (after_setters (pre ++ s1 :: s2 :: post)%list c))
    = dict_get k (locators (after_setters (pre ++ s2 :: s1 :: post)%list c)) /\
  dict_get k (parameters (after_setters (pre ++ s1 :: s2 :: post)%list c))
    = dict_get k (parameters (after_setters (pre ++ s2 :: s1 :: post)%list c)).
Proof.
  intros Hk. rewrite !after_setters_locators, !after_setters_parameters, !assign_all_get.
  rewrite (latest_swap locator_assignment pre post s1 s2 k
             locator_assignment_setter_key Hk).
  rewrite (latest_swap parameter_assignment pre post s1 s2 k
             parameter_assignment_setter_key Hk).
  split; reflexivity.
Qed.

End SequenceFacts.

(** ** The constructor *)
Section ConstructorFacts.

Variable int_of_str : string -> result Z.
Variable environ : string -> option string.

Local Abbreviation init := (TeamCityRESTApiClient_init int_of_str environ).

(** X6.  Where the port comes from.  A non-zero integer argument is the
    port, whatever the environment holds.  With no port argument (or 0, or
    an empty string) the port is [int(TEAMCITY_PORT)] when that is not 0,
    and 80 when it is 0; when [int] rejects the variable, the constructor
    raises what [int] raised. *)
Theorem constructor_port_resolution (u pw s : pyval) :
  (forall p, p <> 0 ->
     exists c, init u pw s (PyInt p) = Ok c /\ port c = PyInt p) /\
  (forall p text n,
     truthy p = false -> environ "TEAMCITY_PORT" = Some text ->
     int_of_str text = Ok n -> n <> 0 ->
     exists c,
       init u pw s p = Ok c /\ port c = PyInt n /\
       base_url c
         = "http://" ++ py_str (host c) ++ ":" ++ str_of_Z n ++ "/httpAuth/app/rest") /\
  (forall p text,
     truthy p = false -> environ "TEAMCITY_PORT" = Some text ->
     int_of_str text = Ok 0 ->
     exists c, init u pw s p = Ok c /\ port c = PyInt 80) /\
  (forall p text e,
     truthy p = false -> environ "TEAMCITY_PORT" = Some text ->
     int_of_str text = Raise e ->
     init u pw s p = Raise e).
Proof.
  unfold TeamCityRESTApiClient_init, getenv. cbv zeta.
  split; [| split; [| split]].
  - intros p Hp. cbn [truthy]. rewrite (proj2 (Z.eqb_neq p 0) Hp). cbn.
    eexists. split; reflexivity.
  - intros p text n Hp He Hi Hn. rewrite Hp, He. cbn [py_int]. rewrite Hi.
    cbn [result_bind].
    assert (py_or (PyInt n) (PyInt 80) = PyInt n) as ->.
    { unfold py_or. cbn [truthy]. rewrite (proj2 (Z.eqb_neq n 0) Hn). reflexivity. }
    cbn [percent_d result_bind].
    eexists. split; [reflexivity |]. split; reflexivity.
  - intros p text Hp He Hi. rewrite Hp, He. cbn [py_int]. rewrite Hi. cbn.
    eexists. split; reflexivity.
  - intros p text e Hp He Hi. rewrite Hp, He. cbn [py_int]. rewrite Hi. reflexivity.
Qed.

(** X7.  The constructor raises in two cases only: the port argument is a
    non-empty string, which [%d] refuses even when it spells a number, or
    there is no port argument and [int] rejects [TEAMCITY_PORT]. *)
Theorem constructor_raises_iff (u pw s p : pyval) (e : exn) :
  init u pw s p = Raise e <->
  (exists text,
      p = PyStr text /\ text <> "" /\
      e = TypeError "%d format: a number is required, not str") \/
  (truthy p = false /\
   exists text, environ "TEAMCITY_PORT" = Some text /\ int_of_str text = Raise e).
Proof.
  unfold TeamCityRESTApiClient_init, getenv. cbv zeta.
  destruct (truthy p) eqn:Hp.
  - cbn [result_bind]. destruct p as [| b | n | text]; cbn in Hp |- *.
    + discriminate.
    + split; [discriminate | intros [(t & H & _) | (H & _)]; discriminate].
    + split; [discriminate | intros [(t & H & _) | (H & _)]; discriminate].
    + split.
      * intros H. injection H as <-. left. exists text.
        repeat split. intros ->. discriminate.
      * intros [(t & H & _ & ->) | (H & _)]; [reflexivity | discriminate].
  - destruct (environ "TEAMCITY_PORT") as [text |]; cbn [py_int].
    + destruct (int_of_str text) as [n | e'] eqn:Hi; cbn [result_bind].
      * unfold py_or. destruct (truthy (PyInt n)); cbn.
        -- split; [discriminate |].
           intros [(t & -> & Ht & _) | (_ & t & Ht & Hr)].
           ++ cbn in Hp. apply negb_false_iff, String.eqb_eq in Hp. contradiction.
           ++ injection Ht as <-. congruence.
        -- split; [discriminate |].
           intros [(t & -> & Ht & _) | (_ & t & Ht & Hr)].
           ++ cbn in Hp. apply negb_false_iff, String.eqb_eq in Hp. contradiction.
           ++ injection Ht as <-. congruence.
      * split.
        -- intros H. injection H as <-. right. split; [reflexivity |].
           exists text. split; [reflexivity | exact Hi].
        -- intros [(t & -> & Ht & _) | (_ & t & Ht & Hr)].
           ++ cbn in Hp. apply negb_false_iff, String.eqb_eq in Hp. contradiction.
           ++ injection Ht as <-. congruence.
    + cbn. split; [discriminate |].
      intros [(t & -> & Ht & _) | (_ & t & Ht & _)]; [| discriminate].
      cbn in Hp. apply negb_false_iff, String.eqb_eq in Hp. contradiction.
Qed.

(** X8.  Credentials and host: an argument that is [None] or empty gives way
    to the environment variable, also when the caller meant the empty
    string; a host found in neither place is written [None] in the base
    URL. *)
Theorem constructor_fallbacks (u pw s p : pyval) (c : Client) :
  init u pw s p = Ok c ->
  (truthy u = true -> username c = u) /\
  (truthy u = false -> username c = getenv environ "TEAMCITY_USER" PyNone) /\
  (truthy pw = true -> password c = pw) /\
  (truthy pw = false -> password c = getenv environ "TEAMCITY_PASSWORD" PyNone) /\
  (truthy s = true -> host c = s) /\
  (truthy s = false -> host c = getenv environ "TEAMCITY_HOST" PyNone) /\
  (truthy s = false -> environ "TEAMCITY_HOST" = None ->
   exists text, base_url c = "http://None:" ++ text ++ "/httpAuth/app/rest").
Proof.
  intros H. destruct (init_inv int_of_str environ u pw s p c H)
    as (text & _ & Hb & Hh & Hu & Hpw & _).
  rewrite Hu, Hpw, Hh. unfold py_or.
  repeat split; try (intros ->; reflexivity).
  intros Hs He. exists text. rewrite Hb, Hh. unfold py_or, getenv. rewrite Hs, He.
  reflexivity.
Qed.

End ConstructorFacts.

(** ** Requests *)
Section RequestFacts.

Variable int_of_str : string -> result Z.
Variable environ : string -> option string.
Variable requests_get : Request -> result Response.
Variable dateutil_parse_str : string -> result parsed_datetime.

Local Abbreviation init := (TeamCityRESTApiClient_init int_of_str environ).
Local Abbreviation ServerInfo_new := (ServerInfo_init dateutil_parse_str).
Local Abbreviation info_request := (get_server_info requests_get dateutil_parse_str).
Local Abbreviation endpoint :=
  (call_endpoint requests_get dateutil_parse_str source_set_resource).

(** X9.  [get_server_info] on a client that the constructor built sends
    exactly one request, whatever comes of it, and leaves the client as it
    was.  What the transport raises and what decoding the body raises reach
    the caller unchanged; a body that is not a JSON object ends in
    [AttributeError]; and the only thing ever returned is the [ServerInfo]
    made from the decoded body. *)
Theorem get_server_info_outcomes (u pw s p : pyval) (c : Client) :
  init u pw s p = Ok c ->
  let request :=
    {| url := base_url c ++ "/server"; auth := (username c, password c);
       headers := [("Accept", "application/json")] |} in
  client_after (run info_request c) = c /\
  requests_of (run info_request c) = [request] /\
  (forall e, requests_get request = Raise e ->
     outcome (run info_request c) = Raise e) /\
  (forall response e,
     requests_get request = Ok response -> response_json response = Raise e ->
     outcome (run info_request c) = Raise e) /\
  (forall response body,
     requests_get request = Ok response -> response_json response = Ok body ->
     (forall members, body <> JDict members) ->
     outcome (run info_request c) = Raise (AttributeError "get")) /\
  (forall obj,
     outcome (run info_request c) = Ok obj ->
     exists response body info,
       requests_get request = Ok response /\ response_json response = Ok body /\
       ServerInfo_new body = Ok info /\ obj = ServerInfoObj info).
Proof.
  intros H. cbv zeta.
  rewrite get_server_info_run, (init_truthy_base_url _ _ u pw s p c H). cbv zeta.
  unfold client_after, requests_of, outcome. cbn [fst snd self sent].
  split; [reflexivity |]. split; [reflexivity |].
  split; [| split; [| split]].
  - intros e ->. reflexivity.
  - intros response e -> He. cbn [result_bind]. rewrite He. reflexivity.
  - intros response body -> Hb Hn. cbn [result_bind]. rewrite Hb. cbn [result_bind].
    destruct body; try reflexivity. exfalso. apply (Hn members). reflexivity.
  - intros obj.
    destruct (requests_get _) as [response |]; cbn [result_bind]; [| discriminate].
    destruct (response_json response) as [body |] eqn:Hb; cbn [result_bind];
      [| discriminate].
    destruct (ServerInfo_new body) as [info |] eqn:Hi; cbn [result_bind];
      [| discriminate].
    intros E. injection E as <-. exists response, body, info. auto.
Qed.

(** X10.  The accumulated parameters reach no request either: whatever
    parameter mapping the client holds, an endpoint call sends the same
    requests and ends the same way, and it leaves the locators alone. *)
Theorem endpoints_ignore_parameters (e : endpoint_call) (c : Client) (q : dict pyval) :
  outcome (run (endpoint e) (with_parameters c q)) = outcome (run (endpoint e) c) /\
  requests_of (run (endpoint e) (with_parameters c q))
    = requests_of (run (endpoint e) c) /\
  locators (client_after (run (endpoint e) (with_parameters c q))) = locators c.
Proof.
  destruct e; try (repeat split; reflexivity).
  cbn [call_endpoint]. rewrite !get_server_info_run.
  cbn [with_parameters base_url username password].
  destruct (truthy (PyStr (base_url c))); repeat split; reflexivity.
Qed.

Lemma dict_set_keeps_keys {V : Type} (k k' : string) (v : V) (d : dict V) :
  In k (dict_keys d) -> In k (dict_keys (dict_set k' v d)).
Proof.
  intros H. rewrite dict_keys_set.
  destruct (existsb (String.eqb k') (dict_keys d)); [exact H |].
  apply in_or_app. left. exact H.
Qed.

(** X11.  The endpoint methods that set parameters do so before they fail,
    and the parameters stay: after [get_all_builds] and
    [get_all_builds_by_build_type_id] have raised, [start] and [count] hold
    the arguments, the two methods leaving the same values though they
    assign them in opposite orders (on a client without parameters CPython
    2.7 lists [count] before [start] after either);
    [get_changes_by_build_id] leaves [build]; and no endpoint call removes a
    parameter that was set. *)
Theorem endpoints_leave_parameters_behind (c : Client) :
  (forall start count btId,
     let a := client_after (run (get_all_builds source_set_resource start count) c) in
     let b := client_after
                (run (get_all_builds_by_build_type_id source_set_resource
                        btId start count) c) in
     outcome (run (get_all_builds source_set_resource start count) c)
       = Raise (AttributeError "set_resource") /\
     dict_get "start" (parameters a) = Some start /\
     dict_get "count" (parameters a) = Some count /\
     (forall k, dict_get k (parameters a) = dict_get k (parameters b)) /\
     (parameters c = [] ->
      forall w, w = 32 \/ w = 64 ->
      listed_keys w (parameters a) = ["count"; "start"] /\
      listed_keys w (parameters b) = ["count"; "start"])) /\
  (forall bId,
     dict_get "build"
       (parameters (client_after (run (get_changes_by_build_id source_set_resource bId) c)))
     = Some (PyStr ("id:" ++ py_str bId))) /\
  (forall e k,
     In k (dict_keys (parameters c)) ->
     In k (dict_keys (parameters (client_after (run (endpoint e) c))))).
Proof.
  split; [| split].
  - intros start count btId. cbv zeta.
    change (parameters (client_after (run (get_all_builds source_set_resource start count) c)))
      with (dict_set "count" count (dict_set "start" start (parameters c))).
    change (parameters
              (client_after
                 (run (get_all_builds_by_build_type_id source_set_resource
                         btId start count) c)))
      with (dict_set "start" start (dict_set "count" count (parameters c))).
    split; [reflexivity |].
    split; [rewrite dict_get_set_other by discriminate; apply dict_get_set_same |].
    split; [apply dict_get_set_same |].
    split.
    + intros k.
      destruct (String.eqb_spec k "count") as [-> | Kc].
      * rewrite dict_get_set_same, dict_get_set_other by discriminate.
        rewrite dict_get_set_same. reflexivity.
      * rewrite (dict_get_set_other k "count") by exact Kc.
        destruct (String.eqb_spec k "start") as [-> | Ks].
        -- rewrite !dict_get_set_same. reflexivity.
        -- rewrite !(dict_get_set_other k "start") by exact Ks.
           rewrite (dict_get_set_other k "count") by exact Kc. reflexivity.
    + intros -> w [-> | ->]; split; vm_compute; reflexivity.
  - intros bId. apply (dict_get_set_same "build" _ (parameters c)).
  - intros e k Hk. destruct e; try exact Hk.
    + cbn [call_endpoint]. rewrite get_server_info_run.
      destruct (truthy (PyStr (base_url c))); exact Hk.
    + apply (dict_set_keeps_keys k "count"), (dict_set_keeps_keys k "start"), Hk.
    + apply (dict_set_keeps_keys k "start"), (dict_set_keeps_keys k "count"), Hk.
    + apply (dict_set_keeps_keys k "build"), Hk.
Qed.

End RequestFacts.

(** X12.  The status code of the response plays no part: two transports
    whose responses decode alike, or that raise alike, give
    [get_server_info] the same outcome, a 404 with a JSON body included. *)
Theorem get_server_info_ignores_status
  (transport1 transport2 : Request -> result Response)
  (dateutil_parse_str : string -> result parsed_datetime) (c : Client) :
  (forall request,
      match transport1 request, transport2 request with
      | Ok r1, Ok r2 => response_json r1 = response_json r2
      | Raise e1, Raise e2 => e1 = e2
      | _, _ => False
      end) ->
  outcome (run (get_server_info transport1 dateutil_parse_str) c)
  = outcome (run (get_server_info transport2 dateutil_parse_str) c).
Proof.
  intros H. rewrite !get_server_info_run.
  destruct (truthy (PyStr (base_url c))); [| reflexivity].
  cbv zeta. unfold outcome. cbn [fst].
  match goal with |- context [transport1 ?r] => specialize (H r) end.
  destruct (transport1 _) as [r1 | e1]; destruct (transport2 _) as [r2 | e2];
    cbn [result_bind]; try contradiction.
  - rewrite H. reflexivity.
  - rewrite H. reflexivity.
Qed.

(** ** [ServerInfo], once more *)
Section MoreServerInfoFacts.

Variable dateutil_parse_str : string -> result parsed_datetime.

Local Abbreviation ServerInfo_new := (ServerInfo_init dateutil_parse_str).
Local Abbreviation parse := (dateutil_parser_parse dateutil_parse_str).

(** X13.  What the constructor refuses without asking [dateutil]: decoded
    data that is not an object has no [get], an [AttributeError]; a
    [currentTime] that is there but is not a string is a [TypeError]; and
    any timestamp that is there but is not a string makes the construction
    raise. *)
Theorem ServerInfo_refuses_without_parsing :
  (forall body,
     (forall members, body <> JDict members) ->
     ServerInfo_new body = Raise (AttributeError "get")) /\
  (forall members v,
     dict_get "currentTime" members = Some v -> (forall text, v <> JStr text) ->
     ServerInfo_new (JDict members)
     = Raise (TypeError "Parser must be a string or character stream")) /\
  (forall members key v,
     key = "currentTime" \/ key = "startTime" \/ key = "buildDate" ->
     dict_get key members = Some v -> (forall text, v <> JStr text) ->
     exists e, ServerInfo_new (JDict members) = Raise e).
Proof.
  assert (forall members key v,
             dict_get key members = Some v -> (forall text, v <> JStr text) ->
             parse (member members key)
             = Raise (TypeError "Parser must be a string or character stream")) as P.
  { intros members key v Hk Hv. unfold member. rewrite Hk.
    destruct v; try reflexivity. exfalso. apply (Hv s). reflexivity. }
  split; [| split].
  - intros body Hn. destruct body; try reflexivity.
    exfalso. apply (Hn members). reflexivity.
  - intros members v Hk Hv. rewrite ServerInfo_init_object, (P members _ v Hk Hv).
    reflexivity.
  - intros members key v [-> | [-> | ->]] Hk Hv; rewrite ServerInfo_init_object.
    + rewrite (P members _ v Hk Hv). eexists. reflexivity.
    + rewrite (P members "startTime" v Hk Hv).
      destruct (parse (member members "currentTime")); eexists; reflexivity.
    + rewrite (P members "buildDate" v Hk Hv).
      destruct (parse (member members "currentTime")); cbn [result_bind];
        [| eexists; reflexivity].
      destruct (parse (member members "startTime")); eexists; reflexivity.
Qed.

(** X14.  The constructor reads the eight known fields and nothing else:
    it succeeds exactly when the three timestamps parse, and two objects
    that agree on the eight fields give the same eight attributes, or the
    same exception. *)
Theorem ServerInfo_reads_eight_fields (m1 m2 : dict json) :
  (is_ok (ServerInfo_new (JDict m1)) = true <->
   exists t6 t7 t8,
     parse (member m1 "currentTime") = Ok t6 /\
     parse (member m1 "startTime") = Ok t7 /\
     parse (member m1 "buildDate") = Ok t8) /\
  ((forall key,
       In key ["version"; "versionMajor"; "versionMinor"; "buildNumber"; "internalId";
               "currentTime"; "startTime"; "buildDate"] ->
       dict_get key m1 = dict_get key m2) ->
   match ServerInfo_new (JDict m1), ServerInfo_new (JDict m2) with
   | Ok i1, Ok i2 =>
       version i1 = version i2 /\ version_major i1 = version_major i2 /\
       version_minor i1 = version_minor i2 /\ build_number i1 = build_number i2 /\
       internal_id i1 = internal_id i2 /\ current_time i1 = current_time i2 /\
       start_time i1 = start_time i2 /\ build_date i1 = build_date i2
   | Raise e1, Raise e2 => e1 = e2
   | _, _ => False
   end).
Proof.
  split.
  - rewrite ServerInfo_init_object. split.
    + destruct (parse (member m1 "currentTime")) as [t6 |]; cbn; [| discriminate].
      destruct (parse (member m1 "startTime")) as [t7 |]; cbn; [| discriminate].
      destruct (parse (member m1 "buildDate")) as [t8 |]; cbn; [| discriminate].
      intros _. exists t6, t7, t8. auto.
    + intros (t6 & t7 & t8 & -> & -> & ->). reflexivity.
  - intros H.
    assert (forall key,
               In key ["version"; "versionMajor"; "versionMinor"; "buildNumber";
                       "internalId"; "currentTime"; "startTime"; "buildDate"] ->
               member m1 key = member m2 key) as M.
    { intros key Hk. unfold member. rewrite (H key Hk). reflexivity. }
    rewrite !ServerInfo_init_object.
    rewrite <- !M by (cbn; tauto).
    destruct (parse (member m1 "currentTime")); cbn [result_bind]; [| reflexivity].
    destruct (parse (member m1 "startTime")); cbn [result_bind]; [| reflexivity].
    destruct (parse (member m1 "buildDate")); cbn [result_bind]; [| reflexivity].
    cbn. auto 10.
Qed.

End MoreServerInfoFacts.

(** ** [build_url] and the command line *)
Section UrlFacts.

Lemma append_assoc (a b c : string) : (a ++ b) ++ c = a ++ b ++ c.
Proof.
  induction a as [| ch a IH]; cbn; [reflexivity | rewrite IH; reflexivity].
Qed.

Lemma concat_snoc (sep x : string) (first : string) (rest : list string) :
  String.concat sep ((first :: rest) ++ [x])%list
  = String.concat sep (first :: rest) ++ sep ++ x.
Proof.
  revert first. induction rest as [| y rest IH]; intros first.
  - reflexivity.
  - change (String.concat sep ((first :: y :: rest) ++ [x])%list)
      with (first ++ sep ++ String.concat sep ((y :: rest) ++ [x])%list).
    rewrite IH.
    change (String.concat sep (first :: y :: rest))
      with (first ++ sep ++ String.concat sep (y :: rest)).
    rewrite !append_assoc. reflexivity.
Qed.

(** X15.  [Session.build_url] with a [base_url] keyword that is not empty
    never fails: with no parts it is the base URL itself, and each further
    part adds a slash and the [str] of the part, so a part that is [None]
    or a number is spelled out.  With the keyword empty or [None] it falls
    back on [self.base_url], which a [requests.Session] does not have:
    [AttributeError]. *)
Theorem build_url_parts (s : Session) (base : pyval) (args : list pyval) (x : pyval) :
  (truthy base = true ->
   build_url s [] base = Ok (py_str base) /\
   exists u,
     build_url s args base = Ok u /\
     build_url s (args ++ [x]) base = Ok (u ++ "/" ++ py_str x)) /\
  (truthy base = false ->
   build_url s args base = Raise (AttributeError "base_url")).
Proof.
  unfold build_url. split; intros ->; cbn [result_bind Session_base_url].
  - split; [reflexivity |]. eexists. split; [reflexivity |].
    cbn [map]. rewrite map_app. cbn [map].
    apply f_equal. apply (concat_snoc "/" (py_str x) (py_str base) (map py_str args)).
  - reflexivity.
Qed.

End UrlFacts.

Section CommandFacts.

Variable int_of_str : string -> result Z.
Variable environ : string -> option string.
Variable requests_get : Request -> result Response.
Variable dateutil_parse_str : string -> result parsed_datetime.
Variable pformat_dict : pyobj -> string.

Local Abbreviation command :=
  (server_info int_of_str environ requests_get dateutil_parse_str pformat_dict).

(** X16.  The command [server info] takes everything from the environment.
    With no [TEAMCITY_PORT] it sends one request, to port 80 of
    [TEAMCITY_HOST] (a host that is not set is spelled [None]), with
    [TEAMCITY_USER] and [TEAMCITY_PASSWORD] as credentials, and prints the
    formatted [ServerInfo] or ends with what the request raised.  With a
    [TEAMCITY_PORT] that [int] rejects it ends with that exception and sends
    nothing. *)
Theorem server_info_command :
  (environ "TEAMCITY_PORT" = None ->
   let request :=
     {| url := ("http://" ++ py_str (getenv environ "TEAMCITY_HOST" PyNone)
                ++ ":80/httpAuth/app/rest") ++ "/server";
        auth := (getenv environ "TEAMCITY_USER" PyNone,
                 getenv environ "TEAMCITY_PASSWORD" PyNone);
        headers := [("Accept", "application/json")] |} in
   command =
   (response <~ requests_get request ;;
    body <~ response_json response ;;
    info <~ ServerInfo_init dateutil_parse_str body ;;
    Ok (pformat_dict (ServerInfoObj info)),
    [request])) /\
  (forall text e,
     environ "TEAMCITY_PORT" = Some text -> int_of_str text = Raise e ->
     command = (Raise e, [])).
Proof.
  unfold server_info. split.
  - intros He. cbv zeta.
    assert (TeamCityRESTApiClient_init int_of_str environ PyNone PyNone PyNone PyNone
            = Ok {| _session := new_Session;
                    username := getenv environ "TEAMCITY_USER" PyNone;
                    password := getenv environ "TEAMCITY_PASSWORD" PyNone;
                    host := getenv environ "TEAMCITY_HOST" PyNone;
                    port := PyInt 80;
                    base_url := "http://" ++ py_str (getenv environ "TEAMCITY_HOST" PyNone)
                                ++ ":80/httpAuth/app/rest";
                    locators := []; parameters := [] |}) as ->.
    { unfold TeamCityRESTApiClient_init. cbv zeta. cbn [truthy].
      assert (getenv environ "TEAMCITY_PORT" (PyInt 0) = PyInt 0) as ->
        by (unfold getenv; rewrite He; reflexivity).
      reflexivity. }
    rewrite get_server_info_run. cbn [base_url username password truthy].
    cbn [String.eqb append Ascii.eqb Bool.eqb negb]. cbv zeta.
    unfold outcome, requests_of. cbn [fst snd sent].
    f_equal.
    destruct (requests_get _) as [response |]; cbn [result_bind]; [| reflexivity].
    destruct (response_json response) as [body |]; cbn [result_bind]; [| reflexivity].
    destruct (ServerInfo_init dateutil_parse_str body); reflexivity.
  - intros text e He Hi.
    unfold TeamCityRESTApiClient_init, getenv. cbv zeta. cbn [truthy].
    rewrite He. cbn [py_int]. rewrite Hi. reflexivity.
Qed.

End CommandFacts.

(** ** The further properties at work on the sample runtime *)

Lemma set_since_date_range_witness :
  let T := {| PyDatetime.year := 2014; PyDatetime.month := 3; PyDatetime.day := 1;
              PyDatetime.hour := 0; PyDatetime.minute := 10; PyDatetime.second := 5;
              PyDatetime.microsecond := 123 |} in
  (exists msg,
      run (set_since_date (PyInt 60100000) T) Sample.client
      = (Raise (ValueError msg), {| self := Sample.client; sent := [] |})) /\
  (exists msg,
      run (set_since_date (PyInt 10000000000) T) Sample.client
      = (Raise (OverflowError msg), {| self := Sample.client; sent := [] |})) /\
  (exists d,
      PyDatetime.timeline d = PyDatetime.timeline T - 60 * 30 /\
      run (set_since_date (PyInt 30) T) Sample.client
      = (Ok Self,
         {| self :=
              with_locators Sample.client
                [("sinceDate", PyStr (YYYYMMDD_T_HHMMSS d ++ "-0500"))];
            sent := [] |})).
Proof.
  cbv zeta.
  assert (PyDatetime.valid
            {| PyDatetime.year := 2014; PyDatetime.month := 3; PyDatetime.day := 1;
               PyDatetime.hour := 0; PyDatetime.minute := 10; PyDatetime.second := 5;
               PyDatetime.microsecond := 123 |}) as V
    by (cbv; repeat split; solve [reflexivity | discriminate]).
  split; [| split].
  - apply (set_since_date_range 60100000 _ Sample.client V).
    vm_compute. split; [discriminate | reflexivity].
  - apply (set_since_date_range 10000000000 _ Sample.client V).
    intros [H1 _]. vm_compute in H1. apply H1. reflexivity.
  - destruct (proj1 (set_since_date_range 30 _ Sample.client V)) as (d & _ & _ & Ht & _ & E).
    + vm_compute. split; [discriminate | reflexivity].
    + exists d. split; [exact Ht | exact E].
Defined.

Lemma setters_for_different_keys_commute_witness :
  dict_get "status"
    (locators (after_setters [SetStatus (PyStr "SUCCESS"); SetCount (PyInt 5)]
                 Sample.client))
  = dict_get "status"
      (locators (after_setters [SetCount (PyInt 5); SetStatus (PyStr "SUCCESS")]
                   Sample.client)).
Proof.
  apply (setters_for_different_keys_commute [] []
           (SetStatus (PyStr "SUCCESS")) (SetCount (PyInt 5)) Sample.client "status").
  discriminate.
Defined.

Lemma constructor_port_resolution_witness :
  exists c,
    TeamCityRESTApiClient_init Sample.int_of_str Sample.environ_with_port
      (PyStr "admin") (PyStr "secret") PyNone PyNone = Ok c /\
    base_url c = "http://tc.example.org:8111/httpAuth/app/rest".
Proof.
  destruct (constructor_port_resolution Sample.int_of_str Sample.environ_with_port
              (PyStr "admin") (PyStr "secret") PyNone) as (_ & H & _).
  destruct (H PyNone "8111" 8111 eq_refl eq_refl eq_refl ltac:(discriminate))
    as (c & E & _ & B).
  exists c. split; [exact E |]. rewrite B.
  injection E as <-. reflexivity.
Defined.

Lemma constructor_fallbacks_witness :
  username Sample.client = PyStr "admin" /\ host Sample.client = PyStr "tc.example.org".
Proof.
  destruct (constructor_fallbacks Sample.int_of_str Sample.environ
              (PyStr "admin") (PyStr "secret") (PyStr "tc.example.org") (PyInt 8111)
              Sample.client sample_client_built) as (U & _ & _ & _ & H & _).
  split; [apply U | apply H]; reflexivity.
Defined.

Lemma get_server_info_outcomes_witness :
  client_after (run (get_server_info Sample.requests_get Sample.parse_str) Sample.client)
  = Sample.client /\
  length (requests_of
            (run (get_server_info Sample.requests_get Sample.parse_str) Sample.client))
  = 1%nat.
Proof.
  destruct (get_server_info_outcomes Sample.int_of_str Sample.environ
              Sample.requests_get Sample.parse_str
              (PyStr "admin") (PyStr "secret") (PyStr "tc.example.org") (PyInt 8111)
              Sample.client sample_client_built) as (A & B & _).
  split; [exact A | rewrite B; reflexivity].
Defined.

Lemma get_server_info_ignores_status_witness :
  outcome (run (get_server_info Sample.requests_get Sample.parse_str) Sample.client)
  = outcome (run (get_server_info Sample.not_found_get Sample.parse_str) Sample.client).
Proof.
  apply (get_server_info_ignores_status Sample.requests_get Sample.not_found_get
           Sample.parse_str Sample.client).
  intros request. reflexivity.
Defined.

Lemma server_info_command_witness :
  server_info Sample.int_of_str Sample.environ Sample.requests_get Sample.parse_str
    Sample.pformat_dict
  = (Ok "ServerInfo",
     [{| url := "http://None:80/httpAuth/app/rest/server";
         auth := (PyNone, PyNone);
         headers := [("Accept", "application/json")] |}]).
Proof.
  destruct (server_info_command Sample.int_of_str Sample.environ Sample.requests_get
              Sample.parse_str Sample.pformat_dict) as [H _].
  rewrite (H eq_refl). reflexivity.
Defined.

(** ** [Resource._build_url] *)
Section ResourceFacts.

Variable int_of_str : string -> result Z.
Variable environ : string -> option string.

Lemma concat_cons_app (sep b x : string) (l : list string) :
  String.concat sep ((b ++ sep ++ x) :: l) = b ++ sep ++ String.concat sep (x :: l).
Proof.
  destruct l as [| y l].
  - reflexivity.
  - change (String.concat sep ((b ++ sep ++ x) :: y :: l))
      with ((b ++ sep ++ x) ++ sep ++ String.concat sep (y :: l)).
    change (String.concat sep (x :: y :: l))
      with (x ++ sep ++ String.concat sep (y :: l)).
    rewrite !append_assoc. reflexivity.
Qed.

Lemma concat_as_fold (sep b : string) (l : list string) :
  String.concat sep (b :: l) = fold_left (fun u x => u ++ sep ++ x) l b.
Proof.
  revert b. induction l as [| x l IH]; intros b.
  - reflexivity.
  - cbn [fold_left]. rewrite <- IH, concat_cons_app. reflexivity.
Qed.

(** X17.  On a client that the constructor built, [_build_url] never fails,
    sends nothing and changes nothing; the URL is the base URL followed, for
    each part in turn, by a slash and the [str] of the part. *)
Theorem build_url_on_client (u pw s p : pyval) (c : Client) (args : list pyval) :
  TeamCityRESTApiClient_init int_of_str environ u pw s p = Ok c ->
  run (_build_url args) c =
  (Ok (fold_left (fun url part => url ++ "/" ++ py_str part) args (base_url c)),
   {| self := c; sent := [] |}).
Proof.
  intros H. unfold run, _build_url, bind, get_self, lift, build_url. cbn [self].
  rewrite (init_truthy_base_url int_of_str environ u pw s p c H). cbn [result_bind].
  f_equal. f_equal. cbn [map py_str]. rewrite concat_as_fold.
  generalize (base_url c). induction args as [| x args IH]; intros b.
  - reflexivity.
  - cbn [map fold_left]. apply IH.
Qed.

End ResourceFacts.

Lemma build_url_on_client_witness :
  run (_build_url [PyStr "builds"; PyInt 7; PyNone]) Sample.client =
  (Ok "http://tc.example.org:8111/httpAuth/app/rest/builds/7/None",
   {| self := Sample.client; sent := [] |}).
Proof.
  rewrite (build_url_on_client Sample.int_of_str Sample.environ
             (PyStr "admin") (PyStr "secret") (PyStr "tc.example.org") (PyInt 8111)
             Sample.client [PyStr "builds"; PyInt 7; PyNone] sample_client_built).
  reflexivity.
Defined.
